(** * Auto Split: a shallow embedding of the Obsidian plugin

    The repository holds several snapshots of one small plugin, each embedded
    here in a module of its own:

    - [V110]: release 1.1 (first snapshot of [src/main.ts]): the file-open
      handler splits inline and settings carry the per-platform [enabledOn]
      object;
    - [V120]: release 1.2 (last snapshot): the handler and the command
      "Split and link current pane" both call [splitActiveFile];
    - [V100] and [V112]: releases 1.0 and 1.1.2, the snapshots before and
      between.

    The plugin is glue around the host application.  The host is kept
    abstract, as the interface [Host]: queries read the host state, commands
    change it, and every command the plugin issues is appended to a call
    log.  Properties of the plugin are properties of that log and of the
    plugin's own fields ([settings], [hasOpenFiles]), for every host.
    [Workspace] is a small concrete host used to evaluate the handlers. *)

From Stdlib Require Import ZArith NArith Bool List Ascii String Lia.
From stdpp Require Import base option list gmap strings.

#[local] Open Scope string_scope.
#[local] Open Scope Z_scope.
#[local] Set Warnings "-register-all".

(** ** Data *)

(** [type SplitDirectionSetting = 'vertical' | 'horizontal' | 'auto'] *)
Inductive SplitDirectionSetting : Type :=
| Vertical
| Horizontal
| Auto.

(** [type PaneTypeSetting = 'source' | 'preview'] *)
Inductive PaneTypeSetting : Type :=
| Source
| Preview.

(** The string a [PaneTypeSetting] is at run time; view modes reported by the
    host are compared with it by [===]. *)
Definition pane_name (p : PaneTypeSetting) : string :=
  match p with
  | Source => "source"
  | Preview => "preview"
  end.

(** Workspace leaves and files are opaque handles of the host. *)
Definition Leaf : Type := nat.
Definition TFile : Type := string.

(** What a host query throws. *)
Definition Exn : Type := string.

(** [{ width, height }] as [getRootContainerSize] returns it: [clientWidth]
    and [clientHeight] (or the window's inner size) are integers. *)
Record Size : Type := mkSize { width : Z; height : Z }.

(** The parts of a leaf's view state the plugin reads, writes or hands back:
    [type], [state.mode] ([None] when the view has no mode), [active] and
    [group]. *)
Record ViewState : Type := mkViewState {
  vs_type : string;
  vs_mode : option string;
  vs_active : option bool;
  vs_group : option Leaf
}.

Definition set_mode (m : string) (vs : ViewState) : ViewState :=
  {| vs_type := vs_type vs; vs_mode := Some m;
     vs_active := vs_active vs; vs_group := vs_group vs |}.

Definition set_active (a : bool) (vs : ViewState) : ViewState :=
  {| vs_type := vs_type vs; vs_mode := vs_mode vs;
     vs_active := Some a; vs_group := vs_group vs |}.

Definition set_group (g : Leaf) (vs : ViewState) : ViewState :=
  {| vs_type := vs_type vs; vs_mode := vs_mode vs;
     vs_active := vs_active vs; vs_group := Some g |}.

(** [mode === s] for a mode that may be absent. *)
Definition mode_is (m : option string) (s : string) : bool :=
  match m with
  | Some x => String.eqb x s
  | None => false
  end.

(** [viewState.state.mode === 'preview' ? 'source' : 'preview'] *)
Definition toggle_mode (m : option string) : string :=
  if mode_is m "preview" then "source" else "preview".

(** [newState.state.mode === 'source' ? 'preview' : 'source'], the toggle of
    the unused [newState] of release 1.1. *)
Definition toggle_mode_alt (m : option string) : string :=
  if mode_is m "source" then "preview" else "source".

(** [direction === 'auto'] is replaced by the longer side of the main area. *)
Definition resolve_direction (d : SplitDirectionSetting) (rootSize : Size)
  : SplitDirectionSetting :=
  match d with
  | Auto => if height rootSize <=? width rootSize then Vertical else Horizontal
  | _ => d
  end.

(** [direction === 'vertical' ? rootSize.width : rootSize.height] *)
Definition compared_dimension (direction : SplitDirectionSetting) (rootSize : Size) : Z :=
  match direction with
  | Vertical => width rootSize
  | _ => height rootSize
  end.

(** The size gate: [compared_dimension > minSize]. *)
Definition size_gate (direction : SplitDirectionSetting) (rootSize : Size) (minSize : Z) : bool :=
  minSize <? compared_dimension direction rootSize.

(** [editorFirst ? 'source' : 'preview'] *)
Definition firstPane (editorFirst : bool) : string :=
  if editorFirst then "source" else "preview".

(** ** The host *)

(** Commands the plugin issues to the workspace, as they are logged.
    [CreateLeafBySplit] records the leaf the host answered with. *)
Inductive Call : Type :=
| CreateLeafBySplit (leaf : Leaf) (direction : SplitDirectionSetting) (before : bool) (newLeaf : Leaf)
| OpenFile (leaf : Leaf) (file : TFile) (openState : ViewState)
| SetGroupMember (leaf other : Leaf)
| SetActiveLeaf (leaf : Leaf) (pushHistory : option bool) (focus : bool).

(** The capabilities of the host the plugin consumes.  Queries are functions of
    the host state; [getLeavesOfType] is the one the plugin expects to throw.
    Commands return the next host state.  [getViewState] answers with a
    snapshot: writing to it changes nothing in the host.

    - [isDesktop], [isMobile], [isPhone]: [Platform.isDesktop] and so on;
    - [getLeavesOfType h ty]: [workspace.getLeavesOfType(ty)];
    - [activeLeaf]: [workspace.activeLeaf] (release 1.1);
    - [getActiveMarkdownLeaf]: [workspace.getActiveViewOfType(MarkdownView)?.leaf]
      (release 1.2);
    - [activeEditorFile]: [workspace.activeEditor?.file];
    - [getViewState h leaf]: [leaf.getViewState()];
    - [rootContainer]: the element [getRootContainerSize] measures, when there
      is one, with its [clientWidth] and [clientHeight]; [windowSize]:
      [window.innerWidth] and [window.innerHeight];
    - [createLeafBySplit h leaf direction before]: the new leaf and the host
      after [workspace.createLeafBySplit(leaf, direction, before)];
    - [openFile h leaf file state]: the host after [leaf.openFile(file, state)];
    - [setGroupMember h leaf other]: after [leaf.setGroupMember(other)];
    - [setActiveLeaf h leaf pushHistory focus]: after
      [workspace.setActiveLeaf(leaf, true, true)] (release 1.1, both flags
      given) or [workspace.setActiveLeaf(leaf, { focus: true })] (release 1.2,
      no [pushHistory]). *)
Class Host (H : Type) : Type := {
  isDesktop : H -> bool;
  isMobile : H -> bool;
  isPhone : H -> bool;
  getLeavesOfType : H -> string -> Exn + list Leaf;
  activeLeaf : H -> option Leaf;
  getActiveMarkdownLeaf : H -> option Leaf;
  activeEditorFile : H -> option TFile;
  getViewState : H -> Leaf -> ViewState;
  rootContainer : H -> option Size;
  windowSize : H -> Size;
  createLeafBySplit : H -> Leaf -> SplitDirectionSetting -> bool -> Leaf * H;
  openFile : H -> Leaf -> TFile -> ViewState -> H;
  setGroupMember : H -> Leaf -> Leaf -> H;
  setActiveLeaf : H -> Leaf -> option bool -> bool -> H
}.

(** [getRootContainerSize(app)]; the console warning of the fallback branch is
    diagnostic output and is not a workspace call. *)
Definition getRootContainerSize {H : Type} `{Host H} (app : H) : Size :=
  match rootContainer app with
  | Some rc => rc
  | None => windowSize app
  end.

(** ** The plugin object and its effects *)

(** The fields of [AutoSplitPlugin], for a settings record [S].  An
    uninitialised [hasOpenFiles] (release 1.1) is falsy and is [false] here. *)
Record Plugin (S : Type) : Type := mkPlugin {
  settings : S;
  hasOpenFiles : bool
}.
Arguments mkPlugin {S} _ _.
Arguments settings {S} _.
Arguments hasOpenFiles {S} _.

(** What a handler runs against: the plugin object, the host, and the log of
    commands issued so far. *)
Record World (S H : Type) : Type := mkWorld {
  this : Plugin S;
  app : H;
  calls : list Call
}.
Arguments mkWorld {S H} _ _ _.
Arguments this {S H} _.
Arguments app {S H} _.
Arguments calls {S H} _.

(** A computation returns or throws; either way the world it reached stays. *)
Inductive Outcome (W A : Type) : Type :=
| Returned (a : A) (w : W)
| Thrown (e : Exn) (w : W).
Arguments Returned {W A} _ _.
Arguments Thrown {W A} _ _.

Definition M (W A : Type) : Type := W -> Outcome W A.

Definition ret {W A : Type} (a : A) : M W A := fun w => Returned a w.

Definition bind {W A B : Type} (c : M W A) (k : A -> M W B) : M W B :=
  fun w =>
    match c w with
    | Returned a w' => k a w'
    | Thrown e w' => Thrown e w'
    end.

(** [try { body } catch (e) { handler }] *)
Definition try_catch {W A : Type} (body : M W A) (handler : Exn -> M W A) : M W A :=
  fun w =>
    match body w with
    | Returned a w' => Returned a w'
    | Thrown e w' => handler e w'
    end.

Definition world_of {W A : Type} (o : Outcome W A) : W :=
  match o with
  | Returned _ w => w
  | Thrown _ w => w
  end.

Definition has_thrown {W A : Type} (o : Outcome W A) : bool :=
  match o with
  | Returned _ _ => false
  | Thrown _ _ => true
  end.

Declare Scope plugin_scope.
Delimit Scope plugin_scope with plugin.
Notation "x <- c ;; k" := (bind c (fun x => k))
  (at level 100, c at next level, right associativity) : plugin_scope.
Notation "c ;;; k" := (bind c (fun _ => k))
  (at level 100, right associativity) : plugin_scope.
#[local] Open Scope plugin_scope.

Section Effects.
Context {S H : Type} `{Host H}.

(** Reads of the host and of [this]. *)
Definition ask {A : Type} (q : H -> A) : M (World S H) A :=
  fun w => Returned (q (app w)) w.

Definition get_settings : M (World S H) S :=
  fun w => Returned (settings (this w)) w.

Definition get_hasOpenFiles : M (World S H) bool :=
  fun w => Returned (hasOpenFiles (this w)) w.

Definition set_hasOpenFiles (b : bool) : M (World S H) unit :=
  fun w => Returned tt (mkWorld (mkPlugin (settings (this w)) b) (app w) (calls w)).

(** [this.app.workspace.getLeavesOfType(ty)], which may throw. *)
Definition call_getLeavesOfType (ty : string) : M (World S H) (list Leaf) :=
  fun w =>
    match getLeavesOfType (app w) ty with
    | inr ls => Returned ls w
    | inl e => Thrown e w
    end.

(** Commands: the host moves on and the call is logged. *)
Definition call_createLeafBySplit (leaf : Leaf) (d : SplitDirectionSetting) (before : bool)
  : M (World S H) Leaf :=
  fun w =>
    let '(newLeaf, h') := createLeafBySplit (app w) leaf d before in
    Returned newLeaf
      (mkWorld (this w) h' (calls w ++ [CreateLeafBySplit leaf d before newLeaf])).

Definition call_openFile (leaf : Leaf) (file : TFile) (vs : ViewState) : M (World S H) unit :=
  fun w =>
    Returned tt (mkWorld (this w) (openFile (app w) leaf file vs)
                         (calls w ++ [OpenFile leaf file vs])).

Definition call_setGroupMember (leaf other : Leaf) : M (World S H) unit :=
  fun w =>
    Returned tt (mkWorld (this w) (setGroupMember (app w) leaf other)
                         (calls w ++ [SetGroupMember leaf other])).

Definition call_setActiveLeaf (leaf : Leaf) (pushHistory : option bool) (focus : bool)
  : M (World S H) unit :=
  fun w =>
    Returned tt (mkWorld (this w) (setActiveLeaf (app w) leaf pushHistory focus)
                         (calls w ++ [SetActiveLeaf leaf pushHistory focus])).

Definition when (b : bool) (c : M (World S H) unit) : M (World S H) unit :=
  if b then c else ret tt.

(** [updateHasOpenFiles], the same in every snapshot:
    [try { this.hasOpenFiles = getLeavesOfType('markdown').length > 0 }
     catch (e) { }]. *)
Definition updateHasOpenFiles : M (World S H) unit :=
  try_catch
    (ls <- call_getLeavesOfType "markdown" ;;
     set_hasOpenFiles (0 <? length ls)%nat)
    (fun _ => ret tt).
End Effects.

(** ** Release 1.1 ([src/main.ts], first snapshot) *)

Module V110.

Record EnabledOn : Type := mkEnabledOn {
  desktop : bool;
  mobile : bool
}.

(** [interface AutoSplitSettings] *)
Record AutoSplitSettings : Type := mkSettings {
  enabledOn : EnabledOn;
  minSize : Z;
  direction : SplitDirectionSetting;
  editorFirst : bool;
  paneToFocus : PaneTypeSetting;
  linkPanes : bool
}.

Definition DEFAULT_SETTINGS : AutoSplitSettings :=
  {| enabledOn := {| desktop := true; mobile := true |};
     minSize := 1000;
     direction := Auto;
     editorFirst := true;
     paneToFocus := Source;
     linkPanes := true |}.

Section Handlers.
Context {H : Type} `{Host H}.

#[local] Abbreviation W := (World AutoSplitSettings H).

(** [get isEnabledOnPlatform()] *)
Definition isEnabledOnPlatform (s : AutoSplitSettings) (h : H) : bool :=
  if isDesktop h then desktop (enabledOn s)
  else if isMobile h then mobile (enabledOn s)
  else true.

(** The condition of the handler's [if]:
    [isEnabledOnPlatform && activeLeaf && !hasOpenFiles && file]. *)
Definition file_open_checks (file : option TFile) : M W bool :=
  s <- get_settings ;;
  enabled <- ask (isEnabledOnPlatform s) ;;
  al <- ask activeLeaf ;;
  hof <- get_hasOpenFiles ;;
  ret (enabled && bool_decide (is_Some al) && negb hof && bool_decide (is_Some file)).

(** The body of the handler's [if], for the active leaf and the opened
    file.  [newState] is built from a first reading of the view state and
    never used; the split works on a second reading. *)
Definition split_on_open (currentLeaf : Leaf) (file : TFile) : M W unit :=
  s <- get_settings ;;
  vs0 <- ask (fun h => getViewState h currentLeaf) ;;
  let newState := set_mode (toggle_mode_alt (vs_mode vs0)) vs0 in
  let newState := if linkPanes s then set_group currentLeaf newState else newState in
  rootSize <- ask getRootContainerSize ;;
  let direction := resolve_direction (direction s) rootSize in
  when (size_gate direction rootSize (minSize s))
    (viewState <- ask (fun h => getViewState h currentLeaf) ;;
     let mode := toggle_mode (vs_mode viewState) in
     let viewState := set_mode mode viewState in
     newLeaf <- call_createLeafBySplit currentLeaf direction
                  (String.eqb mode (firstPane (editorFirst s))) ;;
     call_openFile newLeaf file viewState ;;;
     when (linkPanes s) (call_setGroupMember currentLeaf newLeaf) ;;;
     when (String.eqb mode (pane_name (paneToFocus s)))
       (call_setActiveLeaf newLeaf (Some true) true)).

(** The ['file-open'] handler registered in [onload]. *)
Definition on_file_open (file : option TFile) : M W unit :=
  ok <- file_open_checks file ;;
  al <- ask activeLeaf ;;
  match al, file with
  | Some currentLeaf, Some f => when ok (split_on_open currentLeaf f)
  | _, _ => ret tt
  end ;;;
  updateHasOpenFiles.
End Handlers.

End V110.

(** ** Release 1.2 (last snapshot) *)

Module V120.

(** [interface AutoSplitSettings] *)
Record AutoSplitSettings : Type := mkSettings {
  autoSplit : bool;
  minSize : Z;
  direction : SplitDirectionSetting;
  editorFirst : bool;
  paneToFocus : PaneTypeSetting;
  linkPanes : bool
}.

Definition DEFAULT_SETTINGS : AutoSplitSettings :=
  {| autoSplit := true;
     minSize := 1000;
     direction := Auto;
     editorFirst := true;
     paneToFocus := Source;
     linkPanes := true |}.

Section Handlers.
Context {H : Type} `{Host H}.

#[local] Abbreviation W := (World AutoSplitSettings H).

(** [async splitActiveFile(file, autoSplit = false)]; the awaited steps run
    in sequence. *)
Definition splitActiveFile (file : TFile) (auto_split : bool) : M W unit :=
  al <- ask getActiveMarkdownLeaf ;;
  match al with
  | None => ret tt
  | Some activeLeaf =>
      s <- get_settings ;;
      rootSize <- ask getRootContainerSize ;;
      let direction := resolve_direction (direction s) rootSize in
      if size_gate direction rootSize (minSize s) then
        viewState <- ask (fun h => getViewState h activeLeaf) ;;
        if negb (String.eqb (vs_type viewState) "markdown") then ret tt
        else
          let viewState := set_active false viewState in
          let mode := toggle_mode (vs_mode viewState) in
          let viewState := set_mode mode viewState in
          newLeaf <- call_createLeafBySplit activeLeaf direction
                       (auto_split && String.eqb mode (firstPane (editorFirst s))) ;;
          call_openFile newLeaf file viewState ;;;
          when (negb auto_split || linkPanes s)
            (call_setGroupMember activeLeaf newLeaf) ;;;
          when (auto_split && String.eqb mode (pane_name (paneToFocus s)))
            (call_setActiveLeaf newLeaf None true)
      else ret tt
  end.

(** [checkCallback] of the command "Split and link current pane"; it
    returns whether the command is available. *)
Definition split_current_pane (checking : bool) : M W bool :=
  phone <- ask isPhone ;;
  if phone then ret false
  else
    f <- ask activeEditorFile ;;
    match f with
    | None => ret false
    | Some file =>
        (if negb checking then splitActiveFile file false else ret tt) ;;;
        ret true
    end.

(** The condition of the handler's [if], evaluated left to right:
    [autoSplit && !isPhone && getLeavesOfType('markdown').length === 1
     && !hasOpenFiles && file].  The enumeration runs only when the two
    conjuncts before it hold, and may throw. *)
Definition file_open_checks (file : option TFile) : M W bool :=
  s <- get_settings ;;
  phone <- ask isPhone ;;
  if autoSplit s && negb phone then
    ls <- call_getLeavesOfType "markdown" ;;
    hof <- get_hasOpenFiles ;;
    ret ((length ls =? 1)%nat && negb hof && bool_decide (is_Some file))
  else ret false.

(** The ['file-open'] handler registered in [onload]. *)
Definition on_file_open (file : option TFile) : M W unit :=
  ok <- file_open_checks file ;;
  match file with
  | Some f => when ok (splitActiveFile f true)
  | None => ret tt
  end ;;;
  updateHasOpenFiles.
End Handlers.

End V120.


(** ** Settings as persisted

    [loadSettings] and [saveSettings] work on the settings as a JavaScript
    object, whatever a data file holds; the typed records above are what a
    well-formed object decodes to. *)

Module Persist.

(** JSON values; an object is a finite map from property names. *)
Inductive jsval : Type :=
| JBool (b : bool)
| JNum (n : Z)
| JStr (s : string)
| JObj (fields : gmap string jsval).

(** [Object.assign(target, ...sources)]: the own properties of each source are
    copied onto the target, later sources overwriting earlier ones, whole
    value by whole value; a [null] source is skipped. *)
Definition Object_assign (target : gmap string jsval) (sources : list (option (gmap string jsval)))
  : gmap string jsval :=
  foldl (fun t src => match src with Some o => o ∪ t | None => t end) target sources.

(** [this.settings = Object.assign({}, DEFAULT_SETTINGS, await this.loadData())],
    for the defaults [D] of a release; [data] is [None] when nothing was
    saved yet. *)
Definition loadSettings (D : gmap string jsval) (data : option (gmap string jsval))
  : gmap string jsval :=
  Object_assign ∅ [Some D; data].

(** [await this.saveData(this.settings)]: what the next [loadData] returns. *)
Definition saveSettings (settings : gmap string jsval) : option (gmap string jsval) :=
  Some settings.

(** [o.k1.k2], [None] standing for [undefined]. *)
Definition get_in (o : gmap string jsval) (k1 k2 : string) : option jsval :=
  match o !! k1 with
  | Some (JObj fields) => fields !! k2
  | _ => None
  end.

Definition direction_name (d : SplitDirectionSetting) : string :=
  match d with
  | Vertical => "vertical"
  | Horizontal => "horizontal"
  | Auto => "auto"
  end.

Definition direction_of (v : jsval) : option SplitDirectionSetting :=
  match v with
  | JStr s =>
      if String.eqb s "vertical" then Some Vertical
      else if String.eqb s "horizontal" then Some Horizontal
      else if String.eqb s "auto" then Some Auto
      else None
  | _ => None
  end.

Definition pane_of (v : jsval) : option PaneTypeSetting :=
  match v with
  | JStr s =>
      if String.eqb s "source" then Some Source
      else if String.eqb s "preview" then Some Preview
      else None
  | _ => None
  end.

Definition bool_of (v : jsval) : option bool :=
  match v with
  | JBool b => Some b
  | _ => None
  end.

Definition num_of (v : jsval) : option Z :=
  match v with
  | JNum n => Some n
  | _ => None
  end.

(** Release 1.1: the settings record as an object, and back. *)
Definition encode110 (s : V110.AutoSplitSettings) : gmap string jsval :=
  <["enabledOn" := JObj (<["desktop" := JBool (V110.desktop (V110.enabledOn s))]>
                         (<["mobile" := JBool (V110.mobile (V110.enabledOn s))]> ∅))]>
  (<["minSize" := JNum (V110.minSize s)]>
  (<["direction" := JStr (direction_name (V110.direction s))]>
  (<["editorFirst" := JBool (V110.editorFirst s)]>
  (<["paneToFocus" := JStr (pane_name (V110.paneToFocus s))]>
  (<["linkPanes" := JBool (V110.linkPanes s)]> ∅))))).

Definition decode110 (o : gmap string jsval) : option V110.AutoSplitSettings :=
  d ← get_in o "enabledOn" "desktop" ≫= bool_of;
  m ← get_in o "enabledOn" "mobile" ≫= bool_of;
  ms ← o !! "minSize" ≫= num_of;
  dir ← o !! "direction" ≫= direction_of;
  ef ← o !! "editorFirst" ≫= bool_of;
  pf ← o !! "paneToFocus" ≫= pane_of;
  lp ← o !! "linkPanes" ≫= bool_of;
  Some (V110.mkSettings (V110.mkEnabledOn d m) ms dir ef pf lp).

(** Release 1.2: no nested object. *)
Definition encode120 (s : V120.AutoSplitSettings) : gmap string jsval :=
  <["autoSplit" := JBool (V120.autoSplit s)]>
  (<["minSize" := JNum (V120.minSize s)]>
  (<["direction" := JStr (direction_name (V120.direction s))]>
  (<["editorFirst" := JBool (V120.editorFirst s)]>
  (<["paneToFocus" := JStr (pane_name (V120.paneToFocus s))]>
  (<["linkPanes" := JBool (V120.linkPanes s)]> ∅))))).

Definition decode120 (o : gmap string jsval) : option V120.AutoSplitSettings :=
  a ← o !! "autoSplit" ≫= bool_of;
  ms ← o !! "minSize" ≫= num_of;
  dir ← o !! "direction" ≫= direction_of;
  ef ← o !! "editorFirst" ≫= bool_of;
  pf ← o !! "paneToFocus" ≫= pane_of;
  lp ← o !! "linkPanes" ≫= bool_of;
  Some (V120.mkSettings a ms dir ef pf lp).

(** [const DEFAULT_SETTINGS] of each release, as the object it is. *)
Definition DEFAULT_SETTINGS110 : gmap string jsval := encode110 V110.DEFAULT_SETTINGS.
Definition DEFAULT_SETTINGS120 : gmap string jsval := encode120 V120.DEFAULT_SETTINGS.

(** JavaScript truthiness of a property value that may be absent. *)
Definition truthy (v : option jsval) : bool :=
  match v with
  | None => false
  | Some (JBool b) => b
  | Some (JNum n) => negb (n =? 0)
  | Some (JStr s) => negb (String.eqb s "")
  | Some (JObj _) => true
  end.

(** What the platform gate of release 1.1 reads on a mobile device:
    [this.settings.enabledOn.mobile]. *)
Definition enabled_on_mobile (settings : gmap string jsval) : bool :=
  truthy (get_in settings "enabledOn" "mobile").

(** A data file that holds only [{ "enabledOn": { "desktop": false } }]. *)
Definition partial_enabledOn : gmap string jsval :=
  {[ "enabledOn" := JObj {[ "desktop" := JBool false ]} ]}.

End Persist.


(** ** Reading the call log *)

Definition is_split (c : Call) : bool :=
  match c with
  | CreateLeafBySplit _ _ _ _ => true
  | _ => false
  end.

Definition is_group (c : Call) : bool :=
  match c with
  | SetGroupMember _ _ => true
  | _ => false
  end.

Definition is_activate (c : Call) : bool :=
  match c with
  | SetActiveLeaf _ _ _ => true
  | _ => false
  end.

(** A pane was split off. *)
Definition split_performed (log : list Call) : bool := existsb is_split log.

(** Two panes were registered as a linked group. *)
Definition panes_linked (log : list Call) : bool := existsb is_group log.

(** The plugin asked the workspace to make a leaf active. *)
Definition focus_requested (log : list Call) : bool := existsb is_activate log.

(** The leaf made active and focused by the log, if any. *)
Definition focused_leaf (log : list Call) : option Leaf :=
  match List.filter is_activate log with
  | SetActiveLeaf l _ true :: _ => Some l
  | _ => None
  end.

(** The view state the log opens leaf [l] with. *)
Definition opened_with (log : list Call) (l : Leaf) : option ViewState :=
  match List.filter (fun c => match c with OpenFile l' _ _ => Nat.eqb l' l | _ => false end) log with
  | OpenFile _ _ vs :: _ => Some vs
  | _ => None
  end.

(** The first split of the log: original leaf, direction, [before], new leaf. *)
Definition first_split (log : list Call)
  : option (Leaf * SplitDirectionSetting * bool * Leaf) :=
  match List.filter is_split log with
  | CreateLeafBySplit l d b nl :: _ => Some (l, d, b, nl)
  | _ => None
  end.


(** The shape of the log of one split: the split itself, the file opened in
    the new leaf, then the grouping and the activation when they are made. *)
Definition split_calls (l : Leaf) (d : SplitDirectionSetting) (before : bool) (nl : Leaf)
  (file : TFile) (vs : ViewState) (link : bool) (activate : bool) (pushHistory : option bool)
  : list Call :=
  [CreateLeafBySplit l d before nl; OpenFile nl file vs]
  ++ (if link then [SetGroupMember l nl] else [])
  ++ (if activate then [SetActiveLeaf nl pushHistory true] else []).

(** ** A concrete host

    A workspace small enough to run the handlers on: panes in layout order,
    the active leaf, the linked groups, the measured sizes, the platform, and
    a switch that makes the enumeration of leaves throw. *)

Record Pane : Type := mkPane {
  pane_leaf : Leaf;
  pane_view : ViewState;
  pane_file : option TFile
}.

Record Workspace : Type := mkWorkspace {
  ws_desktop : bool;
  ws_mobile : bool;
  ws_phone : bool;
  ws_panes : list Pane;
  ws_active : option Leaf;
  ws_groups : list (Leaf * Leaf);
  ws_root : option Size;
  ws_window : Size;
  ws_enumeration_throws : bool
}.

Definition ws_with (ws : Workspace) (panes : list Pane) (active : option Leaf)
  (groups : list (Leaf * Leaf)) : Workspace :=
  {| ws_desktop := ws_desktop ws; ws_mobile := ws_mobile ws; ws_phone := ws_phone ws;
     ws_panes := panes; ws_active := active; ws_groups := groups;
     ws_root := ws_root ws; ws_window := ws_window ws;
     ws_enumeration_throws := ws_enumeration_throws ws |}.

Definition ws_pane (ws : Workspace) (l : Leaf) : option Pane :=
  List.find (fun p => Nat.eqb (pane_leaf p) l) (ws_panes ws).

Definition empty_view : ViewState :=
  {| vs_type := "empty"; vs_mode := None; vs_active := None; vs_group := None |}.

Definition ws_getLeavesOfType (ws : Workspace) (ty : string) : Exn + list Leaf :=
  if ws_enumeration_throws ws then inl "enumeration failed"
  else inr (map pane_leaf
              (List.filter (fun p => String.eqb (vs_type (pane_view p)) ty) (ws_panes ws))).

Definition ws_getViewState (ws : Workspace) (l : Leaf) : ViewState :=
  match ws_pane ws l with
  | Some p => pane_view p
  | None => empty_view
  end.

Definition ws_getActiveMarkdownLeaf (ws : Workspace) : option Leaf :=
  match ws_active ws with
  | Some l => if String.eqb (vs_type (ws_getViewState ws l)) "markdown" then Some l else None
  | None => None
  end.

Definition ws_activeEditorFile (ws : Workspace) : option TFile :=
  match ws_active ws with
  | Some l => match ws_pane ws l with Some p => pane_file p | None => None end
  | None => None
  end.

Definition fresh_leaf (ws : Workspace) : Leaf :=
  S (foldr (fun p m => Nat.max (pane_leaf p) m) 0%nat (ws_panes ws)).

Fixpoint insert_pane (new : Pane) (l : Leaf) (before : bool) (panes : list Pane) : list Pane :=
  match panes with
  | [] => [new]
  | p :: rest =>
      if Nat.eqb (pane_leaf p) l then
        if before then new :: p :: rest else p :: new :: rest
      else p :: insert_pane new l before rest
  end.

Definition ws_createLeafBySplit (ws : Workspace) (l : Leaf) (d : SplitDirectionSetting)
  (before : bool) : Leaf * Workspace :=
  let nl := fresh_leaf ws in
  (nl, ws_with ws (insert_pane (mkPane nl empty_view None) l before (ws_panes ws))
               (ws_active ws) (ws_groups ws)).

Definition ws_openFile (ws : Workspace) (l : Leaf) (f : TFile) (vs : ViewState) : Workspace :=
  ws_with ws
    (map (fun p => if Nat.eqb (pane_leaf p) l then mkPane l vs (Some f) else p) (ws_panes ws))
    (if bool_decide (vs_active vs = Some true) then Some l else ws_active ws)
    (ws_groups ws).

Definition ws_setGroupMember (ws : Workspace) (l other : Leaf) : Workspace :=
  ws_with ws (ws_panes ws) (ws_active ws) (ws_groups ws ++ [(l, other)]).

Definition ws_setActiveLeaf (ws : Workspace) (l : Leaf) (pushHistory : option bool)
  (focus : bool) : Workspace :=
  ws_with ws (ws_panes ws) (Some l) (ws_groups ws).

#[global] Instance Workspace_Host : Host Workspace := {|
  isDesktop := ws_desktop;
  isMobile := ws_mobile;
  isPhone := ws_phone;
  getLeavesOfType := ws_getLeavesOfType;
  activeLeaf := ws_active;
  getActiveMarkdownLeaf := ws_getActiveMarkdownLeaf;
  activeEditorFile := ws_activeEditorFile;
  getViewState := ws_getViewState;
  rootContainer := ws_root;
  windowSize := ws_window;
  createLeafBySplit := ws_createLeafBySplit;
  openFile := ws_openFile;
  setGroupMember := ws_setGroupMember;
  setActiveLeaf := ws_setActiveLeaf
|}.

(** A note view in a given mode. *)
Definition markdown_view (mode : string) : ViewState :=
  {| vs_type := "markdown"; vs_mode := Some mode; vs_active := None; vs_group := None |}.

(** A desktop window showing one note, [note.md], focused, in a given mode,
    with a main area of a given size. *)
Definition one_note (mode : string) (root : Size) : Workspace :=
  {| ws_desktop := true; ws_mobile := false; ws_phone := false;
     ws_panes := [mkPane 1%nat (markdown_view mode) (Some "note.md")];
     ws_active := Some 1%nat;
     ws_groups := [];
     ws_root := Some root;
     ws_window := root;
     ws_enumeration_throws := false |}.

(** The same window with the focus outside the note: no active note view. *)
Definition one_note_unfocused (mode : string) (root : Size) : Workspace :=
  ws_with (one_note mode root) (ws_panes (one_note mode root)) None [].

(** The same window when the enumeration of leaves throws. *)
Definition one_note_throwing (mode : string) (root : Size) : Workspace :=
  {| ws_desktop := true; ws_mobile := false; ws_phone := false;
     ws_panes := [mkPane 1%nat (markdown_view mode) (Some "note.md")];
     ws_active := Some 1%nat;
     ws_groups := [];
     ws_root := Some root;
     ws_window := root;
     ws_enumeration_throws := true |}.


(** ** Running a handler, and sequences of events *)

(** The commands a computation issues from plugin [p] on host [h]. *)
Definition log_of {S H A : Type} (c : M (World S H) A) (p : Plugin S) (h : H) : list Call :=
  calls (world_of (c (mkWorld p h []))).

(** The plugin object a computation leaves behind. *)
Definition plugin_after {S H A : Type} (c : M (World S H) A) (p : Plugin S) (h : H) : Plugin S :=
  this (world_of (c (mkWorld p h []))).

Section Runs.
Context {S H : Type} `{Host H}.

(** The ['file-open'] handler of a release. *)
Variable handler : option TFile -> M (World S H) unit.

(** What happens to a loaded plugin: the workspace reports an opened file
    (the host is then in some state [h], whatever happened since the last
    event), or the settings tab stores new settings. *)
Inductive Event : Type :=
| FileOpen (h : H) (file : option TFile)
| SettingsChanged (s : S).

(** What the enumeration at the end of an invocation counted: the number of
    markdown leaves when the handler got that far and the enumeration
    answered, and the previous count otherwise. *)
Definition refresh_seen (seen : option nat) (o : Outcome (World S H) unit) : option nat :=
  match o with
  | Returned _ w =>
      match getLeavesOfType (app w) "markdown" with
      | inr ls => Some (length ls)
      | inl _ => seen
      end
  | Thrown _ _ => seen
  end.

(** One handled file-open event: the count of note views the latest
    successful enumeration before it reported ([None]: none succeeded yet),
    the flag it found, and the commands it issued. *)
Record Step : Type := mkStep {
  seen_before : option nat;
  flag_before : bool;
  step_calls : list Call
}.

Fixpoint run (p : Plugin S) (seen : option nat) (evs : list Event) : list Step :=
  match evs with
  | [] => []
  | FileOpen h file :: rest =>
      let o := handler file (mkWorld p h []) in
      mkStep seen (hasOpenFiles p) (calls (world_of o))
      :: run (this (world_of o)) (refresh_seen seen o) rest
  | SettingsChanged s :: rest =>
      run (mkPlugin s (hasOpenFiles p)) seen rest
  end.

(** [onload]: the settings [s] are loaded, then the callback given to
    [onLayoutReady] calls [updateHasOpenFiles] on the host as it is then, [h0],
    and registers the handler. *)
Definition loaded (s : S) (h0 : H) : Plugin S * option nat :=
  let o := updateHasOpenFiles (mkWorld (mkPlugin s false) h0 []) in
  (this (world_of o), refresh_seen None o).

Definition run_from_load (s : S) (h0 : H) (evs : list Event) : list Step :=
  run (fst (loaded s h0)) (snd (loaded s h0)) evs.

End Runs.
Arguments FileOpen {S H} _ _.
Arguments SettingsChanged {S H} _.


(** ** Notions the properties are stated with *)




(** The direction a handler resolves on host [h] and the dimension it then
    compares with [minSize], for each release. *)
Definition resolved110 {H : Type} `{Host H} (p : Plugin V110.AutoSplitSettings) (h : H)
  : SplitDirectionSetting :=
  resolve_direction (V110.direction (settings p)) (getRootContainerSize h).

Definition compared110 {H : Type} `{Host H} (p : Plugin V110.AutoSplitSettings) (h : H) : Z :=
  compared_dimension (resolved110 p h) (getRootContainerSize h).

Definition resolved120 {H : Type} `{Host H} (p : Plugin V120.AutoSplitSettings) (h : H)
  : SplitDirectionSetting :=
  resolve_direction (V120.direction (settings p)) (getRootContainerSize h).

Definition compared120 {H : Type} `{Host H} (p : Plugin V120.AutoSplitSettings) (h : H) : Z :=
  compared_dimension (resolved120 p h) (getRootContainerSize h).

(** The world a handler starts in: plugin [p], host [h], nothing logged. *)
Definition start {S H : Type} (p : Plugin S) (h : H) : World S H := mkWorld p h [].

(** The checks of a file-open event pass. *)
Definition passes_checks110 {H : Type} `{Host H} (file : option TFile)
  (p : Plugin V110.AutoSplitSettings) (h : H) : Prop :=
  V110.file_open_checks file (start p h) = Returned true (start p h).

Definition passes_checks120 {H : Type} `{Host H} (file : option TFile)
  (p : Plugin V120.AutoSplitSettings) (h : H) : Prop :=
  V120.file_open_checks file (start p h) = Returned true (start p h).


(** The log is that of a split after which the new leaf is made active and
    focused exactly when it was opened in the preferred mode [pref], and no
    leaf is made active otherwise. *)
Definition focus_by_preference (pref : PaneTypeSetting) (log : list Call) : Prop :=
  exists l d b nl vs,
    first_split log = Some (l, d, b, nl)
    /\ opened_with log nl = Some vs
    /\ (focused_leaf log = Some nl <-> vs_mode vs = Some (pane_name pref))
    /\ (vs_mode vs <> Some (pane_name pref) -> focus_requested log = false).

(** Settings with another [linkPanes]. *)
Definition with_linkPanes110 (b : bool) (s : V110.AutoSplitSettings) : V110.AutoSplitSettings :=
  V110.mkSettings (V110.enabledOn s) (V110.minSize s) (V110.direction s)
    (V110.editorFirst s) (V110.paneToFocus s) b.

Definition with_linkPanes120 (b : bool) (s : V120.AutoSplitSettings) : V120.AutoSplitSettings :=
  V120.mkSettings (V120.autoSplit s) (V120.minSize s) (V120.direction s)
    (V120.editorFirst s) (V120.paneToFocus s) b.


(** The flag says what the latest successful enumeration counted: up when it
    counted at least one note view, down when it counted none or when no
    enumeration has succeeded yet. *)
Definition flag_of_seen (seen : option nat) : bool :=
  match seen with
  | Some n => (0 <? n)%nat
  | None => false
  end.

(** What a handled file-open event must satisfy: the flag it found is the
    record of the latest successful enumeration, and a split is made only when
    that enumeration (if any) counted no note view. *)
Definition splits_only_when_empty (st : Step) : Prop :=
  flag_before st = flag_of_seen (seen_before st)
  /\ (split_performed (step_calls st) = true ->
      flag_before st = false
      /\ (seen_before st = None \/ seen_before st = Some 0%nat))
  /\ (forall n : nat,
         seen_before st = Some (S n) -> split_performed (step_calls st) = false).

(** What a step of a run shows: the recorded count and whether it split. *)
Definition step_summary (st : Step) : option nat * bool :=
  (seen_before st, split_performed (step_calls st)).

(** ** Plugins, files and windows of the examples *)

(** A freshly loaded plugin with the default settings, flag down. *)
Definition fresh110 : Plugin V110.AutoSplitSettings := mkPlugin V110.DEFAULT_SETTINGS false.
Definition fresh120 : Plugin V120.AutoSplitSettings := mkPlugin V120.DEFAULT_SETTINGS false.

(** The defaults with panes not linked. *)
Definition unlinked110 : Plugin V110.AutoSplitSettings :=
  mkPlugin (with_linkPanes110 false V110.DEFAULT_SETTINGS) false.

Definition unlinked120 : Plugin V120.AutoSplitSettings :=
  mkPlugin (with_linkPanes120 false V120.DEFAULT_SETTINGS) false.


Definition preview_first120 : Plugin V120.AutoSplitSettings :=
  mkPlugin (V120.mkSettings true 1000 Auto false Source true) false.

Definition note : TFile := "note.md".

(** A wide and a tall main area. *)
Definition wide : Size := mkSize 1600 900.
Definition tall : Size := mkSize 800 1200.

(** A desktop window with no pane at all. *)
Definition no_note (root : Size) : Workspace :=
  {| ws_desktop := true; ws_mobile := false; ws_phone := false;
     ws_panes := [];
     ws_active := None;
     ws_groups := [];
     ws_root := Some root;
     ws_window := root;
     ws_enumeration_throws := false |}.

(** * The rest of the code *)

(** ** Release 1.0 (first snapshot of the unnamed file) *)

Module V100.

(** [interface AutoSplitSettings]: no platform setting yet. *)
Record AutoSplitSettings : Type := mkSettings {
  minSize : Z;
  direction : SplitDirectionSetting;
  editorFirst : bool;
  paneToFocus : PaneTypeSetting;
  linkPanes : bool
}.

Definition DEFAULT_SETTINGS : AutoSplitSettings :=
  {| minSize := 1000;
     direction := Auto;
     editorFirst := true;
     paneToFocus := Source;
     linkPanes := true |}.

Section Handlers.
Context {H : Type} `{Host H}.

#[local] Abbreviation W := (World AutoSplitSettings H).

(** The condition of the handler's [if]: [activeLeaf && !hasOpenFiles && file]. *)
Definition file_open_checks (file : option TFile) : M W bool :=
  al <- ask activeLeaf ;;
  hof <- get_hasOpenFiles ;;
  ret (bool_decide (is_Some al) && negb hof && bool_decide (is_Some file)).

(** The body of the handler's [if]; the same text as in release 1.1. *)
Definition split_on_open (currentLeaf : Leaf) (file : TFile) : M W unit :=
  s <- get_settings ;;
  vs0 <- ask (fun h => getViewState h currentLeaf) ;;
  let newState := set_mode (toggle_mode_alt (vs_mode vs0)) vs0 in
  let newState := if linkPanes s then set_group currentLeaf newState else newState in
  rootSize <- ask getRootContainerSize ;;
  let direction := resolve_direction (direction s) rootSize in
  when (size_gate direction rootSize (minSize s))
    (viewState <- ask (fun h => getViewState h currentLeaf) ;;
     let mode := toggle_mode (vs_mode viewState) in
     let viewState := set_mode mode viewState in
     newLeaf <- call_createLeafBySplit currentLeaf direction
                  (String.eqb mode (firstPane (editorFirst s))) ;;
     call_openFile newLeaf file viewState ;;;
     when (linkPanes s) (call_setGroupMember currentLeaf newLeaf) ;;;
     when (String.eqb mode (pane_name (paneToFocus s)))
       (call_setActiveLeaf newLeaf (Some true) true)).

(** The ['file-open'] handler registered in [onload]. *)
Definition on_file_open (file : option TFile) : M W unit :=
  ok <- file_open_checks file ;;
  al <- ask activeLeaf ;;
  match al, file with
  | Some currentLeaf, Some f => when ok (split_on_open currentLeaf f)
  | _, _ => ret tt
  end ;;;
  updateHasOpenFiles.
End Handlers.

End V100.

(** ** Release 1.1.2 (second snapshot of [src/main.ts])

    The settings are those of release 1.1. *)

Module V112.

(** How the body of the handler ends: it runs to its end, or it leaves the
    handler by [return]. *)
Inductive Completion : Type :=
| Normal
| Return.

Section Handlers.
Context {H : Type} `{Host H}.

#[local] Abbreviation W := (World V110.AutoSplitSettings H).

(** The condition of the handler's [if], evaluated left to right:
    [isEnabledOnPlatform && activeLeaf
     && getLeavesOfType('markdown').length === 1 && !hasOpenFiles && file],
    where [activeLeaf] is [getActiveViewOfType(MarkdownView)?.leaf].  The
    enumeration runs only when the two conjuncts before it hold, and may
    throw. *)
Definition file_open_checks (file : option TFile) : M W bool :=
  al <- ask getActiveMarkdownLeaf ;;
  s <- get_settings ;;
  enabled <- ask (V110.isEnabledOnPlatform s) ;;
  if enabled && bool_decide (is_Some al) then
    ls <- call_getLeavesOfType "markdown" ;;
    hof <- get_hasOpenFiles ;;
    ret ((length ls =? 1)%nat && negb hof && bool_decide (is_Some file))
  else ret false.

(** The body of the handler's [if].  [if (viewState.type !== 'markdown')
    return] leaves the whole handler. *)
Definition split_on_open (activeLeaf : Leaf) (file : TFile) : M W Completion :=
  s <- get_settings ;;
  rootSize <- ask getRootContainerSize ;;
  let direction := resolve_direction (V110.direction s) rootSize in
  if size_gate direction rootSize (V110.minSize s) then
    viewState <- ask (fun h => getViewState h activeLeaf) ;;
    if negb (String.eqb (vs_type viewState) "markdown") then ret Return
    else
      let viewState := set_active false viewState in
      let mode := toggle_mode (vs_mode viewState) in
      let viewState := set_mode mode viewState in
      newLeaf <- call_createLeafBySplit activeLeaf direction
                   (String.eqb mode (firstPane (V110.editorFirst s))) ;;
      call_openFile newLeaf file viewState ;;;
      when (V110.linkPanes s) (call_setGroupMember activeLeaf newLeaf) ;;;
      when (String.eqb mode (pane_name (V110.paneToFocus s)))
        (call_setActiveLeaf newLeaf None true) ;;;
      ret Normal
  else ret Normal.

(** The ['file-open'] handler registered in [onload]: the refresh at its end
    is reached unless the body returned. *)
Definition on_file_open (file : option TFile) : M W unit :=
  al <- ask getActiveMarkdownLeaf ;;
  ok <- file_open_checks file ;;
  c <- match al, file with
       | Some activeLeaf, Some f =>
           if ok then split_on_open activeLeaf f else ret Normal
       | _, _ => ret Normal
       end ;;
  match c with
  | Normal => updateHasOpenFiles
  | Return => ret tt
  end.
End Handlers.

End V112.

(** ** Comparing releases *)

(** Two runs did the same: both returned or both threw, after the same
    commands, in the same host state and with the same flag. *)
Definition same_effect {S1 S2 H A : Type}
  (o1 : Outcome (World S1 H) A) (o2 : Outcome (World S2 H) A) : Prop :=
  has_thrown o1 = has_thrown o2
  /\ calls (world_of o1) = calls (world_of o2)
  /\ app (world_of o1) = app (world_of o2)
  /\ hasOpenFiles (this (world_of o1)) = hasOpenFiles (this (world_of o2)).

(** Release 1.0 settings with a platform setting added, as release 1.1 has
    them. *)
Definition with_enabledOn (e : V110.EnabledOn) (s : V100.AutoSplitSettings)
  : V110.AutoSplitSettings :=
  V110.mkSettings e (V100.minSize s) (V100.direction s) (V100.editorFirst s)
    (V100.paneToFocus s) (V100.linkPanes s).

(** Release 1.1 settings with [autoSplit] in the place of [enabledOn], as
    release 1.2 has them. *)
Definition with_autoSplit (a : bool) (s : V110.AutoSplitSettings) : V120.AutoSplitSettings :=
  V120.mkSettings a (V110.minSize s) (V110.direction s) (V110.editorFirst s)
    (V110.paneToFocus s) (V110.linkPanes s).

(** A host that answers from a script: every query has a fixed answer,
    whatever the commands did, and [createLeafBySplit] hands out the leaf
    [sc_new].  It can give answers a real workspace would not combine, such
    as an active markdown view whose view state is of another type. *)
Record Script : Type := mkScript {
  sc_desktop : bool;
  sc_mobile : bool;
  sc_phone : bool;
  sc_leaves : Exn + list Leaf;
  sc_active : option Leaf;
  sc_active_markdown : option Leaf;
  sc_editor_file : option TFile;
  sc_view : ViewState;
  sc_root : option Size;
  sc_window : Size;
  sc_new : Leaf
}.

#[global] Instance Script_Host : Host Script := {|
  isDesktop := sc_desktop;
  isMobile := sc_mobile;
  isPhone := sc_phone;
  getLeavesOfType := fun sc _ => sc_leaves sc;
  activeLeaf := sc_active;
  getActiveMarkdownLeaf := sc_active_markdown;
  activeEditorFile := sc_editor_file;
  getViewState := fun sc _ => sc_view sc;
  rootContainer := sc_root;
  windowSize := sc_window;
  createLeafBySplit := fun sc _ _ _ => (sc_new sc, sc);
  openFile := fun sc _ _ _ => sc;
  setGroupMember := fun sc _ _ => sc;
  setActiveLeaf := fun sc _ _ _ => sc
|}.

(** The value a computation returned, if it did. *)
Definition returned {W A : Type} (o : Outcome W A) : option A :=
  match o with
  | Returned a _ => Some a
  | Thrown _ _ => None
  end.

(** The log is that of one split of leaf [l] on host [h]: the leaf the host
    hands out is opened on file [f] with the view state of [l], prepared by
    [prepare] and with its mode toggled, and nothing else is called but, at
    most, the grouping of [l] with the new leaf and the activation of the new
    leaf. *)
Definition one_split_of {H : Type} `{Host H} (h : H) (l : Leaf) (f : TFile)
  (prepare : ViewState -> ViewState) (log : list Call) : Prop :=
  exists (d : SplitDirectionSetting) (b link act : bool) (push : option bool),
    log = split_calls l d b (fst (createLeafBySplit h l d b)) f
            (set_mode (toggle_mode (vs_mode (getViewState h l))) (prepare (getViewState h l)))
            link act push.

(** A script of a wide desktop window with one markdown leaf, enumerated and
    active, whose view state is of the type given. *)
Definition scripted_note (ty : string) : Script :=
  {| sc_desktop := true; sc_mobile := false; sc_phone := false;
     sc_leaves := inr [1%nat];
     sc_active := Some 1%nat;
     sc_active_markdown := Some 1%nat;
     sc_editor_file := Some "note.md";
     sc_view := {| vs_type := ty; vs_mode := Some "source";
                   vs_active := None; vs_group := None |};
     sc_root := Some (mkSize 1600 900);
     sc_window := mkSize 1600 900;
     sc_new := 2%nat |}.

(** A phone showing one note. *)
Definition phone_note : Workspace :=
  {| ws_desktop := false; ws_mobile := true; ws_phone := true;
     ws_panes := [mkPane 1%nat (markdown_view "source") (Some "note.md")];
     ws_active := Some 1%nat;
     ws_groups := [];
     ws_root := Some (mkSize 400 800);
     ws_window := mkSize 400 800;
     ws_enumeration_throws := false |}.

(** ** The settings tab

    Every control of [AutoSplitSettingTab.display] has an [onChange] handler
    that writes one property of [this.plugin.settings] and saves the
    settings.  The settings are the JavaScript object of [Persist]. *)

Module SettingsTab.
Import Persist.

(** *** [Number.parseInt] and [String] on integers

    A string is its sequence of code units, each below 256.  A Number that
    holds an integer is that integer: every integer of magnitude up to 2^53
    is one, and beyond that the doubles, which are integers too. *)

(** White space and line terminators, as [parseInt] skips them, among the
    code units below 256: TAB, LF, VT, FF, CR, SP and NBSP. *)
Definition is_white (c : ascii) : bool :=
  let n := N_of_ascii c in
  ((n =? 9) || (n =? 10) || (n =? 11) || (n =? 12) || (n =? 13) || (n =? 32) || (n =? 160))%N.

Fixpoint trim_start (s : string) : string :=
  match s with
  | String c r => if is_white c then trim_start r else s
  | EmptyString => s
  end.

(** The value of a code unit as a digit: 0-9, then a-z or A-Z for 10-35. *)
Definition digit_value (c : ascii) : option N :=
  let n := N_of_ascii c in
  if ((48 <=? n) && (n <=? 57))%N then Some (n - 48)%N
  else if ((97 <=? n) && (n <=? 122))%N then Some (n - 87)%N
  else if ((65 <=? n) && (n <=? 90))%N then Some (n - 55)%N
  else None.

Definition radix_digit (R : N) (c : ascii) : option N :=
  match digit_value c with
  | Some d => if (d <? R)%N then Some d else None
  | None => None
  end.

(** The digits of the longest prefix of radix-[R] digits. *)
Fixpoint take_digits (R : N) (s : string) : list N :=
  match s with
  | String c r =>
      match radix_digit R c with
      | Some d => d :: take_digits R r
      | None => []
      end
  | EmptyString => []
  end.

Definition digits_value (R : N) (ds : list N) : N :=
  fold_left (fun acc d => R * acc + d)%N ds 0%N.

(** What [parseInt] returns: [NaN], the integer the digits denote when a
    double holds it exactly, the double nearest to it when they denote more
    than 2^53, or an infinity when that double would be 2^1024 or more. *)
Inductive Parsed : Type :=
| NaN
| Exact (n : Z)
| Rounded (n : Z)
| Infinite.

(** The Number value of an integer above 2^53: the nearest double, a tie
    going to the even mantissa of 53 bits; [None] when it is 2^1024 or more,
    which is [Infinity]. *)
Definition nearest_double (m : N) : option N :=
  let shift := (N.log2 m - 52)%N in
  let mantissa := N.shiftr m shift in
  let rest := (m mod 2 ^ shift)%N in
  let half := (2 ^ (shift - 1))%N in
  let up := ((half <? rest) || ((rest =? half) && N.odd mantissa))%N in
  let d := ((if up then mantissa + 1 else mantissa) * 2 ^ shift)%N in
  if (d <? 2 ^ 1024)%N then Some d else None.

(** [Number.isInteger]. *)
Definition Number_isInteger (x : Parsed) : option Z :=
  match x with
  | Exact n => Some n
  | Rounded n => Some n
  | NaN => None
  | Infinite => None
  end.

Definition is_x (c : ascii) : bool :=
  let n := N_of_ascii c in ((n =? 120) || (n =? 88))%N.

(** The steps of [parseInt]: the sign, then the prefix ["0x"] or ["0X"]. *)
Definition is_negative (s : string) : bool :=
  match s with
  | String "-" _ => true
  | _ => false
  end.

Definition strip_sign (s : string) : string :=
  match s with
  | String "-" r => r
  | String "+" r => r
  | _ => s
  end.

Definition hex_prefix (s : string) : bool :=
  match s with
  | String "0" (String c _) => is_x c
  | _ => false
  end.

Definition strip_prefix (s : string) : string :=
  match s with
  | String _ (String _ r) => if hex_prefix s then r else s
  | _ => s
  end.

(** [Number.parseInt(s)], no radix given: leading white space is skipped, a
    sign is read, ["0x"] or ["0X"] selects radix 16, and the longest prefix of
    digits is the number; no digit at all gives [NaN].  What follows the
    digits is ignored.  The number is the Number value of the integer the
    digits denote (the language lets an implementation read the decimal
    digits after the twentieth as zeros; here they count). *)
Definition parseInt (s : string) : Parsed :=
  let s1 := trim_start s in
  let s2 := strip_sign s1 in
  let R := if hex_prefix s2 then 16%N else 10%N in
  match take_digits R (strip_prefix s2) with
  | [] => NaN
  | ds =>
      let m := digits_value R ds in
      if (m <=? 2 ^ 53)%N
      then Exact (if is_negative s1 then - Z.of_N m else Z.of_N m)
      else
        match nearest_double m with
        | Some d => Rounded (if is_negative s1 then - Z.of_N d else Z.of_N d)
        | None => Infinite
        end
  end.

(** The decimal digits of a natural number, most significant first. *)
Fixpoint digits_fuel (fuel : nat) (n : N) : list N :=
  match fuel with
  | O => []
  | S f => if (n <? 10)%N then [n] else digits_fuel f (n / 10)%N ++ [(n mod 10)%N]
  end.

Definition decimal_digits (n : N) : list N :=
  digits_fuel (S (N.to_nat (N.log2 n))) n.

Definition digit_char (d : N) : ascii := ascii_of_N (48 + d).

Definition string_of_digits (ds : list N) : string :=
  fold_right (fun d s => String (digit_char d) s) EmptyString ds.

(** [String(n)] for an integer [n] of magnitude below 10^21, where it is the
    decimal numeral; larger numbers print with an exponent, outside this
    model. *)
Definition Number_toString (n : Z) : option string :=
  if Z.abs n <? 10 ^ 21 then
    Some (if n <? 0
          then String "-" (string_of_digits (decimal_digits (Z.abs_N n)))
          else string_of_digits (decimal_digits (Z.abs_N n)))
  else None.

(** The text the field of [minSize] shows:
    [.setValue(String(this.plugin.settings.minSize))]. *)
Definition shown_minSize (settings : gmap string jsval) : option string :=
  match settings !! "minSize" with
  | Some (JNum n) => Number_toString n
  | _ => None
  end.

(** A text that does not go on with a decimal digit, as a unit such as
    ["px"] or nothing at all. *)
Definition no_digit_ahead (rest : string) : bool :=
  match rest with
  | String c _ =>
      match radix_digit 10 c with
      | Some _ => false
      | None => true
      end
  | EmptyString => true
  end.

(** A text that does not go on with [x] or [X]. *)
Definition no_x_ahead (rest : string) : bool :=
  match rest with
  | String c _ => negb (is_x c)
  | EmptyString => true
  end.

(** *** The handlers *)

(** What a handler did: it wrote the settings and saved them, or it threw
    before saving. *)
Inductive Handled : Type :=
| Saved (settings : gmap string jsval)
| TypeError.




(** The text field of [minSize]:
    [const valueAsNumber = Number.parseInt(value);
     settings.minSize = Number.isInteger(valueAsNumber) ? valueAsNumber : settings.minSize]. *)
Definition set_minSize (value : string) (settings : gmap string jsval) : Handled :=
  match Number_isInteger (parseInt value) with
  | Some n => Saved (<["minSize" := JNum n]> settings)
  | None =>
      Saved (match settings !! "minSize" with
             | Some v => <["minSize" := v]> settings
             | None => settings
             end)
  end.





(** The settings in memory and the data file. *)
Record Tab : Type := mkTab {
  tab_settings : gmap string jsval;
  tab_data : option (gmap string jsval)
}.

(** The plugin once loaded over a data file, with defaults [D]. *)
Definition opened (D : gmap string jsval) (data : option (gmap string jsval)) : Tab :=
  mkTab (loadSettings D data) data.

(** One change that goes through: after the write,
    [await this.plugin.saveSettings()].  [None]: the handler threw, and has
    written and saved nothing. *)
Definition change {C : Type} (onChange : C -> gmap string jsval -> Handled) (c : C) (t : Tab)
  : option Tab :=
  match onChange c (tab_settings t) with
  | Saved s => Some (mkTab s (saveSettings s))
  | TypeError => None
  end.




End SettingsTab.

(** ** Data files of an earlier release *)

Module Upgrade.
Import Persist.

(** Release 1.0: the settings record as the object it saves. *)
Definition encode100 (s : V100.AutoSplitSettings) : gmap string jsval :=
  <["minSize" := JNum (V100.minSize s)]>
  (<["direction" := JStr (direction_name (V100.direction s))]>
  (<["editorFirst" := JBool (V100.editorFirst s)]>
  (<["paneToFocus" := JStr (pane_name (V100.paneToFocus s))]>
  (<["linkPanes" := JBool (V100.linkPanes s)]> ∅)))).

End Upgrade.

(** ** The host after a handler, and where the focus is *)

(** The host a computation leaves behind. *)
Definition host_after {S H A : Type} (c : M (World S H) A) (p : Plugin S) (h : H) : H :=
  app (world_of (c (mkWorld p h []))).

(** What a logged call does to the host. *)
Definition perform {H : Type} `{Host H} (c : Call) (h : H) : H :=
  match c with
  | CreateLeafBySplit leaf d before _ => snd (createLeafBySplit h leaf d before)
  | OpenFile leaf file vs => openFile h leaf file vs
  | SetGroupMember leaf other => setGroupMember h leaf other
  | SetActiveLeaf leaf pushHistory focus => setActiveLeaf h leaf pushHistory focus
  end.

Definition replay {H : Type} `{Host H} (log : list Call) (h : H) : H :=
  fold_left (fun h c => perform c h) log h.

(** A workspace on which the focus does not move unasked: [setActiveLeaf]
    moves it to its leaf; opening a file in a leaf leaves it when the state
    handed over says [active: false]; a split and a link leave it. *)
Class FocusLaws (H : Type) {HH : Host H} : Prop := {
  split_keeps_focus : forall (h : H) (l : Leaf) (d : SplitDirectionSetting) (b : bool),
    activeLeaf (snd (createLeafBySplit h l d b)) = activeLeaf h;
  open_inactive_keeps_focus : forall (h : H) (l : Leaf) (f : TFile) (vs : ViewState),
    vs_active vs = Some false -> activeLeaf (openFile h l f vs) = activeLeaf h;
  link_keeps_focus : forall (h : H) (l other : Leaf),
    activeLeaf (setGroupMember h l other) = activeLeaf h;
  setActiveLeaf_takes_focus : forall (h : H) (l : Leaf) (push : option bool) (focus : bool),
    activeLeaf (setActiveLeaf h l push focus) = Some l
}.

(** A workspace that honours the [active] flag of the state handed to
    [openFile]: opening a file with [active: true] moves the focus there. *)
Definition honours_active (H : Type) {HH : Host H} : Prop :=
  forall (h : H) (l : Leaf) (f : TFile) (vs : ViewState),
    vs_active vs = Some true -> activeLeaf (openFile h l f vs) = Some l.

(** A desktop window showing [note.md] twice, in the editor (leaf 1, focused)
    and in preview (leaf 2), linked: what the split of [one_note "source"]
    leaves behind. *)
Definition two_notes (root : Size) : Workspace :=
  {| ws_desktop := true; ws_mobile := false; ws_phone := false;
     ws_panes := [mkPane 1%nat (markdown_view "source") (Some "note.md");
                  mkPane 2%nat (markdown_view "preview") (Some "note.md")];
     ws_active := Some 1%nat;
     ws_groups := [(1%nat, 2%nat)];
     ws_root := Some root;
     ws_window := root;
     ws_enumeration_throws := false |}.

(** A desktop window showing one note, focused, whose view state says so:
    [active: true]. *)
Definition one_active_note (mode : string) (root : Size) : Workspace :=
  {| ws_desktop := true; ws_mobile := false; ws_phone := false;
     ws_panes := [mkPane 1%nat (set_active true (markdown_view mode)) (Some "note.md")];
     ws_active := Some 1%nat;
     ws_groups := [];
     ws_root := Some root;
     ws_window := root;
     ws_enumeration_throws := false |}.

(** * Properties *)

(** ** The monad and the flag refresh *)

Ltac unfold_effects :=
  unfold bind, ret, when, ask, get_settings, get_hasOpenFiles, set_hasOpenFiles,
    call_getLeavesOfType, call_createLeafBySplit, call_openFile,
    call_setGroupMember, call_setActiveLeaf, try_catch in *.

Section RefreshFacts.
Context {S H : Type} `{Host H}.

(** The refresh never throws, touches neither the host nor the log nor the
    settings, and sets the flag from the enumeration when there is one. *)
Lemma updateHasOpenFiles_spec (w : World S H) :
  updateHasOpenFiles w =
  Returned tt
    (mkWorld
       (mkPlugin (settings (this w))
          (match getLeavesOfType (app w) "markdown" with
           | inr ls => (0 <? length ls)%nat
           | inl _ => hasOpenFiles (this w)
           end))
       (app w) (calls w)).
Proof.
  unfold updateHasOpenFiles. unfold_effects.
  destruct w as [[s f] h c]; simpl.
  destruct (getLeavesOfType h "markdown"); reflexivity.
Qed.

Lemma updateHasOpenFiles_throwing (w : World S H) (e : Exn) :
  getLeavesOfType (app w) "markdown" = inl e ->
  updateHasOpenFiles w = Returned tt w.
Proof.
  intros He. rewrite updateHasOpenFiles_spec, He.
  destruct w as [[s f] h c]; reflexivity.
Qed.

Lemma updateHasOpenFiles_counting (w : World S H) (ls : list Leaf) :
  getLeavesOfType (app w) "markdown" = inr ls ->
  updateHasOpenFiles w =
  Returned tt (mkWorld (mkPlugin (settings (this w)) (0 <? length ls)%nat) (app w) (calls w)).
Proof.
  intros He. rewrite updateHasOpenFiles_spec, He. reflexivity.
Qed.

(** Sequencing a computation that returned with the refresh. *)
Lemma then_refresh (c : M (World S H) unit) (w w' : World S H) :
  c w = Returned tt w' ->
  (c ;;; updateHasOpenFiles) w =
  Returned tt
    (mkWorld
       (mkPlugin (settings (this w'))
          (match getLeavesOfType (app w') "markdown" with
           | inr ls => (0 <? length ls)%nat
           | inl _ => hasOpenFiles (this w')
           end))
       (app w') (calls w')).
Proof.
  intros Hc. unfold bind. rewrite Hc. apply updateHasOpenFiles_spec.
Qed.

End RefreshFacts.

(** ** Facts on modes, directions and the size gate *)

Lemma toggle_mode_source : toggle_mode (Some "source") = "preview".
Proof. reflexivity. Qed.

Lemma toggle_mode_preview : toggle_mode (Some "preview") = "source".
Proof. reflexivity. Qed.




Lemma resolve_direction_not_auto (d : SplitDirectionSetting) (sz : Size) :
  resolve_direction d sz = Vertical \/ resolve_direction d sz = Horizontal.
Proof.
  destruct d; simpl; [left | right | ]; try reflexivity.
  destruct (height sz <=? width sz); [left | right]; reflexivity.
Qed.

Lemma size_gate_true (d : SplitDirectionSetting) (sz : Size) (m : Z) :
  size_gate d sz m = true <-> m < compared_dimension d sz.
Proof. unfold size_gate. apply Z.ltb_lt. Qed.

Lemma size_gate_false (d : SplitDirectionSetting) (sz : Size) (m : Z) :
  size_gate d sz m = false <-> compared_dimension d sz <= m.
Proof. unfold size_gate. rewrite Z.ltb_ge. reflexivity. Qed.

(** ** Reading the log of one split *)

Section SplitCalls.
Variables (l : Leaf) (d : SplitDirectionSetting) (before : bool) (nl : Leaf).
Variables (file : TFile) (vs : ViewState) (link activate : bool) (push : option bool).

#[local] Abbreviation the_log := (split_calls l d before nl file vs link activate push).

Lemma split_calls_split : split_performed the_log = true.
Proof. reflexivity. Qed.

Lemma split_calls_linked : panes_linked the_log = link.
Proof. unfold split_calls. destruct link, activate; reflexivity. Qed.

Lemma split_calls_focus : focus_requested the_log = activate.
Proof. unfold split_calls. destruct link, activate; reflexivity. Qed.

Lemma split_calls_focused_leaf :
  focused_leaf the_log = if activate then Some nl else None.
Proof. unfold split_calls. destruct link, activate; reflexivity. Qed.

Lemma split_calls_first_split : first_split the_log = Some (l, d, before, nl).
Proof. reflexivity. Qed.

Lemma split_calls_opened_with : opened_with the_log nl = Some vs.
Proof.
  unfold split_calls, opened_with. simpl.
  rewrite Nat.eqb_refl. reflexivity.
Qed.


Lemma split_calls_group_member :
  In (SetGroupMember l nl) the_log <-> link = true.
Proof.
  unfold split_calls. destruct link, activate; simpl; intuition congruence.
Qed.

End SplitCalls.

(** ** Release 1.2: what [splitActiveFile] and the handlers do *)

Section V120Facts.
Context {H : Type} `{Host H}.

#[local] Abbreviation W120 := (World V120.AutoSplitSettings H).

(** The direction and the gate as [splitActiveFile] computes them in [w]. *)
#[local] Abbreviation dir120 w :=
  (resolve_direction (V120.direction (settings (this w))) (getRootContainerSize (app w))).
#[local] Abbreviation gate120 w :=
  (size_gate (dir120 w) (getRootContainerSize (app w)) (V120.minSize (settings (this w)))).

Lemma splitActiveFile_no_view (file : TFile) (a : bool) (w : W120) :
  getActiveMarkdownLeaf (app w) = None ->
  V120.splitActiveFile file a w = Returned tt w.
Proof.
  intros Hal. unfold V120.splitActiveFile. unfold_effects. rewrite Hal. reflexivity.
Qed.

Lemma splitActiveFile_small (file : TFile) (a : bool) (w : W120) :
  gate120 w = false ->
  V120.splitActiveFile file a w = Returned tt w.
Proof.
  intros Hg. unfold V120.splitActiveFile. unfold_effects.
  destruct (getActiveMarkdownLeaf (app w)); [| reflexivity].
  rewrite Hg. reflexivity.
Qed.

Lemma splitActiveFile_not_markdown (file : TFile) (a : bool) (w : W120) (l : Leaf) :
  getActiveMarkdownLeaf (app w) = Some l ->
  vs_type (getViewState (app w) l) <> "markdown" ->
  V120.splitActiveFile file a w = Returned tt w.
Proof.
  intros Hal Hty. unfold V120.splitActiveFile. unfold_effects. rewrite Hal.
  destruct (gate120 w); [| reflexivity].
  destruct (String.eqb_spec (vs_type (getViewState (app w) l)) "markdown") as [E|_];
    [contradiction | reflexivity].
Qed.

(** When a split is made, the log grows by the calls of one split. *)
Lemma splitActiveFile_splits (file : TFile) (a : bool) (w : W120) (l : Leaf) :
  getActiveMarkdownLeaf (app w) = Some l ->
  gate120 w = true ->
  vs_type (getViewState (app w) l) = "markdown" ->
  let s := settings (this w) in
  let mode := toggle_mode (vs_mode (getViewState (app w) l)) in
  let before := a && String.eqb mode (firstPane (V120.editorFirst s)) in
  exists w',
    V120.splitActiveFile file a w = Returned tt w'
    /\ this w' = this w
    /\ calls w' =
       (calls w ++
        split_calls l (dir120 w) before
          (fst (createLeafBySplit (app w) l (dir120 w) before)) file
          (set_mode mode (set_active false (getViewState (app w) l)))
          (negb a || V120.linkPanes s)
          (a && String.eqb mode (pane_name (V120.paneToFocus s)))
          None)%list.
Proof.
  intros Hal Hg Hty s mode before. subst s mode before.
  unfold V120.splitActiveFile. unfold_effects. rewrite Hal, Hg, Hty. simpl.
  match goal with
  | |- context [createLeafBySplit ?h ?x ?y ?z] =>
      destruct (createLeafBySplit h x y z) as [nl h']
  end.
  unfold split_calls.
  destruct (negb a || V120.linkPanes (settings (this w)));
    match goal with
    | |- context [(a && String.eqb ?m (pane_name ?p))%bool] =>
        destruct (a && String.eqb m (pane_name p))%bool
    end;
    simpl; eexists; (split; [reflexivity |]); simpl; (split; [reflexivity |]);
    rewrite <- ?app_assoc; reflexivity.
Qed.

(** [splitActiveFile] never throws and never touches the plugin's fields. *)
Lemma splitActiveFile_returns (file : TFile) (a : bool) (w : W120) :
  exists w', V120.splitActiveFile file a w = Returned tt w' /\ this w' = this w.
Proof.
  destruct (getActiveMarkdownLeaf (app w)) as [l|] eqn:Hal.
  - destruct (gate120 w) eqn:Hg.
    + destruct (String.eqb_spec (vs_type (getViewState (app w) l)) "markdown") as [E|E].
      * destruct (splitActiveFile_splits file a w l Hal Hg E) as (w' & Hr & Ht & _).
        exists w'. split; assumption.
      * exists w. split; [apply (splitActiveFile_not_markdown _ _ _ l); assumption | reflexivity].
    + exists w. split; [apply splitActiveFile_small; assumption | reflexivity].
  - exists w. split; [apply splitActiveFile_no_view; assumption | reflexivity].
Qed.

End V120Facts.

Section V120HandlerFacts.
Context {H : Type} `{Host H}.

#[local] Abbreviation W120' := (World V120.AutoSplitSettings H).

(** The checks read the world and leave it as it is; they throw exactly when
    the enumeration is reached and throws. *)
Lemma file_open_checks120_spec (file : option TFile) (w : W120') :
  V120.file_open_checks file w =
  if V120.autoSplit (settings (this w)) && negb (isPhone (app w)) then
    match getLeavesOfType (app w) "markdown" with
    | inr ls =>
        Returned ((length ls =? 1)%nat && negb (hasOpenFiles (this w))
                  && bool_decide (is_Some file)) w
    | inl e => Thrown e w
    end
  else Returned false w.
Proof.
  unfold V120.file_open_checks. unfold_effects.
  destruct (V120.autoSplit (settings (this w)) && negb (isPhone (app w))); [| reflexivity].
  destruct (getLeavesOfType (app w) "markdown"); reflexivity.
Qed.

Lemma file_open_checks120_world (file : option TFile) (w w' : W120') (b : bool) :
  V120.file_open_checks file w = Returned b w' -> w' = w.
Proof.
  rewrite file_open_checks120_spec.
  destruct (V120.autoSplit (settings (this w)) && negb (isPhone (app w)));
    [destruct (getLeavesOfType (app w) "markdown") |]; congruence.
Qed.

(** Passing the checks means: automatic splitting is on, the device is no
    phone, exactly one markdown leaf is open, the flag is down and a file
    came with the event. *)
Lemma file_open_checks120_true (file : option TFile) (w : W120') :
  V120.file_open_checks file w = Returned true w ->
  V120.autoSplit (settings (this w)) = true
  /\ isPhone (app w) = false
  /\ (exists l, getLeavesOfType (app w) "markdown" = inr [l])
  /\ hasOpenFiles (this w) = false
  /\ (exists f, file = Some f).
Proof.
  rewrite file_open_checks120_spec.
  destruct (V120.autoSplit (settings (this w))) eqn:Ha; simpl; [| congruence].
  destruct (isPhone (app w)) eqn:Hp; simpl; [congruence |].
  destruct (getLeavesOfType (app w) "markdown") as [e|ls] eqn:Hl; [congruence |].
  intros Hr. injection Hr as Hr.
  apply andb_true_iff in Hr as [Hr Hf]. apply andb_true_iff in Hr as [Hn Hh].
  apply Nat.eqb_eq in Hn. apply negb_true_iff in Hh. apply bool_decide_eq_true in Hf.
  destruct ls as [|l [|]]; simpl in Hn; try discriminate.
  destruct Hf as [f ->].
  repeat split; eauto.
Qed.

Lemma on_file_open120_checked (f : TFile) (w : W120') :
  V120.file_open_checks (Some f) w = Returned true w ->
  V120.on_file_open (Some f) w = (V120.splitActiveFile f true ;;; updateHasOpenFiles) w.
Proof.
  intros Hc. unfold V120.on_file_open. unfold bind at 1. rewrite Hc. reflexivity.
Qed.

Lemma on_file_open120_unchecked (file : option TFile) (w : W120') :
  V120.file_open_checks file w = Returned false w ->
  V120.on_file_open file w = updateHasOpenFiles w.
Proof.
  intros Hc. unfold V120.on_file_open. unfold bind at 1. rewrite Hc.
  destruct file; reflexivity.
Qed.

Lemma on_file_open120_thrown (file : option TFile) (w : W120') (e : Exn) :
  V120.file_open_checks file w = Thrown e w ->
  V120.on_file_open file w = Thrown e w.
Proof.
  intros Hc. unfold V120.on_file_open. unfold bind at 1. rewrite Hc. reflexivity.
Qed.

(** The three ways the checks can end. *)
Lemma file_open_checks120_cases (file : option TFile) (w : W120') :
  V120.file_open_checks file w = Returned true w
  \/ V120.file_open_checks file w = Returned false w
  \/ exists e, V120.file_open_checks file w = Thrown e w.
Proof.
  rewrite file_open_checks120_spec.
  destruct (V120.autoSplit (settings (this w)) && negb (isPhone (app w))); [| auto].
  destruct (getLeavesOfType (app w) "markdown") as [e|ls]; [eauto |].
  destruct ((length ls =? 1)%nat && negb (hasOpenFiles (this w)) && bool_decide (is_Some file));
    auto.
Qed.

(** The handler's log is the log of [splitActiveFile] when the checks pass,
    and empty otherwise. *)
Lemma on_file_open120_log_checked (f : TFile) (p : Plugin V120.AutoSplitSettings) (h : H) :
  V120.file_open_checks (Some f) (mkWorld p h []) = Returned true (mkWorld p h []) ->
  log_of (V120.on_file_open (Some f)) p h = log_of (V120.splitActiveFile f true) p h.
Proof.
  intros Hc. unfold log_of. rewrite (on_file_open120_checked _ _ Hc).
  destruct (splitActiveFile_returns f true (mkWorld p h [])) as (w' & Hr & _).
  rewrite (then_refresh _ _ _ Hr), Hr. reflexivity.
Qed.

Lemma on_file_open120_log_unchecked (file : option TFile)
  (p : Plugin V120.AutoSplitSettings) (h : H) :
  V120.file_open_checks file (mkWorld p h []) <> Returned true (mkWorld p h []) ->
  log_of (V120.on_file_open file) p h = [].
Proof.
  intros Hc. unfold log_of.
  destruct (file_open_checks120_cases file (mkWorld p h [])) as [Ht|[Hf|[e He]]].
  - contradiction.
  - rewrite (on_file_open120_unchecked _ _ Hf), updateHasOpenFiles_spec. reflexivity.
  - rewrite (on_file_open120_thrown _ _ _ He). reflexivity.
Qed.

(** The log of [splitActiveFile], from an empty log. *)
Lemma splitActiveFile_log (f : TFile) (a : bool) (p : Plugin V120.AutoSplitSettings) (h : H) :
  let d := resolve_direction (V120.direction (settings p)) (getRootContainerSize h) in
  log_of (V120.splitActiveFile f a) p h =
  match getActiveMarkdownLeaf h with
  | Some l =>
      if size_gate d (getRootContainerSize h) (V120.minSize (settings p))
         && String.eqb (vs_type (getViewState h l)) "markdown"
      then
        let mode := toggle_mode (vs_mode (getViewState h l)) in
        let before := a && String.eqb mode (firstPane (V120.editorFirst (settings p))) in
        split_calls l d before (fst (createLeafBySplit h l d before)) f
          (set_mode mode (set_active false (getViewState h l)))
          (negb a || V120.linkPanes (settings p))
          (a && String.eqb mode (pane_name (V120.paneToFocus (settings p))))
          None
      else []
  | None => []
  end.
Proof.
  intros d. unfold log_of.
  destruct (getActiveMarkdownLeaf h) as [l|] eqn:Hal.
  - destruct (size_gate d (getRootContainerSize h) (V120.minSize (settings p))) eqn:Hg.
    + destruct (String.eqb_spec (vs_type (getViewState h l)) "markdown") as [E|E]; simpl.
      * destruct (splitActiveFile_splits f a (mkWorld p h []) l Hal Hg E) as (w' & Hr & _ & Hl).
        rewrite Hr. simpl. rewrite Hl. reflexivity.
      * rewrite (splitActiveFile_not_markdown f a (mkWorld p h []) l Hal E). reflexivity.
    + simpl. rewrite (splitActiveFile_small f a (mkWorld p h []) Hg). reflexivity.
  - rewrite (splitActiveFile_no_view f a (mkWorld p h []) Hal). reflexivity.
Qed.

End V120HandlerFacts.

(** ** Release 1.1: what the handler does *)

Section V110Facts.
Context {H : Type} `{Host H}.

#[local] Abbreviation W110 := (World V110.AutoSplitSettings H).
#[local] Abbreviation dir110 w :=
  (resolve_direction (V110.direction (settings (this w))) (getRootContainerSize (app w))).
#[local] Abbreviation gate110 w :=
  (size_gate (dir110 w) (getRootContainerSize (app w)) (V110.minSize (settings (this w)))).

Lemma file_open_checks110_spec (file : option TFile) (w : W110) :
  V110.file_open_checks file w =
  Returned
    (V110.isEnabledOnPlatform (settings (this w)) (app w)
     && bool_decide (is_Some (activeLeaf (app w)))
     && negb (hasOpenFiles (this w))
     && bool_decide (is_Some file)) w.
Proof. reflexivity. Qed.

Lemma file_open_checks110_true (file : option TFile) (w : W110) :
  V110.file_open_checks file w = Returned true w ->
  V110.isEnabledOnPlatform (settings (this w)) (app w) = true
  /\ (exists l, activeLeaf (app w) = Some l)
  /\ hasOpenFiles (this w) = false
  /\ (exists f, file = Some f).
Proof.
  rewrite file_open_checks110_spec. intros Hr. injection Hr as Hr.
  apply andb_true_iff in Hr as [Hr Hf]. apply andb_true_iff in Hr as [Hr Hh].
  apply andb_true_iff in Hr as [He Hl].
  apply bool_decide_eq_true in Hl, Hf. apply negb_true_iff in Hh.
  destruct Hl as [l Hl], Hf as [f Hf]. eauto 10.
Qed.

Lemma file_open_checks110_cases (file : option TFile) (w : W110) :
  V110.file_open_checks file w = Returned true w
  \/ V110.file_open_checks file w = Returned false w.
Proof.
  rewrite file_open_checks110_spec.
  match goal with |- Returned ?b _ = _ \/ _ => destruct b end; auto.
Qed.

Lemma split_on_open_small (l : Leaf) (f : TFile) (w : W110) :
  gate110 w = false ->
  V110.split_on_open l f w = Returned tt w.
Proof.
  intros Hg. unfold V110.split_on_open. unfold_effects. simpl. rewrite Hg. reflexivity.
Qed.

Lemma split_on_open_splits (l : Leaf) (f : TFile) (w : W110) :
  gate110 w = true ->
  let s := settings (this w) in
  let mode := toggle_mode (vs_mode (getViewState (app w) l)) in
  let before := String.eqb mode (firstPane (V110.editorFirst s)) in
  exists w',
    V110.split_on_open l f w = Returned tt w'
    /\ this w' = this w
    /\ calls w' =
       (calls w ++
        split_calls l (dir110 w) before
          (fst (createLeafBySplit (app w) l (dir110 w) before)) f
          (set_mode mode (getViewState (app w) l))
          (V110.linkPanes s)
          (String.eqb mode (pane_name (V110.paneToFocus s)))
          (Some true))%list.
Proof.
  intros Hg s mode before. subst s mode before.
  unfold V110.split_on_open. unfold_effects. simpl. rewrite Hg. simpl.
  match goal with
  | |- context [createLeafBySplit ?h ?x ?y ?z] =>
      destruct (createLeafBySplit h x y z) as [nl h']
  end.
  unfold split_calls.
  destruct (V110.linkPanes (settings (this w)));
    match goal with
    | |- context [String.eqb ?m (pane_name ?p)] =>
        destruct (String.eqb m (pane_name p))
    end;
    simpl; eexists; (split; [reflexivity |]); simpl; (split; [reflexivity |]);
    rewrite <- ?app_assoc; reflexivity.
Qed.

Lemma split_on_open_returns (l : Leaf) (f : TFile) (w : W110) :
  exists w', V110.split_on_open l f w = Returned tt w' /\ this w' = this w.
Proof.
  destruct (gate110 w) eqn:Hg.
  - destruct (split_on_open_splits l f w Hg) as (w' & Hr & Ht & _). eauto.
  - exists w. split; [apply split_on_open_small; assumption | reflexivity].
Qed.

Lemma split_on_open_log (l : Leaf) (f : TFile) (p : Plugin V110.AutoSplitSettings) (h : H) :
  let d := resolve_direction (V110.direction (settings p)) (getRootContainerSize h) in
  log_of (V110.split_on_open l f) p h =
  if size_gate d (getRootContainerSize h) (V110.minSize (settings p)) then
    let mode := toggle_mode (vs_mode (getViewState h l)) in
    let before := String.eqb mode (firstPane (V110.editorFirst (settings p))) in
    split_calls l d before (fst (createLeafBySplit h l d before)) f
      (set_mode mode (getViewState h l))
      (V110.linkPanes (settings p))
      (String.eqb mode (pane_name (V110.paneToFocus (settings p))))
      (Some true)
  else [].
Proof.
  intros d. unfold log_of.
  destruct (size_gate d (getRootContainerSize h) (V110.minSize (settings p))) eqn:Hg.
  - destruct (split_on_open_splits l f (mkWorld p h []) Hg) as (w' & Hr & _ & Hl).
    rewrite Hr. simpl. rewrite Hl. reflexivity.
  - rewrite (split_on_open_small l f (mkWorld p h []) Hg). reflexivity.
Qed.

(** The handler never throws. *)
Lemma on_file_open110_returns (file : option TFile) (w : W110) :
  exists w', V110.on_file_open file w = Returned tt w'.
Proof.
  unfold V110.on_file_open. unfold bind at 1. rewrite file_open_checks110_spec.
  unfold bind at 1. unfold ask at 1.
  set (ok := (_ && _ && _ && _)%bool).
  assert (Hbody : exists w1,
    (match activeLeaf (app w), file with
     | Some currentLeaf, Some f => when ok (V110.split_on_open currentLeaf f)
     | _, _ => ret tt
     end) w = Returned tt w1).
  { destruct (activeLeaf (app w)) as [l|], file as [f|]; try (exists w; reflexivity).
    destruct ok; simpl; [| exists w; reflexivity].
    destruct (split_on_open_returns l f w) as (w' & Hr & _). eauto. }
  destruct Hbody as [w1 Hw1]. unfold bind. rewrite Hw1.
  rewrite updateHasOpenFiles_spec. eauto.
Qed.

Lemma on_file_open110_checked (l : Leaf) (f : TFile) (w : W110) :
  V110.file_open_checks (Some f) w = Returned true w ->
  activeLeaf (app w) = Some l ->
  V110.on_file_open (Some f) w = (V110.split_on_open l f ;;; updateHasOpenFiles) w.
Proof.
  intros Hc Hl. unfold V110.on_file_open. unfold bind at 1. rewrite Hc.
  unfold bind at 1. unfold ask at 1. rewrite Hl. reflexivity.
Qed.

Lemma on_file_open110_unchecked (file : option TFile) (w : W110) :
  V110.file_open_checks file w = Returned false w ->
  V110.on_file_open file w = updateHasOpenFiles w.
Proof.
  intros Hc. unfold V110.on_file_open. unfold bind at 1. rewrite Hc.
  unfold bind at 1. unfold ask at 1.
  destruct (activeLeaf (app w)), file; reflexivity.
Qed.

Lemma on_file_open110_log_checked (l : Leaf) (f : TFile)
  (p : Plugin V110.AutoSplitSettings) (h : H) :
  V110.file_open_checks (Some f) (mkWorld p h []) = Returned true (mkWorld p h []) ->
  activeLeaf h = Some l ->
  log_of (V110.on_file_open (Some f)) p h = log_of (V110.split_on_open l f) p h.
Proof.
  intros Hc Hl. unfold log_of. rewrite (on_file_open110_checked l f _ Hc Hl).
  destruct (split_on_open_returns l f (mkWorld p h [])) as (w' & Hr & _).
  rewrite (then_refresh _ _ _ Hr), Hr. reflexivity.
Qed.

Lemma on_file_open110_log_unchecked (file : option TFile)
  (p : Plugin V110.AutoSplitSettings) (h : H) :
  V110.file_open_checks file (mkWorld p h []) <> Returned true (mkWorld p h []) ->
  log_of (V110.on_file_open file) p h = [].
Proof.
  intros Hc. unfold log_of.
  assert (Hf : V110.file_open_checks file (mkWorld p h []) = Returned false (mkWorld p h [])).
  { rewrite file_open_checks110_spec in *.
    match goal with |- Returned ?b _ = _ => destruct b end; [contradiction | reflexivity]. }
  rewrite (on_file_open110_unchecked _ _ Hf), updateHasOpenFiles_spec. reflexivity.
Qed.

End V110Facts.

(** ** When a split is in the log *)

Lemma split_performed_first_split (log : list Call) :
  split_performed log = true <-> exists x, first_split log = Some x.
Proof.
  unfold split_performed, first_split. induction log as [|c log IH]; simpl.
  - split; [discriminate | intros [x Hx]; discriminate].
  - destruct c; simpl; try exact IH; split; eauto.
Qed.

Section Performed.
Context {H : Type} `{Host H}.

(** The toggled mode of leaf [l], the direction and the [before] argument as
    release 1.2 computes them, and the calls of its split. *)
#[local] Abbreviation new_mode h l := (toggle_mode (vs_mode (getViewState h l))).
#[local] Abbreviation d120 p h :=
  (resolve_direction (V120.direction (settings p)) (getRootContainerSize h)).
#[local] Abbreviation before120 a p h l :=
  (a && String.eqb (new_mode h l) (firstPane (V120.editorFirst (settings p)))).
#[local] Abbreviation calls120 f a p h l :=
  (split_calls l (d120 p h) (before120 a p h l)
     (fst (createLeafBySplit h l (d120 p h) (before120 a p h l))) f
     (set_mode (new_mode h l) (set_active false (getViewState h l)))
     (negb a || V120.linkPanes (settings p))
     (a && String.eqb (new_mode h l) (pane_name (V120.paneToFocus (settings p))))
     None).

Lemma splitActiveFile_performed (f : TFile) (a : bool)
  (p : Plugin V120.AutoSplitSettings) (h : H) :
  split_performed (log_of (V120.splitActiveFile f a) p h) = true ->
  exists l,
    getActiveMarkdownLeaf h = Some l
    /\ size_gate (d120 p h) (getRootContainerSize h) (V120.minSize (settings p)) = true
    /\ vs_type (getViewState h l) = "markdown"
    /\ log_of (V120.splitActiveFile f a) p h = calls120 f a p h l.
Proof.
  rewrite splitActiveFile_log. cbv zeta.
  destruct (getActiveMarkdownLeaf h) as [l|]; [| discriminate].
  destruct (size_gate _ _ _) eqn:Hg; simpl; [| discriminate].
  destruct (String.eqb_spec (vs_type (getViewState h l)) "markdown") as [E|E];
    [| discriminate].
  intros _. exists l. repeat split; assumption.
Qed.

Lemma splitActiveFile_performed_iff (f : TFile) (a : bool)
  (p : Plugin V120.AutoSplitSettings) (h : H) (l : Leaf) :
  getActiveMarkdownLeaf h = Some l ->
  vs_type (getViewState h l) = "markdown" ->
  split_performed (log_of (V120.splitActiveFile f a) p h)
  = size_gate (d120 p h) (getRootContainerSize h) (V120.minSize (settings p)).
Proof.
  intros Hal Hty. rewrite splitActiveFile_log. cbv zeta. rewrite Hal, Hty.
  destruct (size_gate _ _ _); reflexivity.
Qed.

Lemma on_file_open120_performed (file : option TFile)
  (p : Plugin V120.AutoSplitSettings) (h : H) :
  split_performed (log_of (V120.on_file_open file) p h) = true ->
  exists f,
    file = Some f
    /\ V120.file_open_checks file (mkWorld p h []) = Returned true (mkWorld p h [])
    /\ log_of (V120.on_file_open file) p h = log_of (V120.splitActiveFile f true) p h.
Proof.
  intros Hs.
  destruct (file_open_checks120_cases file (mkWorld p h [])) as [Ht|Hn].
  - destruct (file_open_checks120_true _ _ Ht) as (_ & _ & _ & _ & f & ->).
    exists f. repeat split; [assumption |].
    apply on_file_open120_log_checked. assumption.
  - rewrite on_file_open120_log_unchecked in Hs; [discriminate |].
    destruct Hn as [Hn|[e Hn]]; rewrite Hn; discriminate.
Qed.

(** The command: nothing on a phone, without a file, or when only asked
    whether it is available; the manual split otherwise. *)
Lemma split_current_pane_log (checking : bool)
  (p : Plugin V120.AutoSplitSettings) (h : H) :
  log_of (V120.split_current_pane checking) p h =
  if isPhone h then []
  else match activeEditorFile h with
       | Some f => if checking then [] else log_of (V120.splitActiveFile f false) p h
       | None => []
       end.
Proof.
  unfold log_of, V120.split_current_pane. unfold bind at 1. unfold ask at 1. simpl.
  destruct (isPhone h); [reflexivity |].
  unfold bind at 1. unfold ask at 1. simpl.
  destruct (activeEditorFile h) as [f|]; [| reflexivity].
  destruct checking; simpl; [reflexivity |].
  unfold bind. destruct (splitActiveFile_returns f false (mkWorld p h [])) as (w' & Hr & _).
  rewrite Hr. reflexivity.
Qed.

Lemma split_current_pane_performed (checking : bool)
  (p : Plugin V120.AutoSplitSettings) (h : H) :
  split_performed (log_of (V120.split_current_pane checking) p h) = true ->
  exists f,
    activeEditorFile h = Some f
    /\ checking = false
    /\ isPhone h = false
    /\ log_of (V120.split_current_pane checking) p h
       = log_of (V120.splitActiveFile f false) p h.
Proof.
  rewrite split_current_pane_log.
  destruct (isPhone h); [discriminate |].
  destruct (activeEditorFile h) as [f|]; [| discriminate].
  destruct checking; [discriminate |].
  intros _. exists f. repeat split.
Qed.

(** Release 1.1. *)
#[local] Abbreviation d110 p h :=
  (resolve_direction (V110.direction (settings p)) (getRootContainerSize h)).
#[local] Abbreviation before110 p h l :=
  (String.eqb (new_mode h l) (firstPane (V110.editorFirst (settings p)))).
#[local] Abbreviation calls110 f p h l :=
  (split_calls l (d110 p h) (before110 p h l)
     (fst (createLeafBySplit h l (d110 p h) (before110 p h l))) f
     (set_mode (new_mode h l) (getViewState h l))
     (V110.linkPanes (settings p))
     (String.eqb (new_mode h l) (pane_name (V110.paneToFocus (settings p))))
     (Some true)).

Lemma on_file_open110_performed (file : option TFile)
  (p : Plugin V110.AutoSplitSettings) (h : H) :
  split_performed (log_of (V110.on_file_open file) p h) = true ->
  exists l f,
    activeLeaf h = Some l
    /\ file = Some f
    /\ V110.file_open_checks file (mkWorld p h []) = Returned true (mkWorld p h [])
    /\ size_gate (d110 p h) (getRootContainerSize h) (V110.minSize (settings p)) = true
    /\ log_of (V110.on_file_open file) p h = calls110 f p h l.
Proof.
  intros Hs.
  destruct (file_open_checks110_cases file (mkWorld p h [])) as [Ht|Hf].
  - destruct (file_open_checks110_true _ _ Ht) as (_ & [l Hl] & _ & f & ->).
    simpl in Hl. rewrite (on_file_open110_log_checked l f p h Ht Hl) in Hs |- *.
    rewrite split_on_open_log in Hs |- *. cbv zeta in Hs |- *.
    destruct (size_gate _ _ _) eqn:Hg; [| discriminate].
    exists l, f. repeat split; assumption.
  - rewrite on_file_open110_log_unchecked in Hs; [discriminate |].
    rewrite Hf. discriminate.
Qed.

End Performed.

(** ** What a handled event leaves in the plugin *)

Section FlagFacts.
Context {H : Type} `{Host H}.

(** After the handler of release 1.2 returned, the settings are the same and
    the flag is what the enumeration on the final host state says, or the old
    flag when that enumeration throws. *)
Lemma on_file_open120_after (file : option TFile)
  (w w' : World V120.AutoSplitSettings H) :
  V120.on_file_open file w = Returned tt w' ->
  settings (this w') = settings (this w)
  /\ hasOpenFiles (this w') =
     match getLeavesOfType (app w') "markdown" with
     | inr ls => (0 <? length ls)%nat
     | inl _ => hasOpenFiles (this w)
     end.
Proof.
  intros Hr.
  destruct (file_open_checks120_cases file w) as [Ht|[Hf|[e He]]].
  - destruct (file_open_checks120_true _ _ Ht) as (_ & _ & _ & _ & f & ->).
    rewrite (on_file_open120_checked _ _ Ht) in Hr.
    destruct (splitActiveFile_returns f true w) as (w1 & Hr1 & Ht1).
    rewrite (then_refresh _ _ _ Hr1) in Hr. injection Hr as <-. simpl.
    rewrite Ht1. split; reflexivity.
  - rewrite (on_file_open120_unchecked _ _ Hf), updateHasOpenFiles_spec in Hr.
    injection Hr as <-. simpl. split; reflexivity.
  - rewrite (on_file_open120_thrown _ _ _ He) in Hr. discriminate.
Qed.

(** When it throws, nothing was done at all. *)
Lemma on_file_open120_throws (file : option TFile)
  (w w' : World V120.AutoSplitSettings H) (e : Exn) :
  V120.on_file_open file w = Thrown e w' -> w' = w.
Proof.
  intros Hr.
  destruct (file_open_checks120_cases file w) as [Ht|[Hf|[e' He]]].
  - destruct (file_open_checks120_true _ _ Ht) as (_ & _ & _ & _ & f & ->).
    rewrite (on_file_open120_checked _ _ Ht) in Hr.
    destruct (splitActiveFile_returns f true w) as (w1 & Hr1 & Ht1).
    rewrite (then_refresh _ _ _ Hr1) in Hr. discriminate.
  - rewrite (on_file_open120_unchecked _ _ Hf), updateHasOpenFiles_spec in Hr. discriminate.
  - rewrite (on_file_open120_thrown _ _ _ He) in Hr. congruence.
Qed.

Lemma on_file_open110_after (file : option TFile)
  (w w' : World V110.AutoSplitSettings H) :
  V110.on_file_open file w = Returned tt w' ->
  settings (this w') = settings (this w)
  /\ hasOpenFiles (this w') =
     match getLeavesOfType (app w') "markdown" with
     | inr ls => (0 <? length ls)%nat
     | inl _ => hasOpenFiles (this w)
     end.
Proof.
  intros Hr.
  destruct (file_open_checks110_cases file w) as [Ht|Hf].
  - destruct (file_open_checks110_true _ _ Ht) as (_ & [l Hl] & _ & f & ->).
    rewrite (on_file_open110_checked l f _ Ht Hl) in Hr.
    destruct (split_on_open_returns l f w) as (w1 & Hr1 & Ht1).
    rewrite (then_refresh _ _ _ Hr1) in Hr. injection Hr as <-. simpl.
    rewrite Ht1. split; reflexivity.
  - rewrite (on_file_open110_unchecked _ _ Hf), updateHasOpenFiles_spec in Hr.
    injection Hr as <-. simpl. split; reflexivity.
Qed.

End FlagFacts.


(** * The properties of the specification *)

(** ** C1: the size gate *)

Section SizeGate.
Context {H : Type} `{Host H}.

Lemma small_area_no_call110 (file : option TFile) (p : Plugin V110.AutoSplitSettings) (h : H) :
  compared110 p h <= V110.minSize (settings p) ->
  log_of (V110.on_file_open file) p h = [].
Proof.
  intros Hle. apply size_gate_false in Hle.
  destruct (file_open_checks110_cases file (mkWorld p h [])) as [Ht|Hf].
  - destruct (file_open_checks110_true _ _ Ht) as (_ & [l Hl] & _ & f & ->).
    simpl in Hl. rewrite (on_file_open110_log_checked l f p h Ht Hl), split_on_open_log.
    cbv zeta. unfold compared110, resolved110 in Hle. rewrite Hle. reflexivity.
  - apply on_file_open110_log_unchecked. rewrite Hf. discriminate.
Qed.

Lemma small_area_no_call120 (f : TFile) (a : bool) (p : Plugin V120.AutoSplitSettings) (h : H) :
  compared120 p h <= V120.minSize (settings p) ->
  log_of (V120.splitActiveFile f a) p h = [].
Proof.
  intros Hle. apply size_gate_false in Hle.
  rewrite splitActiveFile_log. cbv zeta.
  unfold compared120, resolved120 in Hle. rewrite Hle.
  destruct (getActiveMarkdownLeaf h); reflexivity.
Qed.

Lemma small_area_no_call120_event (file : option TFile)
  (p : Plugin V120.AutoSplitSettings) (h : H) :
  compared120 p h <= V120.minSize (settings p) ->
  log_of (V120.on_file_open file) p h = [].
Proof.
  intros Hle.
  destruct (file_open_checks120_cases file (mkWorld p h [])) as [Ht|Hn].
  - destruct (file_open_checks120_true _ _ Ht) as (_ & _ & _ & _ & f & ->).
    rewrite (on_file_open120_log_checked f p h Ht).
    apply small_area_no_call120. assumption.
  - apply on_file_open120_log_unchecked.
    destruct Hn as [Hn|[e Hn]]; rewrite Hn; discriminate.
Qed.

Lemma split_iff_large110 (file : option TFile) (p : Plugin V110.AutoSplitSettings) (h : H) :
  passes_checks110 file p h ->
  split_performed (log_of (V110.on_file_open file) p h) = true
  <-> compared110 p h > V110.minSize (settings p).
Proof.
  unfold passes_checks110, start. intros Ht.
  destruct (file_open_checks110_true _ _ Ht) as (_ & [l Hl] & _ & f & ->).
  simpl in Hl. rewrite (on_file_open110_log_checked l f p h Ht Hl), split_on_open_log.
  cbv zeta. unfold compared110, resolved110.
  destruct (size_gate _ _ _) eqn:Hg.
  - apply size_gate_true in Hg. rewrite split_calls_split. split; [lia | reflexivity].
  - apply size_gate_false in Hg. simpl. split; [discriminate | lia].
Qed.

Lemma split_iff_large120 (file : option TFile) (p : Plugin V120.AutoSplitSettings) (h : H)
  (l : Leaf) :
  passes_checks120 file p h ->
  getActiveMarkdownLeaf h = Some l ->
  vs_type (getViewState h l) = "markdown" ->
  split_performed (log_of (V120.on_file_open file) p h) = true
  <-> compared120 p h > V120.minSize (settings p).
Proof.
  unfold passes_checks120, start. intros Ht Hal Hty.
  destruct (file_open_checks120_true _ _ Ht) as (_ & _ & _ & _ & f & ->).
  rewrite (on_file_open120_log_checked f p h Ht).
  rewrite (splitActiveFile_performed_iff f true p h l Hal Hty).
  unfold compared120, resolved120.
  destruct (size_gate _ _ _) eqn:Hg.
  - apply size_gate_true in Hg. split; [lia | reflexivity].
  - apply size_gate_false in Hg. split; [discriminate | lia].
Qed.

End SizeGate.

(** C1, as the code has it.  For every file-open event that passes the
    handler's checks and, in release 1.2, finds an active markdown view whose
    view state has type markdown: a split is performed if and only if the
    compared dimension (width for a vertical resolved direction, height for a
    horizontal one) is strictly greater than [minSize].  Whenever the compared
    dimension is at most [minSize], equality included, the handler issues no
    workspace call at all. *)
Theorem C1_split_iff_strictly_above_minSize :
  (forall (H : Type) (HH : Host H) (file : option TFile)
          (p : Plugin V110.AutoSplitSettings) (h : H),
      (passes_checks110 file p h ->
       (split_performed (log_of (V110.on_file_open file) p h) = true
        <-> compared110 p h > V110.minSize (settings p)))
      /\ (compared110 p h <= V110.minSize (settings p) ->
          log_of (V110.on_file_open file) p h = []))
  /\ (forall (H : Type) (HH : Host H) (file : option TFile)
             (p : Plugin V120.AutoSplitSettings) (h : H),
      (forall l : Leaf,
          passes_checks120 file p h ->
          getActiveMarkdownLeaf h = Some l ->
          vs_type (getViewState h l) = "markdown" ->
          (split_performed (log_of (V120.on_file_open file) p h) = true
           <-> compared120 p h > V120.minSize (settings p)))
      /\ (compared120 p h <= V120.minSize (settings p) ->
          log_of (V120.on_file_open file) p h = [])).
Proof.
  split; intros H HH file p h; split.
  - apply split_iff_large110.
  - apply small_area_no_call110.
  - intros l. apply split_iff_large120.
  - apply small_area_no_call120_event.
Qed.

(** C1 at the boundary of the specification: with [minSize = 1000], a main
    area 1000 wide is not split and one 1001 wide is, in both releases. *)
Lemma C1_witness_boundary :
  (passes_checks110 (Some note) fresh110 (one_note "source" (mkSize 1001 800))
   /\ compared110 fresh110 (one_note "source" (mkSize 1001 800)) > 1000
   /\ split_performed
        (log_of (V110.on_file_open (Some note)) fresh110 (one_note "source" (mkSize 1001 800)))
      = true)
  /\ (compared110 fresh110 (one_note "source" (mkSize 1000 800)) <= 1000
      /\ log_of (V110.on_file_open (Some note)) fresh110 (one_note "source" (mkSize 1000 800))
         = [])
  /\ (passes_checks120 (Some note) fresh120 (one_note "source" (mkSize 1001 800))
      /\ compared120 fresh120 (one_note "source" (mkSize 1001 800)) > 1000
      /\ split_performed
           (log_of (V120.on_file_open (Some note)) fresh120 (one_note "source" (mkSize 1001 800)))
         = true)
  /\ (compared120 fresh120 (one_note "source" (mkSize 1000 800)) <= 1000
      /\ log_of (V120.on_file_open (Some note)) fresh120 (one_note "source" (mkSize 1000 800))
         = []).
Proof.
  pose proof (proj1 C1_split_iff_strictly_above_minSize Workspace _ (Some note) fresh110)
    as T110.
  pose proof (proj2 C1_split_iff_strictly_above_minSize Workspace _ (Some note) fresh120)
    as T120.
  assert (P110 : passes_checks110 (Some note) fresh110 (one_note "source" (mkSize 1001 800)))
    by reflexivity.
  assert (P120 : passes_checks120 (Some note) fresh120 (one_note "source" (mkSize 1001 800)))
    by reflexivity.
  assert (G1001 : 1001 > 1000) by reflexivity.
  assert (L1000 : 1000 <= 1000) by (vm_compute; discriminate).
  split; [| split; [| split]].
  - split; [exact P110 |]. split; [exact G1001 |].
    apply (proj1 (T110 (one_note "source" (mkSize 1001 800)))); [exact P110 | exact G1001].
  - split; [exact L1000 |].
    apply (proj2 (T110 (one_note "source" (mkSize 1000 800)))). exact L1000.
  - split; [exact P120 |]. split; [exact G1001 |].
    apply (proj1 (T120 (one_note "source" (mkSize 1001 800))) 1%nat);
      [exact P120 | reflexivity | reflexivity | exact G1001].
  - split; [exact L1000 |].
    apply (proj2 (T120 (one_note "source" (mkSize 1000 800)))). exact L1000.
Defined.

(** C1 as stated fails in release 1.2: the event passes the platform and
    empty-workspace checks and the main area is wider than [minSize], yet no
    split is made, because no markdown view is active. *)
Lemma C1_counterexample_no_active_note_view :
  passes_checks120 (Some note) fresh120 (one_note_unfocused "source" (mkSize 1001 800))
  /\ compared120 fresh120 (one_note_unfocused "source" (mkSize 1001 800))
     > V120.minSize (settings fresh120)
  /\ split_performed
       (log_of (V120.on_file_open (Some note)) fresh120
          (one_note_unfocused "source" (mkSize 1001 800)))
     = false.
Proof. repeat split. Qed.

(** ** C2: the automatic direction *)

Lemma resolve_auto_vertical (sz : Size) :
  resolve_direction Auto sz = Vertical <-> width sz >= height sz.
Proof.
  simpl. destruct (Z.leb_spec (height sz) (width sz)); split; intros; try lia; try reflexivity.
  discriminate.
Qed.

Lemma resolve_auto_horizontal (sz : Size) :
  resolve_direction Auto sz = Horizontal <-> width sz < height sz.
Proof.
  simpl. destruct (Z.leb_spec (height sz) (width sz)); split; intros; try lia; try reflexivity.
  discriminate.
Qed.

Section SplitDirection.
Context {H : Type} `{Host H}.

(** The direction a split is requested with is the resolved one. *)
Lemma split_direction110 (file : option TFile) (p : Plugin V110.AutoSplitSettings) (h : H)
  (l nl : Leaf) (d : SplitDirectionSetting) (b : bool) :
  first_split (log_of (V110.on_file_open file) p h) = Some (l, d, b, nl) ->
  d = resolved110 p h.
Proof.
  intros Hf.
  assert (Hs : split_performed (log_of (V110.on_file_open file) p h) = true)
    by (apply split_performed_first_split; eauto).
  destruct (on_file_open110_performed file p h Hs) as (l' & f & _ & _ & _ & _ & Hlog).
  rewrite Hlog, split_calls_first_split in Hf. injection Hf as _ <- _ _. reflexivity.
Qed.

Lemma split_direction120 (f : TFile) (a : bool) (p : Plugin V120.AutoSplitSettings) (h : H)
  (l nl : Leaf) (d : SplitDirectionSetting) (b : bool) :
  first_split (log_of (V120.splitActiveFile f a) p h) = Some (l, d, b, nl) ->
  d = resolved120 p h.
Proof.
  intros Hf.
  assert (Hs : split_performed (log_of (V120.splitActiveFile f a) p h) = true)
    by (apply split_performed_first_split; eauto).
  destruct (splitActiveFile_performed f a p h Hs) as (l' & _ & _ & _ & Hlog).
  rewrite Hlog, split_calls_first_split in Hf. injection Hf as _ <- _ _. reflexivity.
Qed.

End SplitDirection.

(** C2.  With the direction setting ["auto"], the resolved direction is
    vertical if and only if the main area is at least as wide as it is high
    (equal sides included) and horizontal otherwise; and every split either
    release requests under that setting carries the direction so resolved
    from the measured main area. *)
Theorem C2_auto_direction_vertical_iff_width_ge_height :
  (forall sz : Size,
      (resolve_direction Auto sz = Vertical <-> width sz >= height sz)
      /\ (resolve_direction Auto sz = Horizontal <-> width sz < height sz))
  /\ (forall (H : Type) (HH : Host H) (file : option TFile)
             (p : Plugin V110.AutoSplitSettings) (h : H)
             (l nl : Leaf) (d : SplitDirectionSetting) (b : bool),
         V110.direction (settings p) = Auto ->
         first_split (log_of (V110.on_file_open file) p h) = Some (l, d, b, nl) ->
         (d = Vertical <-> width (getRootContainerSize h) >= height (getRootContainerSize h))
         /\ (d = Horizontal <-> width (getRootContainerSize h) < height (getRootContainerSize h)))
  /\ (forall (H : Type) (HH : Host H) (f : TFile) (a : bool)
             (p : Plugin V120.AutoSplitSettings) (h : H)
             (l nl : Leaf) (d : SplitDirectionSetting) (b : bool),
         V120.direction (settings p) = Auto ->
         first_split (log_of (V120.splitActiveFile f a) p h) = Some (l, d, b, nl) ->
         (d = Vertical <-> width (getRootContainerSize h) >= height (getRootContainerSize h))
         /\ (d = Horizontal <-> width (getRootContainerSize h) < height (getRootContainerSize h))).
Proof.
  split; [| split].
  - intros sz. split; [apply resolve_auto_vertical | apply resolve_auto_horizontal].
  - intros H HH file p h l nl d b Hauto Hf.
    rewrite (split_direction110 file p h l nl d b Hf). unfold resolved110. rewrite Hauto.
    split; [apply resolve_auto_vertical | apply resolve_auto_horizontal].
  - intros H HH f a p h l nl d b Hauto Hf.
    rewrite (split_direction120 f a p h l nl d b Hf). unfold resolved120. rewrite Hauto.
    split; [apply resolve_auto_vertical | apply resolve_auto_horizontal].
Qed.

(** C2 on a square main area, and on the splits of a wide and of a tall one
    under the default direction, ["auto"]. *)
Lemma C2_witness_square_wide_tall :
  (900 >= 900 /\ resolve_direction Auto (mkSize 900 900) = Vertical)
  /\ (V110.direction (settings fresh110) = Auto
      /\ first_split (log_of (V110.on_file_open (Some note)) fresh110 (one_note "source" wide))
         = Some (1%nat, Vertical, false, 2%nat)
      /\ (Vertical = Vertical
          <-> width (getRootContainerSize (one_note "source" wide))
              >= height (getRootContainerSize (one_note "source" wide))))
  /\ (V120.direction (settings fresh120) = Auto
      /\ first_split (log_of (V120.splitActiveFile note true) fresh120 (one_note "preview" tall))
         = Some (1%nat, Horizontal, true, 2%nat)
      /\ (Horizontal = Horizontal
          <-> width (getRootContainerSize (one_note "preview" tall))
              < height (getRootContainerSize (one_note "preview" tall)))).
Proof.
  split; [| split].
  - assert (G : 900 >= 900) by (vm_compute; discriminate).
    split; [exact G |].
    apply (proj1 (proj1 C2_auto_direction_vertical_iff_width_ge_height (mkSize 900 900))).
    exact G.
  - split; [reflexivity |]. split; [reflexivity |].
    refine (proj1 (proj1 (proj2 C2_auto_direction_vertical_iff_width_ge_height)
              Workspace _ (Some note) fresh110 (one_note "source" wide)
              1%nat 2%nat Vertical false _ _)); reflexivity.
  - split; [reflexivity |]. split; [reflexivity |].
    refine (proj2 (proj2 (proj2 C2_auto_direction_vertical_iff_width_ge_height)
              Workspace _ note true fresh120 (one_note "preview" tall)
              1%nat 2%nat Horizontal true _ _)); reflexivity.
Defined.

(** ** C3: complementary modes *)

Section Complement.
Context {H : Type} `{Host H}.



End Complement.



(** ** C6: which pane leads *)


Section Leading.
Context {H : Type} `{Host H}.



End Leading.



(** ** The calls that move the focus *)

Section Focus.
Context {H : Type} `{Host H}.

Lemma focus_by_preference_calls (l nl : Leaf) (d : SplitDirectionSetting) (before : bool)
  (f : TFile) (vs : ViewState) (m : string) (link : bool) (push : option bool)
  (pref : PaneTypeSetting) :
  vs_mode vs = Some m ->
  focus_by_preference pref
    (split_calls l d before nl f vs link (String.eqb m (pane_name pref)) push).
Proof.
  intros Hm. unfold focus_by_preference. exists l, d, before, nl, vs.
  split; [apply split_calls_first_split |].
  split; [apply split_calls_opened_with |].
  rewrite split_calls_focused_leaf, split_calls_focus, Hm.
  destruct (String.eqb_spec m (pane_name pref)) as [E|E].
  - subst m. split; [split; reflexivity | intros Hne; contradiction].
  - split; [split; [discriminate | congruence] | reflexivity].
Qed.

Lemma focus_by_preference110 (file : option TFile) (p : Plugin V110.AutoSplitSettings) (h : H) :
  split_performed (log_of (V110.on_file_open file) p h) = true ->
  focus_by_preference (V110.paneToFocus (settings p)) (log_of (V110.on_file_open file) p h).
Proof.
  intros Hs.
  destruct (on_file_open110_performed file p h Hs) as (l & f & _ & _ & _ & _ & Hlog).
  rewrite Hlog. apply focus_by_preference_calls. reflexivity.
Qed.

Lemma focus_by_preference120 (file : option TFile) (p : Plugin V120.AutoSplitSettings) (h : H) :
  split_performed (log_of (V120.on_file_open file) p h) = true ->
  focus_by_preference (V120.paneToFocus (settings p)) (log_of (V120.on_file_open file) p h).
Proof.
  intros Hs.
  destruct (on_file_open120_performed file p h Hs) as (f & _ & _ & Hlog).
  rewrite Hlog in Hs |- *.
  destruct (splitActiveFile_performed f true p h Hs) as (l & _ & _ & _ & Hlog').
  rewrite Hlog'. simpl. apply focus_by_preference_calls. reflexivity.
Qed.

(** Release 1.2 opens the new leaf with [active: false]. *)
Lemma opened_inactive120 (file : option TFile) (p : Plugin V120.AutoSplitSettings) (h : H)
  (l nl : Leaf) (d : SplitDirectionSetting) (b : bool) (vs : ViewState) :
  first_split (log_of (V120.on_file_open file) p h) = Some (l, d, b, nl) ->
  opened_with (log_of (V120.on_file_open file) p h) nl = Some vs ->
  vs_active vs = Some false.
Proof.
  intros Hf Ho.
  assert (Hs : split_performed (log_of (V120.on_file_open file) p h) = true)
    by (apply split_performed_first_split; eauto).
  destruct (on_file_open120_performed file p h Hs) as (f & _ & _ & Hlog).
  rewrite Hlog in Hs, Hf, Ho.
  destruct (splitActiveFile_performed f true p h Hs) as (l' & _ & _ & _ & Hlog').
  rewrite Hlog' in Hf, Ho. rewrite split_calls_first_split in Hf.
  injection Hf as _ _ _ <-. rewrite split_calls_opened_with in Ho.
  injection Ho as <-. reflexivity.
Qed.

(** The manual split asks for no activation. *)
Lemma manual_split_no_focus (f : TFile) (p : Plugin V120.AutoSplitSettings) (h : H) :
  focus_requested (log_of (V120.splitActiveFile f false) p h) = false.
Proof.
  rewrite splitActiveFile_log. cbv zeta.
  destruct (getActiveMarkdownLeaf h) as [l|]; [| reflexivity].
  destruct (_ && _)%bool; [| reflexivity].
  rewrite split_calls_focus. reflexivity.
Qed.

Lemma command_no_focus (checking : bool) (p : Plugin V120.AutoSplitSettings) (h : H) :
  focus_requested (log_of (V120.split_current_pane checking) p h) = false.
Proof.
  rewrite split_current_pane_log.
  destruct (isPhone h); [reflexivity |].
  destruct (activeEditorFile h) as [f|]; [| reflexivity].
  destruct checking; [reflexivity | apply manual_split_no_focus].
Qed.

End Focus.

(** ** C8: linking the panes *)

Section Linking.
Context {H : Type} `{Host H}.

Lemma linked_iff_linkPanes110 (file : option TFile) (p : Plugin V110.AutoSplitSettings) (h : H) :
  split_performed (log_of (V110.on_file_open file) p h) = true ->
  panes_linked (log_of (V110.on_file_open file) p h) = V110.linkPanes (settings p).
Proof.
  intros Hs.
  destruct (on_file_open110_performed file p h Hs) as (l & f & _ & _ & _ & _ & Hlog).
  rewrite Hlog. apply split_calls_linked.
Qed.

Lemma linked_iff_linkPanes120 (file : option TFile) (p : Plugin V120.AutoSplitSettings) (h : H) :
  split_performed (log_of (V120.on_file_open file) p h) = true ->
  panes_linked (log_of (V120.on_file_open file) p h) = V120.linkPanes (settings p).
Proof.
  intros Hs.
  destruct (on_file_open120_performed file p h Hs) as (f & _ & _ & Hlog).
  rewrite Hlog in Hs |- *.
  destruct (splitActiveFile_performed f true p h Hs) as (l & _ & _ & _ & Hlog').
  rewrite Hlog'. apply split_calls_linked.
Qed.

Lemma command_always_links (checking : bool) (p : Plugin V120.AutoSplitSettings) (h : H) :
  split_performed (log_of (V120.split_current_pane checking) p h) = true ->
  panes_linked (log_of (V120.split_current_pane checking) p h) = true.
Proof.
  intros Hs.
  destruct (split_current_pane_performed checking p h Hs) as (f & _ & _ & _ & Hlog).
  rewrite Hlog in Hs |- *.
  destruct (splitActiveFile_performed f false p h Hs) as (l & _ & _ & _ & Hlog').
  rewrite Hlog'. apply split_calls_linked.
Qed.

(** Whether a split is made does not depend on [linkPanes]. *)
Lemma split_whatever_linkPanes110 (file : option TFile) (s : V110.AutoSplitSettings)
  (flag b : bool) (h : H) :
  split_performed (log_of (V110.on_file_open file) (mkPlugin (with_linkPanes110 b s) flag) h)
  = split_performed (log_of (V110.on_file_open file) (mkPlugin s flag) h).
Proof.
  destruct (file_open_checks110_cases file (mkWorld (mkPlugin s flag) h [])) as [Ht|Hf].
  - assert (Ht' : V110.file_open_checks file (mkWorld (mkPlugin (with_linkPanes110 b s) flag) h [])
                  = Returned true (mkWorld (mkPlugin (with_linkPanes110 b s) flag) h [])).
    { rewrite file_open_checks110_spec in Ht |- *. simpl in Ht |- *.
      injection Ht as Ht. unfold V110.isEnabledOnPlatform in Ht |- *. simpl. rewrite Ht.
      reflexivity. }
    destruct (file_open_checks110_true _ _ Ht) as (_ & [l Hl] & _ & f & ->). simpl in Hl.
    rewrite (on_file_open110_log_checked l f _ h Ht Hl).
    rewrite (on_file_open110_log_checked l f _ h Ht' Hl).
    rewrite !split_on_open_log. cbv zeta. simpl.
    destruct (size_gate _ _ _); reflexivity.
  - assert (Hf' : V110.file_open_checks file (mkWorld (mkPlugin (with_linkPanes110 b s) flag) h [])
                  = Returned false (mkWorld (mkPlugin (with_linkPanes110 b s) flag) h [])).
    { rewrite file_open_checks110_spec in Hf |- *. simpl in Hf |- *.
      injection Hf as Hf. unfold V110.isEnabledOnPlatform in Hf |- *. simpl. rewrite Hf.
      reflexivity. }
    rewrite !on_file_open110_log_unchecked; [reflexivity | rewrite Hf | rewrite Hf']; discriminate.
Qed.

Lemma splitActiveFile_whatever_linkPanes (f : TFile) (a : bool) (s : V120.AutoSplitSettings)
  (flag b : bool) (h : H) :
  split_performed (log_of (V120.splitActiveFile f a) (mkPlugin (with_linkPanes120 b s) flag) h)
  = split_performed (log_of (V120.splitActiveFile f a) (mkPlugin s flag) h).
Proof.
  rewrite !splitActiveFile_log. cbv zeta. simpl.
  destruct (getActiveMarkdownLeaf h) as [l|]; [| reflexivity].
  destruct (_ && _)%bool; reflexivity.
Qed.

Lemma split_whatever_linkPanes120 (file : option TFile) (s : V120.AutoSplitSettings)
  (flag b : bool) (h : H) :
  split_performed (log_of (V120.on_file_open file) (mkPlugin (with_linkPanes120 b s) flag) h)
  = split_performed (log_of (V120.on_file_open file) (mkPlugin s flag) h).
Proof.
  pose proof (file_open_checks120_spec file (mkWorld (mkPlugin s flag) h [])) as E.
  pose proof (file_open_checks120_spec file
                (mkWorld (mkPlugin (with_linkPanes120 b s) flag) h [])) as E'.
  simpl in E, E'.
  destruct (V120.autoSplit s && negb (isPhone h)).
  - destruct (getLeavesOfType h "markdown") as [e|ls].
    + rewrite (on_file_open120_log_unchecked file (mkPlugin s flag) h) by (rewrite E; discriminate).
      rewrite (on_file_open120_log_unchecked file (mkPlugin (with_linkPanes120 b s) flag) h)
        by (rewrite E'; discriminate).
      reflexivity.
    + destruct ((length ls =? 1)%nat && negb flag && bool_decide (is_Some file)) eqn:Hb.
      * destruct (file_open_checks120_true _ _ E) as (_ & _ & _ & _ & f & ->).
        rewrite (on_file_open120_log_checked f _ h E), (on_file_open120_log_checked f _ h E').
        apply splitActiveFile_whatever_linkPanes.
      * rewrite (on_file_open120_log_unchecked file (mkPlugin s flag) h)
          by (rewrite E; discriminate).
        rewrite (on_file_open120_log_unchecked file (mkPlugin (with_linkPanes120 b s) flag) h)
          by (rewrite E'; discriminate).
        reflexivity.
  - rewrite (on_file_open120_log_unchecked file (mkPlugin s flag) h) by (rewrite E; discriminate).
    rewrite (on_file_open120_log_unchecked file (mkPlugin (with_linkPanes120 b s) flag) h)
      by (rewrite E'; discriminate).
    reflexivity.
Qed.

End Linking.

(** C8, as the code has it.  For every automatic split, in either release, the
    two panes are registered as a linked group if and only if [linkPanes] is
    enabled, and whether the split is made does not depend on [linkPanes]:
    with [linkPanes = false] the two panes are still created and no grouping
    call is made.  A split made by the command of release 1.2 always links
    the two panes, whatever [linkPanes] says. *)
Theorem C8_automatic_split_links_iff_linkPanes :
  (forall (H : Type) (HH : Host H) (file : option TFile)
          (s : V110.AutoSplitSettings) (flag : bool) (h : H),
      (split_performed (log_of (V110.on_file_open file) (mkPlugin s flag) h) = true ->
       panes_linked (log_of (V110.on_file_open file) (mkPlugin s flag) h) = V110.linkPanes s)
      /\ (forall b : bool,
             split_performed
               (log_of (V110.on_file_open file) (mkPlugin (with_linkPanes110 b s) flag) h)
             = split_performed (log_of (V110.on_file_open file) (mkPlugin s flag) h)))
  /\ (forall (H : Type) (HH : Host H) (file : option TFile)
             (s : V120.AutoSplitSettings) (flag : bool) (h : H),
         (split_performed (log_of (V120.on_file_open file) (mkPlugin s flag) h) = true ->
          panes_linked (log_of (V120.on_file_open file) (mkPlugin s flag) h) = V120.linkPanes s)
         /\ (forall b : bool,
                split_performed
                  (log_of (V120.on_file_open file) (mkPlugin (with_linkPanes120 b s) flag) h)
                = split_performed (log_of (V120.on_file_open file) (mkPlugin s flag) h)))
  /\ (forall (H : Type) (HH : Host H) (checking : bool)
             (p : Plugin V120.AutoSplitSettings) (h : H),
         split_performed (log_of (V120.split_current_pane checking) p h) = true ->
         panes_linked (log_of (V120.split_current_pane checking) p h) = true).
Proof.
  split; [| split].
  - intros H HH file s flag h. split.
    + apply (linked_iff_linkPanes110 file (mkPlugin s flag) h).
    + intros b. apply split_whatever_linkPanes110.
  - intros H HH file s flag h. split.
    + apply (linked_iff_linkPanes120 file (mkPlugin s flag) h).
    + intros b. apply split_whatever_linkPanes120.
  - intros H HH. apply command_always_links.
Qed.

(** C8 with [linkPanes] off: the automatic split is made and not linked, the
    split of the command is made and linked. *)
Lemma C8_witness_unlinked_settings :
  (split_performed (log_of (V110.on_file_open (Some note)) unlinked110 (one_note "source" wide))
   = true
   /\ panes_linked (log_of (V110.on_file_open (Some note)) unlinked110 (one_note "source" wide))
      = false)
  /\ (split_performed (log_of (V120.on_file_open (Some note)) unlinked120 (one_note "source" wide))
      = true
      /\ panes_linked (log_of (V120.on_file_open (Some note)) unlinked120 (one_note "source" wide))
         = false)
  /\ (split_performed (log_of (V120.split_current_pane false) unlinked120 (one_note "source" wide))
      = true
      /\ panes_linked (log_of (V120.split_current_pane false) unlinked120 (one_note "source" wide))
         = true).
Proof.
  split; [| split]; (split; [reflexivity |]).
  - refine (proj1 (proj1 C8_automatic_split_links_iff_linkPanes Workspace _ (Some note)
                     (settings unlinked110) false (one_note "source" wide)) _).
    reflexivity.
  - refine (proj1 (proj1 (proj2 C8_automatic_split_links_iff_linkPanes) Workspace _ (Some note)
                     (settings unlinked120) false (one_note "source" wide)) _).
    reflexivity.
  - refine (proj2 (proj2 C8_automatic_split_links_iff_linkPanes) Workspace _ false
              unlinked120 (one_note "source" wide) _).
    reflexivity.
Defined.

(** C8 as stated fails for the command of release 1.2: with [linkPanes]
    disabled the split is made and the two panes are linked all the same. *)
Lemma C8_counterexample_command_links_anyway :
  V120.linkPanes (settings unlinked120) = false
  /\ log_of (V120.split_current_pane false) unlinked120 (one_note "source" wide)
     = [CreateLeafBySplit 1%nat Vertical false 2%nat;
        OpenFile 2%nat note
          {| vs_type := "markdown"; vs_mode := Some "preview";
             vs_active := Some false; vs_group := None |};
        SetGroupMember 1%nat 2%nat]
  /\ split_performed (log_of (V120.split_current_pane false) unlinked120 (one_note "source" wide))
     = true
  /\ panes_linked (log_of (V120.split_current_pane false) unlinked120 (one_note "source" wide))
     = true.
Proof. repeat split. Qed.

(** ** C9: a failing enumeration *)

Section Swallowed.
Context {H : Type} `{Host H}.

Lemma flag_kept_on_failure110 (file : option TFile) (w w' : World V110.AutoSplitSettings H)
  (e : Exn) :
  V110.on_file_open file w = Returned tt w' ->
  getLeavesOfType (app w') "markdown" = inl e ->
  hasOpenFiles (this w') = hasOpenFiles (this w).
Proof.
  intros Hr He. destruct (on_file_open110_after file w w' Hr) as [_ Hf].
  rewrite Hf, He. reflexivity.
Qed.

Lemma flag_kept_on_failure120 (file : option TFile) (w w' : World V120.AutoSplitSettings H)
  (e : Exn) :
  V120.on_file_open file w = Returned tt w' ->
  getLeavesOfType (app w') "markdown" = inl e ->
  hasOpenFiles (this w') = hasOpenFiles (this w).
Proof.
  intros Hr He. destruct (on_file_open120_after file w w' Hr) as [_ Hf].
  rewrite Hf, He. reflexivity.
Qed.

End Swallowed.

(** C9.  When the enumeration of the open note views throws while the flag is
    refreshed, [updateHasOpenFiles] returns normally and leaves the plugin, the
    flag included, exactly as it was; and a file-open handler whose closing
    refresh meets such a failure returns with the flag it started with. *)
Theorem C9_refresh_failure_swallowed_flag_retained :
  (forall (S H : Type) (HH : Host H) (w : World S H) (e : Exn),
      getLeavesOfType (app w) "markdown" = inl e ->
      updateHasOpenFiles w = Returned tt w)
  /\ (forall (H : Type) (HH : Host H) (file : option TFile)
             (w w' : World V110.AutoSplitSettings H) (e : Exn),
         V110.on_file_open file w = Returned tt w' ->
         getLeavesOfType (app w') "markdown" = inl e ->
         hasOpenFiles (this w') = hasOpenFiles (this w))
  /\ (forall (H : Type) (HH : Host H) (file : option TFile)
             (w w' : World V120.AutoSplitSettings H) (e : Exn),
         V120.on_file_open file w = Returned tt w' ->
         getLeavesOfType (app w') "markdown" = inl e ->
         hasOpenFiles (this w') = hasOpenFiles (this w)).
Proof.
  split; [| split].
  - intros S H HH w e. apply updateHasOpenFiles_throwing.
  - intros H HH. apply flag_kept_on_failure110.
  - intros H HH. apply flag_kept_on_failure120.
Qed.

(** C9 on a workspace whose enumeration throws, with the flag up and with the
    flag down. *)
Lemma C9_witness_throwing_enumeration :
  getLeavesOfType (one_note_throwing "source" wide) "markdown" = inl "enumeration failed"
  /\ updateHasOpenFiles (start (mkPlugin V120.DEFAULT_SETTINGS true) (one_note_throwing "source" wide))
     = Returned tt (start (mkPlugin V120.DEFAULT_SETTINGS true) (one_note_throwing "source" wide))
  /\ hasOpenFiles
       (plugin_after (V110.on_file_open (Some note)) fresh110 (one_note_throwing "source" wide))
     = false.
Proof.
  split; [reflexivity | split].
  - apply (proj1 C9_refresh_failure_swallowed_flag_retained _ Workspace _
             (start (mkPlugin V120.DEFAULT_SETTINGS true) (one_note_throwing "source" wide))
             "enumeration failed").
    reflexivity.
  - refine (proj1 (proj2 C9_refresh_failure_swallowed_flag_retained) Workspace _ (Some note)
              (start fresh110 (one_note_throwing "source" wide))
              (world_of (V110.on_file_open (Some note)
                           (start fresh110 (one_note_throwing "source" wide))))
              "enumeration failed" _ _); reflexivity.
Defined.

(** ** C10: the command goes through the same direction and size gate *)

Section Command.
Context {H : Type} `{Host H}.







End Command.



(** ** The automatic split and the flag *)

Section FlagDown.
Context {H : Type} `{Host H}.

(** No split while the flag is up. *)
Lemma split_needs_flag_down110 (file : option TFile) (p : Plugin V110.AutoSplitSettings) (h : H) :
  split_performed (log_of (V110.on_file_open file) p h) = true ->
  hasOpenFiles p = false.
Proof.
  intros Hs.
  destruct (on_file_open110_performed file p h Hs) as (l & f & _ & _ & Ht & _).
  destruct (file_open_checks110_true _ _ Ht) as (_ & _ & Hf & _). exact Hf.
Qed.

Lemma split_needs_flag_down120 (file : option TFile) (p : Plugin V120.AutoSplitSettings) (h : H) :
  split_performed (log_of (V120.on_file_open file) p h) = true ->
  hasOpenFiles p = false.
Proof.
  intros Hs.
  destruct (on_file_open120_performed file p h Hs) as (f & _ & Ht & _).
  destruct (file_open_checks120_true _ _ Ht) as (_ & _ & _ & Hf & _). exact Hf.
Qed.

End FlagDown.

Section RunInvariant.
Context {S H : Type} `{Host H}.
Variable handler : option TFile -> M (World S H) unit.

(** What the argument needs of a handler: it splits only with the flag down,
    it ends by refreshing the flag from the final host state, and it leaves
    the flag alone when it throws. *)
Hypothesis handler_split : forall file p h,
  split_performed (log_of (handler file) p h) = true -> hasOpenFiles p = false.
Hypothesis handler_after : forall file w w',
  handler file w = Returned tt w' ->
  hasOpenFiles (this w') =
  match getLeavesOfType (app w') "markdown" with
  | inr ls => (0 <? length ls)%nat
  | inl _ => hasOpenFiles (this w)
  end.
Hypothesis handler_thrown : forall file w w' e,
  handler file w = Thrown e w' -> w' = w.

Lemma refresh_keeps_record (file : option TFile) (p : Plugin S) (h : H) (seen : option nat) :
  hasOpenFiles p = flag_of_seen seen ->
  hasOpenFiles (this (world_of (handler file (mkWorld p h []))))
  = flag_of_seen (refresh_seen seen (handler file (mkWorld p h []))).
Proof.
  intros Hinv.
  destruct (handler file (mkWorld p h [])) as [[] w'|e w'] eqn:Hr; simpl.
  - rewrite (handler_after _ _ _ Hr).
    destruct (getLeavesOfType (app w') "markdown"); simpl; [exact Hinv | reflexivity].
  - rewrite (handler_thrown _ _ _ _ Hr). exact Hinv.
Qed.

(** Along every sequence of events, every handled file-open event splits only
    when the record says the workspace was empty. *)
Lemma run_splits_only_when_empty (evs : list (Event (S := S) (H := H)))
  (p : Plugin S) (seen : option nat) :
  hasOpenFiles p = flag_of_seen seen ->
  Forall splits_only_when_empty (run handler p seen evs).
Proof.
  revert p seen. induction evs as [|ev evs IH]; intros p seen Hinv; simpl.
  - constructor.
  - destruct ev as [h file | s].
    + constructor.
      * unfold splits_only_when_empty. simpl. split; [exact Hinv |]. split.
        -- intros Hs. pose proof (handler_split file p h Hs) as Hf.
           split; [exact Hf |].
           rewrite Hinv in Hf. unfold flag_of_seen, Nat.ltb in Hf.
           destruct seen as [[|n]|]; simpl in Hf; auto. discriminate.
        -- intros n ->. unfold flag_of_seen, Nat.ltb in Hinv. simpl in Hinv.
           destruct (split_performed (calls (world_of (handler file (mkWorld p h []))))) eqn:Hs;
             [| reflexivity].
           pose proof (handler_split file p h Hs) as Hf. congruence.
      * apply IH. apply refresh_keeps_record. exact Hinv.
    + apply IH. exact Hinv.
Qed.

Lemma loaded_record (s : S) (h0 : H) :
  hasOpenFiles (fst (loaded s h0)) = flag_of_seen (snd (loaded s h0)).
Proof.
  unfold loaded. rewrite updateHasOpenFiles_spec. simpl.
  destruct (getLeavesOfType h0 "markdown"); reflexivity.
Qed.

Lemma run_from_load_splits_only_when_empty (s : S) (h0 : H)
  (evs : list (Event (S := S) (H := H))) :
  Forall splits_only_when_empty (run_from_load handler s h0 evs).
Proof.
  unfold run_from_load. apply run_splits_only_when_empty. apply loaded_record.
Qed.

End RunInvariant.

(** In either release, from the moment the plugin is loaded and along every
    sequence of file-open events and settings changes, each handled file-open
    event finds in [hasOpenFiles] the record of the latest enumeration of
    markdown leaves that succeeded (at layout-ready or at the end of an
    earlier event), and splits only when the flag is down, that is when that
    enumeration counted zero note views (or none has succeeded yet).  In any
    plugin state with the flag up, a file-open event issues no workspace call
    at all.  The record says nothing of the workspace at the event itself. *)
Lemma flag_is_the_record_of_the_latest_enumeration :
  (forall (H : Type) (HH : Host H) (s : V110.AutoSplitSettings) (h0 : H)
          (evs : list (Event (S := V110.AutoSplitSettings) (H := H))),
      Forall splits_only_when_empty (run_from_load V110.on_file_open s h0 evs))
  /\ (forall (H : Type) (HH : Host H) (s : V120.AutoSplitSettings) (h0 : H)
             (evs : list (Event (S := V120.AutoSplitSettings) (H := H))),
         Forall splits_only_when_empty (run_from_load V120.on_file_open s h0 evs))
  /\ (forall (H : Type) (HH : Host H) (file : option TFile)
             (p : Plugin V110.AutoSplitSettings) (h : H),
         hasOpenFiles p = true -> log_of (V110.on_file_open file) p h = [])
  /\ (forall (H : Type) (HH : Host H) (file : option TFile)
             (p : Plugin V120.AutoSplitSettings) (h : H),
         hasOpenFiles p = true -> log_of (V120.on_file_open file) p h = []).
Proof.
  split; [| split; [| split]].
  - intros H HH s h0 evs. apply run_from_load_splits_only_when_empty.
    + intros file p h. apply split_needs_flag_down110.
    + intros file w w' Hr. apply (on_file_open110_after file w w' Hr).
    + intros file w w' e Hr.
      destruct (on_file_open110_returns file w) as [w1 Hw1]. rewrite Hw1 in Hr. discriminate.
  - intros H HH s h0 evs. apply run_from_load_splits_only_when_empty.
    + intros file p h. apply split_needs_flag_down120.
    + intros file w w' Hr. apply (on_file_open120_after file w w' Hr).
    + intros file w w' e. apply on_file_open120_throws.
  - intros H HH file p h Hf. apply on_file_open110_log_unchecked.
    intros Ht. destruct (file_open_checks110_true _ _ Ht) as (_ & _ & Hf' & _).
    simpl in Hf'. congruence.
  - intros H HH file p h Hf. apply on_file_open120_log_unchecked.
    intros Ht. destruct (file_open_checks120_true _ _ Ht) as (_ & _ & _ & Hf' & _).
    simpl in Hf'. congruence.
Qed.

(** The record is only as fresh as the latest enumeration that succeeded: when
    the refresh after a split throws, the flag stays down and the next
    file-open event of release 1.1 splits again. *)
Example stale_record_splits_again :
  map step_summary
    (run_from_load V110.on_file_open V110.DEFAULT_SETTINGS (no_note wide)
       [FileOpen (one_note_throwing "source" wide) (Some note);
        FileOpen (one_note "source" wide) (Some "other.md")])
  = [(Some 0%nat, true); (Some 0%nat, true)].
Proof. reflexivity. Qed.

(** ** C5: loading and saving the settings *)

Module PersistFacts.
Import Persist.

(** [loadSettings] is a shallow merge: a property of the data file wins whole,
    a property the data file lacks comes from the defaults. *)
Lemma lookup_loadSettings (D : gmap string jsval) (data : option (gmap string jsval))
  (k : string) :
  loadSettings D data !! k =
  match data ≫= (fun o => o !! k) with
  | Some v => Some v
  | None => D !! k
  end.
Proof.
  unfold loadSettings, Object_assign. simpl.
  destruct data as [o|]; simpl.
  - destruct (o !! k) as [v|] eqn:Hk.
    + apply lookup_union_Some_l. exact Hk.
    + rewrite lookup_union_r by exact Hk. rewrite lookup_union_l by apply lookup_empty.
      reflexivity.
  - rewrite lookup_union_l by apply lookup_empty. reflexivity.
Qed.

(** Loading what was just saved changes nothing, for settings that were
    themselves loaded. *)
Lemma load_save_load (D : gmap string jsval) (data : option (gmap string jsval)) :
  loadSettings D (saveSettings (loadSettings D data)) = loadSettings D data.
Proof.
  apply map_eq. intros k. unfold saveSettings.
  rewrite (lookup_loadSettings D (Some _) k). simpl.
  destruct (loadSettings D data !! k) as [v|] eqn:Hk; [reflexivity |].
  rewrite lookup_loadSettings in Hk.
  destruct (data ≫= (fun o => o !! k)); [discriminate | exact Hk].
Qed.

Lemma decode_encode110 (s : V110.AutoSplitSettings) : decode110 (encode110 s) = Some s.
Proof.
  destruct s as [[d m] ms dir ef pf lp]. destruct dir, pf; reflexivity.
Qed.

Lemma decode_encode120 (s : V120.AutoSplitSettings) : decode120 (encode120 s) = Some s.
Proof.
  destruct s as [a ms dir ef pf lp]. destruct dir, pf; reflexivity.
Qed.

(** A complete settings object is loaded back as it is. *)
Lemma load_complete (D o : gmap string jsval) :
  (forall k, o !! k = None -> D !! k = None) ->
  loadSettings D (Some o) = o.
Proof.
  intros Hdom. apply map_eq. intros k. rewrite lookup_loadSettings. simpl.
  destruct (o !! k) eqn:Hk; [reflexivity | apply Hdom; exact Hk].
Qed.

Lemma encode110_keys (s s' : V110.AutoSplitSettings) (k : string) :
  encode110 s !! k = None -> encode110 s' !! k = None.
Proof.
  unfold encode110. rewrite !lookup_insert_None. intuition.
Qed.

Lemma encode120_keys (s s' : V120.AutoSplitSettings) (k : string) :
  encode120 s !! k = None -> encode120 s' !! k = None.
Proof.
  unfold encode120. rewrite !lookup_insert_None. intuition.
Qed.

Lemma roundtrip110 (s : V110.AutoSplitSettings) :
  decode110 (loadSettings DEFAULT_SETTINGS110 (saveSettings (encode110 s))) = Some s.
Proof.
  unfold saveSettings. rewrite load_complete; [apply decode_encode110 |].
  intros k. apply encode110_keys.
Qed.

Lemma roundtrip120 (s : V120.AutoSplitSettings) :
  decode120 (loadSettings DEFAULT_SETTINGS120 (saveSettings (encode120 s))) = Some s.
Proof.
  unfold saveSettings. rewrite load_complete; [apply decode_encode120 |].
  intros k. apply encode120_keys.
Qed.

End PersistFacts.

(** C5, as the code has it.  For every data file (none, or any object) and the
    defaults of either release: the settings loaded from it, once saved, load
    back identical; a settings record of either release, saved, loads back
    as the same record; and in the loaded settings each top-level property is
    the data file's when it has one, taken whole, and the default otherwise.
    So a data file without [enabledOn] gets the default [enabledOn] object,
    and a data file with an [enabledOn] object of its own keeps exactly that
    object: nothing inside it is completed from the defaults. *)
Theorem C5_settings_round_trip_with_shallow_defaults :
  (forall (D : gmap string Persist.jsval) (data : option (gmap string Persist.jsval)),
      Persist.loadSettings D (Persist.saveSettings (Persist.loadSettings D data))
      = Persist.loadSettings D data
      /\ forall k : string,
           Persist.loadSettings D data !! k =
           match data ≫= (fun o => o !! k) with
           | Some v => Some v
           | None => D !! k
           end)
  /\ (forall s : V110.AutoSplitSettings,
         Persist.decode110
           (Persist.loadSettings Persist.DEFAULT_SETTINGS110
              (Persist.saveSettings (Persist.encode110 s)))
         = Some s)
  /\ (forall s : V120.AutoSplitSettings,
         Persist.decode120
           (Persist.loadSettings Persist.DEFAULT_SETTINGS120
              (Persist.saveSettings (Persist.encode120 s)))
         = Some s).
Proof.
  split; [| split].
  - intros D data. split.
    + apply PersistFacts.load_save_load.
    + intros k. apply PersistFacts.lookup_loadSettings.
  - apply PersistFacts.roundtrip110.
  - apply PersistFacts.roundtrip120.
Qed.

(** C5 as stated fails on a data file whose [enabledOn] object lacks
    [mobile]: the default has [mobile: true], the loaded settings have no
    [enabledOn.mobile] at all, the platform gate reads it as false, and the
    loaded object is no settings record. *)
Lemma C5_counterexample_partial_enabledOn_not_completed :
  Persist.get_in Persist.partial_enabledOn "enabledOn" "mobile" = None
  /\ Persist.get_in Persist.DEFAULT_SETTINGS110 "enabledOn" "mobile" = Some (Persist.JBool true)
  /\ Persist.get_in
       (Persist.loadSettings Persist.DEFAULT_SETTINGS110 (Some Persist.partial_enabledOn))
       "enabledOn" "mobile"
     = None
  /\ Persist.enabled_on_mobile
       (Persist.loadSettings Persist.DEFAULT_SETTINGS110 (Some Persist.partial_enabledOn))
     = false
  /\ Persist.decode110
       (Persist.loadSettings Persist.DEFAULT_SETTINGS110 (Some Persist.partial_enabledOn))
     = None.
Proof. repeat split. Qed.

(** * Properties of the rest of the code *)

(** ** Tactics for comparing handlers case by case *)

Lemma is_Some_Some_b {A : Type} (x : A) : bool_decide (is_Some (Some x)) = true.
Proof. apply bool_decide_eq_true. eauto. Qed.

Lemma is_Some_None_b {A : Type} : bool_decide (is_Some (@None A)) = false.
Proof. apply bool_decide_eq_false. intros [x Hx]. discriminate. Qed.

Ltac unfold_handlers :=
  unfold V100.on_file_open, V100.file_open_checks, V100.split_on_open,
    V110.on_file_open, V110.file_open_checks, V110.split_on_open,
    V112.on_file_open, V112.file_open_checks, V112.split_on_open,
    V120.on_file_open, V120.file_open_checks, V120.splitActiveFile,
    V120.split_current_pane, updateHasOpenFiles, start, log_of, plugin_after in *.

Ltac crunch_step :=
  match goal with
  | Hx : ?t = _ |- context [?t] => rewrite Hx
  | |- context [bool_decide (is_Some (Some _))] => rewrite is_Some_Some_b
  | |- context [bool_decide (is_Some None)] => rewrite is_Some_None_b
  | |- context [createLeafBySplit ?h ?x ?y ?z] =>
      destruct (createLeafBySplit h x y z) as [? ?] eqn:?
  | |- context [match ?o with inl _ => _ | inr _ => _ end] => destruct o eqn:?
  | |- context [if ?b then _ else _] => destruct b eqn:?
  | |- context [match ?o with Some _ => _ | None => _ end] => destruct o eqn:?
  end.

Ltac crunch := repeat (simpl; try crunch_step).

(** ** When the automatic split fires *)

Section Trigger.
Context {H : Type} `{Host H}.

Lemma trigger110 (file : option TFile) (p : Plugin V110.AutoSplitSettings) (h : H) :
  split_performed (log_of (V110.on_file_open file) p h) = true <->
  V110.isEnabledOnPlatform (settings p) h = true
  /\ is_Some (activeLeaf h)
  /\ hasOpenFiles p = false
  /\ is_Some file
  /\ compared110 p h > V110.minSize (settings p).
Proof.
  split.
  - intros Hs.
    destruct (on_file_open110_performed file p h Hs) as (l & f & Hl & -> & Ht & Hg & _).
    destruct (file_open_checks110_true _ _ Ht) as (He & _ & Hf & _).
    apply size_gate_true in Hg. unfold compared110, resolved110.
    repeat split; eauto; lia.
  - intros (He & [l Hl] & Hf & [f ->] & Hg).
    assert (Ht : passes_checks110 (Some f) p h).
    { unfold passes_checks110, start. rewrite file_open_checks110_spec. simpl.
      rewrite He, Hl, Hf, ?is_Some_Some_b. reflexivity. }
    apply (split_iff_large110 (Some f) p h Ht). exact Hg.
Qed.

Lemma trigger120 (file : option TFile) (p : Plugin V120.AutoSplitSettings) (h : H) :
  split_performed (log_of (V120.on_file_open file) p h) = true <->
  V120.autoSplit (settings p) = true
  /\ isPhone h = false
  /\ (exists l0, getLeavesOfType h "markdown" = inr [l0])
  /\ hasOpenFiles p = false
  /\ is_Some file
  /\ (exists l, getActiveMarkdownLeaf h = Some l
                /\ vs_type (getViewState h l) = "markdown")
  /\ compared120 p h > V120.minSize (settings p).
Proof.
  split.
  - intros Hs.
    destruct (on_file_open120_performed file p h Hs) as (f & -> & Ht & Hlog).
    destruct (file_open_checks120_true _ _ Ht) as (Ha & Hp & Hl & Hf & _).
    rewrite Hlog in Hs.
    destruct (splitActiveFile_performed f true p h Hs) as (l & Hal & Hg & Hty & _).
    apply size_gate_true in Hg. unfold compared120, resolved120.
    repeat split; eauto; lia.
  - intros (Ha & Hp & [l0 Hl] & Hf & [f ->] & (l & Hal & Hty) & Hg).
    assert (Ht : passes_checks120 (Some f) p h).
    { unfold passes_checks120, start. rewrite file_open_checks120_spec. simpl.
      rewrite Ha, Hp, Hl, Hf, ?is_Some_Some_b. reflexivity. }
    apply (split_iff_large120 (Some f) p h l Ht Hal Hty). exact Hg.
Qed.

End Trigger.

(** ** Release 1.1 against release 1.0, release 1.2 against release 1.1.2 *)

Section Releases.
Context {H : Type} `{Host H}.

(** With the platform enabled, the handler of release 1.1 does what the
    handler of release 1.0 does. *)
Lemma release110_extends_100 (file : option TFile) (s : V100.AutoSplitSettings)
  (e : V110.EnabledOn) (flag : bool) (h : H) :
  V110.isEnabledOnPlatform (with_enabledOn e s) h = true ->
  same_effect (V110.on_file_open file (start (mkPlugin (with_enabledOn e s) flag) h))
              (V100.on_file_open file (start (mkPlugin s flag) h)).
Proof.
  intros He. unfold same_effect. unfold_handlers. unfold_effects.
  destruct file, flag, (activeLeaf h) eqn:Hal.
  all: crunch; repeat split; try reflexivity; try discriminate.
Qed.

Lemma enabled_everywhere (s : V100.AutoSplitSettings) (h : H) :
  V110.isEnabledOnPlatform (with_enabledOn (V110.mkEnabledOn true true) s) h = true.
Proof.
  unfold V110.isEnabledOnPlatform. simpl.
  destruct (isDesktop h), (isMobile h); reflexivity.
Qed.

(** The handler of release 1.2 does what the handler of release 1.1.2 does,
    when the platform gates agree, the enumeration answers or a markdown view
    is active, and the active markdown view's state is of type markdown. *)
Lemma release120_refactors_112 (file : option TFile) (s : V110.AutoSplitSettings)
  (a flag : bool) (h : H) :
  V110.isEnabledOnPlatform s h = a && negb (isPhone h) ->
  (is_Some (getActiveMarkdownLeaf h) \/ exists ls, getLeavesOfType h "markdown" = inr ls) ->
  (forall l, getActiveMarkdownLeaf h = Some l -> vs_type (getViewState h l) = "markdown") ->
  same_effect (V112.on_file_open file (start (mkPlugin s flag) h))
              (V120.on_file_open file (start (mkPlugin (with_autoSplit a s) flag) h)).
Proof.
  intros He Hal Hty. unfold same_effect. unfold_handlers. unfold_effects.
  destruct (getActiveMarkdownLeaf h) as [l|] eqn:El.
  - specialize (Hty l eq_refl). clear Hal. destruct file, flag.
    all: crunch; repeat split; try reflexivity; try discriminate.
  - destruct Hal as [[l Hl]|[ls Hls]]; [discriminate |]. destruct file, flag.
    all: crunch; repeat split; try reflexivity; try discriminate.
Qed.

(** When release 1.1.2 splits. *)
Lemma trigger112_b (file : option TFile) (p : Plugin V110.AutoSplitSettings) (h : H) :
  split_performed (log_of (V112.on_file_open file) p h) =
  V110.isEnabledOnPlatform (settings p) h
  && match getLeavesOfType h "markdown" with
     | inr ls => (length ls =? 1)%nat
     | inl _ => false
     end
  && negb (hasOpenFiles p)
  && bool_decide (is_Some file)
  && match getActiveMarkdownLeaf h with
     | Some l => String.eqb (vs_type (getViewState h l)) "markdown"
     | None => false
     end
  && size_gate (resolved110 p h) (getRootContainerSize h) (V110.minSize (settings p)).
Proof.
  destruct p as [s flag]. unfold resolved110. unfold_handlers. unfold_effects.
  destruct file, flag, (getActiveMarkdownLeaf h) eqn:El,
    (V110.isEnabledOnPlatform s h) eqn:He.
  all: crunch; try reflexivity; try discriminate.
  all: repeat match goal with
       | Hx : negb ?b = true |- _ => apply negb_true_iff in Hx
       | Hx : negb ?b = false |- _ => apply negb_false_iff in Hx
       end;
       repeat match goal with Hx : ?t = _ |- context [?t] => rewrite Hx end;
       repeat match goal with
       | Hx : context [(length ?l =? 1)%nat] |- _ => destruct (length l =? 1)%nat
       | |- context [(length ?l =? 1)%nat] => destruct (length l =? 1)%nat
       | |- context [size_gate ?a ?b ?c] => destruct (size_gate a b c)
       end; simpl in *; rewrite ?andb_false_r; try reflexivity; try discriminate.
Qed.

(** In release 1.1.2, a view state of another type than markdown ends the
    handler on the spot: nothing is called and the flag is not refreshed. *)
Lemma early_return112 (f : TFile) (p : Plugin V110.AutoSplitSettings) (h : H) (l l0 : Leaf) :
  V110.isEnabledOnPlatform (settings p) h = true ->
  getActiveMarkdownLeaf h = Some l ->
  getLeavesOfType h "markdown" = inr [l0] ->
  hasOpenFiles p = false ->
  compared110 p h > V110.minSize (settings p) ->
  vs_type (getViewState h l) <> "markdown" ->
  V112.on_file_open (Some f) (start p h) = Returned tt (start p h).
Proof.
  intros He Hal Hls Hf Hg Hty. destruct p as [s flag]. simpl in *. subst flag.
  assert (Hgate : size_gate (resolve_direction (V110.direction s) (getRootContainerSize h))
                    (getRootContainerSize h) (V110.minSize s) = true).
  { apply size_gate_true. unfold compared110, resolved110 in Hg. simpl in Hg. lia. }
  apply String.eqb_neq in Hty.
  unfold_handlers. unfold_effects. simpl.
  rewrite Hal, He, is_Some_Some_b. simpl. rewrite Hls. simpl.
  rewrite Hgate. simpl. rewrite Hty. reflexivity.
Qed.

End Releases.

Section TriggerOld.
Context {H : Type} `{Host H}.

Lemma log100_as_110 (file : option TFile) (s : V100.AutoSplitSettings) (flag : bool) (h : H) :
  log_of (V100.on_file_open file) (mkPlugin s flag) h
  = log_of (V110.on_file_open file)
      (mkPlugin (with_enabledOn (V110.mkEnabledOn true true) s) flag) h.
Proof.
  destruct (release110_extends_100 file s (V110.mkEnabledOn true true) flag h
              (enabled_everywhere s h)) as (_ & Hc & _).
  unfold log_of. symmetry. exact Hc.
Qed.

Lemma trigger100 (file : option TFile) (p : Plugin V100.AutoSplitSettings) (h : H) :
  split_performed (log_of (V100.on_file_open file) p h) = true <->
  is_Some (activeLeaf h)
  /\ hasOpenFiles p = false
  /\ is_Some file
  /\ compared_dimension
       (resolve_direction (V100.direction (settings p)) (getRootContainerSize h))
       (getRootContainerSize h)
     > V100.minSize (settings p).
Proof.
  destruct p as [s flag]. rewrite log100_as_110, trigger110. simpl.
  unfold compared110, resolved110. simpl.
  pose proof (enabled_everywhere s h). tauto.
Qed.

Lemma trigger112 (file : option TFile) (p : Plugin V110.AutoSplitSettings) (h : H) :
  split_performed (log_of (V112.on_file_open file) p h) = true <->
  V110.isEnabledOnPlatform (settings p) h = true
  /\ (exists l0, getLeavesOfType h "markdown" = inr [l0])
  /\ hasOpenFiles p = false
  /\ is_Some file
  /\ (exists l, getActiveMarkdownLeaf h = Some l
                /\ vs_type (getViewState h l) = "markdown")
  /\ compared110 p h > V110.minSize (settings p).
Proof.
  rewrite trigger112_b. rewrite !andb_true_iff, negb_true_iff, bool_decide_eq_true,
    size_gate_true. unfold compared110.
  split.
  - intros (((((He & Hl) & Hf) & Hfile) & Hal) & Hg).
    repeat split; try assumption; try lia.
    + destruct (getLeavesOfType h "markdown") as [e|ls]; [discriminate |].
      apply Nat.eqb_eq in Hl. destruct ls as [|l0 [|]]; try discriminate. eauto.
    + destruct (getActiveMarkdownLeaf h) as [l|]; [| discriminate].
      apply String.eqb_eq in Hal. eauto.
  - intros (He & [l0 Hl] & Hf & Hfile & (l & Hal & Hty) & Hg).
    rewrite Hl, Hal, Hty. repeat split; try assumption; try reflexivity; lia.
Qed.

End TriggerOld.

(** X1.  In releases 1.0 and 1.1 a file-open event splits exactly when the
    platform is enabled (release 1.1), a leaf is active, the flag
    [hasOpenFiles] is down, the event carries a file, and the compared
    dimension of the main area is strictly above [minSize]. *)
Theorem X1_when_release_1_1_splits :
  (forall (H : Type) (HH : Host H) (file : option TFile)
          (p : Plugin V110.AutoSplitSettings) (h : H),
      split_performed (log_of (V110.on_file_open file) p h) = true <->
      V110.isEnabledOnPlatform (settings p) h = true
      /\ is_Some (activeLeaf h)
      /\ hasOpenFiles p = false
      /\ is_Some file
      /\ compared110 p h > V110.minSize (settings p))
  /\ (forall (H : Type) (HH : Host H) (file : option TFile)
             (p : Plugin V100.AutoSplitSettings) (h : H),
         split_performed (log_of (V100.on_file_open file) p h) = true <->
         is_Some (activeLeaf h)
         /\ hasOpenFiles p = false
         /\ is_Some file
         /\ compared_dimension
              (resolve_direction (V100.direction (settings p)) (getRootContainerSize h))
              (getRootContainerSize h)
            > V100.minSize (settings p)).
Proof.
  split.
  - intros H HH. apply trigger110.
  - intros H HH. apply trigger100.
Qed.

(** X2.  In releases 1.1.2 and 1.2 a file-open event splits exactly when the
    automatic split is enabled for the device (release 1.2: [autoSplit] on and
    not a phone; release 1.1.2: the platform setting), the workspace
    enumerates exactly one markdown leaf, the flag [hasOpenFiles] is down, the
    event carries a file, a markdown view is active whose view state has type
    markdown, and the compared dimension is strictly above [minSize]. *)
Theorem X2_when_release_1_2_splits :
  (forall (H : Type) (HH : Host H) (file : option TFile)
          (p : Plugin V120.AutoSplitSettings) (h : H),
      split_performed (log_of (V120.on_file_open file) p h) = true <->
      V120.autoSplit (settings p) = true
      /\ isPhone h = false
      /\ (exists l0, getLeavesOfType h "markdown" = inr [l0])
      /\ hasOpenFiles p = false
      /\ is_Some file
      /\ (exists l, getActiveMarkdownLeaf h = Some l
                    /\ vs_type (getViewState h l) = "markdown")
      /\ compared120 p h > V120.minSize (settings p))
  /\ (forall (H : Type) (HH : Host H) (file : option TFile)
             (p : Plugin V110.AutoSplitSettings) (h : H),
         split_performed (log_of (V112.on_file_open file) p h) = true <->
         V110.isEnabledOnPlatform (settings p) h = true
         /\ (exists l0, getLeavesOfType h "markdown" = inr [l0])
         /\ hasOpenFiles p = false
         /\ is_Some file
         /\ (exists l, getActiveMarkdownLeaf h = Some l
                       /\ vs_type (getViewState h l) = "markdown")
         /\ compared110 p h > V110.minSize (settings p)).
Proof.
  split.
  - intros H HH. apply trigger120.
  - intros H HH. apply trigger112.
Qed.

(** ** The calls of one event *)

Section Protocol.
Context {H : Type} `{Host H}.

Lemma protocol110 (file : option TFile) (p : Plugin V110.AutoSplitSettings) (h : H) :
  log_of (V110.on_file_open file) p h = []
  \/ exists l f,
       activeLeaf h = Some l /\ file = Some f
       /\ one_split_of h l f id (log_of (V110.on_file_open file) p h).
Proof.
  destruct (split_performed (log_of (V110.on_file_open file) p h)) eqn:Hs.
  - right. destruct (on_file_open110_performed file p h Hs) as (l & f & Hl & Hf & _ & _ & Hlog).
    exists l, f. split; [exact Hl |]. split; [exact Hf |].
    unfold one_split_of. rewrite Hlog. eexists _, _, _, _, _. reflexivity.
  - left. destruct (file_open_checks110_cases file (mkWorld p h [])) as [Ht|Hf].
    + destruct (file_open_checks110_true _ _ Ht) as (_ & [l Hl] & _ & f & ->). simpl in Hl.
      rewrite (on_file_open110_log_checked l f p h Ht Hl) in Hs |- *.
      rewrite split_on_open_log in Hs |- *. cbv zeta in Hs |- *.
      destruct (size_gate _ _ _); [| reflexivity].
      rewrite split_calls_split in Hs. discriminate.
    + apply on_file_open110_log_unchecked. rewrite Hf. discriminate.
Qed.

Lemma protocol_splitActiveFile (f : TFile) (a : bool) (p : Plugin V120.AutoSplitSettings) (h : H) :
  log_of (V120.splitActiveFile f a) p h = []
  \/ exists l,
       getActiveMarkdownLeaf h = Some l
       /\ one_split_of h l f (set_active false) (log_of (V120.splitActiveFile f a) p h).
Proof.
  rewrite splitActiveFile_log. cbv zeta.
  destruct (getActiveMarkdownLeaf h) as [l|]; [| left; reflexivity].
  destruct (_ && _)%bool; [| left; reflexivity].
  right. exists l. split; [reflexivity |].
  unfold one_split_of. eexists _, _, _, _, _. reflexivity.
Qed.

Lemma protocol120 (file : option TFile) (p : Plugin V120.AutoSplitSettings) (h : H) :
  log_of (V120.on_file_open file) p h = []
  \/ exists l f,
       getActiveMarkdownLeaf h = Some l /\ file = Some f
       /\ one_split_of h l f (set_active false) (log_of (V120.on_file_open file) p h).
Proof.
  destruct (file_open_checks120_cases file (mkWorld p h [])) as [Ht|Hn].
  - destruct (file_open_checks120_true _ _ Ht) as (_ & _ & _ & _ & f & ->).
    rewrite (on_file_open120_log_checked f p h Ht).
    destruct (protocol_splitActiveFile f true p h) as [He|(l & Hl & Ho)]; [left; exact He |].
    right. exists l, f. repeat split; assumption.
  - left. apply on_file_open120_log_unchecked.
    destruct Hn as [Hn|[e Hn]]; rewrite Hn; discriminate.
Qed.

Lemma protocol_command (checking : bool) (p : Plugin V120.AutoSplitSettings) (h : H) :
  log_of (V120.split_current_pane checking) p h = []
  \/ exists l f,
       getActiveMarkdownLeaf h = Some l /\ activeEditorFile h = Some f
       /\ one_split_of h l f (set_active false) (log_of (V120.split_current_pane checking) p h).
Proof.
  rewrite split_current_pane_log.
  destruct (isPhone h); [left; reflexivity |].
  destruct (activeEditorFile h) as [f|]; [| left; reflexivity].
  destruct checking; [left; reflexivity |].
  destruct (protocol_splitActiveFile f false p h) as [He|(l & Hl & Ho)]; [left; exact He |].
  right. exists l, f. repeat split; assumption.
Qed.

End Protocol.

(** X3.  Whatever the host and the settings, one file-open event, or one
    invocation of the command, issues either no workspace call or the calls
    of exactly one split: [createLeafBySplit] on the active leaf, then
    [openFile] on the leaf the host handed out, with the file of the event
    (for the command, the file of the active editor) and with the active
    leaf's own view state in which only the mode is toggled (and, in release
    1.2, [active] set to false), then at most one [setGroupMember] of the
    active leaf with the new leaf and at most one [setActiveLeaf] of the new
    leaf.  No other leaf is split, opened, grouped or activated. *)
Theorem X3_one_event_makes_at_most_one_split :
  (forall (H : Type) (HH : Host H) (file : option TFile)
          (p : Plugin V110.AutoSplitSettings) (h : H),
      log_of (V110.on_file_open file) p h = []
      \/ exists l f,
           activeLeaf h = Some l /\ file = Some f
           /\ one_split_of h l f id (log_of (V110.on_file_open file) p h))
  /\ (forall (H : Type) (HH : Host H) (file : option TFile)
             (p : Plugin V120.AutoSplitSettings) (h : H),
         log_of (V120.on_file_open file) p h = []
         \/ exists l f,
              getActiveMarkdownLeaf h = Some l /\ file = Some f
              /\ one_split_of h l f (set_active false) (log_of (V120.on_file_open file) p h))
  /\ (forall (H : Type) (HH : Host H) (checking : bool)
             (p : Plugin V120.AutoSplitSettings) (h : H),
         log_of (V120.split_current_pane checking) p h = []
         \/ exists l f,
              getActiveMarkdownLeaf h = Some l /\ activeEditorFile h = Some f
              /\ one_split_of h l f (set_active false)
                   (log_of (V120.split_current_pane checking) p h)).
Proof.
  split; [| split].
  - intros H HH. apply protocol110.
  - intros H HH. apply protocol120.
  - intros H HH. apply protocol_command.
Qed.

(** ** When a handler throws *)

Section Throws.
Context {H : Type} `{Host H}.

Lemma never_throws110 (file : option TFile) (w : World V110.AutoSplitSettings H) :
  has_thrown (V110.on_file_open file w) = false.
Proof.
  destruct (on_file_open110_returns file w) as [w' Hr]. rewrite Hr. reflexivity.
Qed.

Lemma throws120 (file : option TFile) (w : World V120.AutoSplitSettings H) :
  has_thrown (V120.on_file_open file w) = true <->
  V120.autoSplit (settings (this w)) = true
  /\ isPhone (app w) = false
  /\ exists e, getLeavesOfType (app w) "markdown" = inl e.
Proof.
  pose proof (file_open_checks120_spec file w) as Hspec.
  destruct (V120.autoSplit (settings (this w))) eqn:Ha;
    destruct (isPhone (app w)) eqn:Hp; simpl in Hspec;
    try destruct (getLeavesOfType (app w) "markdown") as [e|ls] eqn:Hl.
  all: try (rewrite (on_file_open120_thrown _ _ _ Hspec);
            split; [intros _; eauto | reflexivity]).
  all: split; [| intros (Ha' & Hp' & [e' He']); congruence].
  all: intros Ht; exfalso;
    destruct (V120.on_file_open file w) as [[] w'|e' w'] eqn:Hr;
    [discriminate |];
    destruct (file_open_checks120_cases file w) as [Hc|[Hc|[e0 Hc]]];
    try (rewrite Hspec in Hc; discriminate).
  all: try (destruct (file_open_checks120_true _ _ Hc) as (_ & _ & _ & _ & f & ->);
            rewrite (on_file_open120_checked _ _ Hc) in Hr;
            destruct (splitActiveFile_returns f true w) as (w1 & Hr1 & _);
            rewrite (then_refresh _ _ _ Hr1) in Hr; discriminate).
  all: rewrite (on_file_open120_unchecked _ _ Hc), updateHasOpenFiles_spec in Hr; discriminate.
Qed.

Lemma throws112 (file : option TFile) (w : World V110.AutoSplitSettings H) :
  has_thrown (V112.on_file_open file w) =
  V110.isEnabledOnPlatform (settings (this w)) (app w)
  && bool_decide (is_Some (getActiveMarkdownLeaf (app w)))
  && match getLeavesOfType (app w) "markdown" with
     | inl _ => true
     | inr _ => false
     end.
Proof.
  destruct w as [[s flag] h c]. unfold_handlers. unfold_effects. simpl.
  destruct file, flag, (getActiveMarkdownLeaf h) eqn:El,
    (V110.isEnabledOnPlatform s h) eqn:He.
  all: crunch; try reflexivity; try discriminate.
Qed.

End Throws.

(** X4.  The enumeration of markdown leaves is the one host call the code
    expects to fail.  The handler of release 1.1 never lets such a failure
    out.  The handler of release 1.2 throws exactly when [autoSplit] is on, the
    device is no phone and the enumeration in its condition throws; it has
    then issued no call and has not touched the plugin.  The handler of
    release 1.1.2 throws exactly when the platform is enabled, a markdown view
    is active and the enumeration throws. *)
Theorem X4_unguarded_enumeration_makes_the_handler_throw :
  (forall (H : Type) (HH : Host H) (file : option TFile)
          (w : World V110.AutoSplitSettings H),
      has_thrown (V110.on_file_open file w) = false)
  /\ (forall (H : Type) (HH : Host H) (file : option TFile)
             (w : World V120.AutoSplitSettings H),
         (has_thrown (V120.on_file_open file w) = true <->
          V120.autoSplit (settings (this w)) = true
          /\ isPhone (app w) = false
          /\ exists e, getLeavesOfType (app w) "markdown" = inl e)
         /\ (has_thrown (V120.on_file_open file w) = true ->
             world_of (V120.on_file_open file w) = w))
  /\ (forall (H : Type) (HH : Host H) (file : option TFile)
             (w : World V110.AutoSplitSettings H),
         has_thrown (V112.on_file_open file w) = true <->
         V110.isEnabledOnPlatform (settings (this w)) (app w) = true
         /\ is_Some (getActiveMarkdownLeaf (app w))
         /\ exists e, getLeavesOfType (app w) "markdown" = inl e).
Proof.
  split; [| split].
  - intros H HH. apply never_throws110.
  - intros H HH file w. split; [apply throws120 |].
    intros Ht. destruct (V120.on_file_open file w) as [[] w'|e w'] eqn:Hr; [discriminate |].
    simpl. apply (on_file_open120_throws file w w' e Hr).
  - intros H HH file w. rewrite throws112, !andb_true_iff, bool_decide_eq_true.
    destruct (getLeavesOfType (app w) "markdown") as [e|ls].
    + split; [intros [[He Hl] _]; eauto | intros (He & Hl & _); auto].
    + split; [intros [_ Hf]; discriminate | intros (_ & _ & [e He]); discriminate].
Qed.

(** X4 on a workspace whose enumeration throws: release 1.2 throws and has
    done nothing. *)
Lemma X4_witness_throwing_enumeration :
  has_thrown (V120.on_file_open (Some note) (start fresh120 (one_note_throwing "source" wide)))
  = true
  /\ world_of (V120.on_file_open (Some note) (start fresh120 (one_note_throwing "source" wide)))
     = start fresh120 (one_note_throwing "source" wide)
  /\ has_thrown (V110.on_file_open (Some note) (start fresh110 (one_note_throwing "source" wide)))
     = false.
Proof.
  split; [reflexivity | split].
  - apply (proj2 (proj1 (proj2 X4_unguarded_enumeration_makes_the_handler_throw)
                    Workspace _ (Some note)
                    (start fresh120 (one_note_throwing "source" wide)))).
    reflexivity.
  - apply (proj1 X4_unguarded_enumeration_makes_the_handler_throw Workspace _).
Defined.

(** ** The early return of release 1.1.2 *)

Section EarlyReturn.
Context {H : Type} `{Host H}.

(** Release 1.2 on the same event: no call, and the flag refreshed. *)
Lemma on_file_open120_not_markdown (f : TFile) (s : V120.AutoSplitSettings) (flag : bool)
  (h : H) (l l0 : Leaf) :
  getActiveMarkdownLeaf h = Some l ->
  getLeavesOfType h "markdown" = inr [l0] ->
  vs_type (getViewState h l) <> "markdown" ->
  V120.on_file_open (Some f) (mkWorld (mkPlugin s flag) h [])
  = Returned tt (mkWorld (mkPlugin s true) h []).
Proof.
  intros Hal Hls Hty.
  pose proof (file_open_checks120_spec (Some f) (mkWorld (mkPlugin s flag) h [])) as Hspec.
  simpl in Hspec. rewrite Hls in Hspec.
  destruct (V120.autoSplit s && negb (isPhone h)).
  - destruct flag; simpl in Hspec.
    + rewrite (on_file_open120_unchecked _ _ Hspec), updateHasOpenFiles_spec.
      simpl. rewrite Hls. reflexivity.
    + rewrite (on_file_open120_checked _ _ Hspec). unfold bind.
      rewrite (splitActiveFile_not_markdown f true (mkWorld (mkPlugin s false) h []) l Hal Hty).
      rewrite updateHasOpenFiles_spec. simpl. rewrite Hls. reflexivity.
  - rewrite (on_file_open120_unchecked _ _ Hspec), updateHasOpenFiles_spec.
    simpl. rewrite Hls. reflexivity.
Qed.

End EarlyReturn.

(** X5.  In release 1.1.2, when the event passes the handler's condition and
    the size gate but the active view's state is not of type markdown, the
    handler is left by [return]: it issues no call and, unlike on every other
    path, does not refresh [hasOpenFiles], so the world is exactly as before.
    Release 1.2, where the same test sits inside [splitActiveFile], issues no
    call either but refreshes the flag, which goes up. *)
Theorem X5_return_in_release_1_1_2_skips_the_refresh :
  forall (H : Type) (HH : Host H) (f : TFile) (p : Plugin V110.AutoSplitSettings)
         (a : bool) (h : H) (l l0 : Leaf),
    V110.isEnabledOnPlatform (settings p) h = true ->
    getActiveMarkdownLeaf h = Some l ->
    getLeavesOfType h "markdown" = inr [l0] ->
    hasOpenFiles p = false ->
    compared110 p h > V110.minSize (settings p) ->
    vs_type (getViewState h l) <> "markdown" ->
    V112.on_file_open (Some f) (start p h) = Returned tt (start p h)
    /\ log_of (V120.on_file_open (Some f)) (mkPlugin (with_autoSplit a (settings p)) false) h
       = []
    /\ hasOpenFiles
         (plugin_after (V120.on_file_open (Some f))
            (mkPlugin (with_autoSplit a (settings p)) false) h)
       = true.
Proof.
  intros H HH f p a h l l0 He Hal Hls Hf Hg Hty.
  split; [apply (early_return112 f p h l l0); assumption |].
  unfold log_of, plugin_after.
  rewrite (on_file_open120_not_markdown f _ false h l l0 Hal Hls Hty).
  split; reflexivity.
Qed.

(** X5 on a scripted host whose active markdown view reports a view state of
    type ["empty"]. *)
Lemma X5_witness_view_state_of_another_type :
  V112.on_file_open (Some note) (start fresh110 (scripted_note "empty"))
  = Returned tt (start fresh110 (scripted_note "empty"))
  /\ log_of (V120.on_file_open (Some note))
       (mkPlugin (with_autoSplit true (settings fresh110)) false) (scripted_note "empty")
     = []
  /\ hasOpenFiles
       (plugin_after (V120.on_file_open (Some note))
          (mkPlugin (with_autoSplit true (settings fresh110)) false) (scripted_note "empty"))
     = true.
Proof.
  refine (X5_return_in_release_1_1_2_skips_the_refresh Script _ note fresh110 true
            (scripted_note "empty") 1%nat 1%nat _ _ _ _ _ _);
    try reflexivity.
  simpl. discriminate.
Defined.

(** ** From one release to the next *)

(** X6.  Release 1.1 extends release 1.0 conservatively: with the platform
    enabled in the settings, as it is by default on every device, the
    file-open handler of release 1.1 returns or throws as the one of release
    1.0 does, after the same calls, in the same host state and with the same
    flag. *)
Theorem X6_release_1_1_with_platform_enabled_is_release_1_0 :
  forall (H : Type) (HH : Host H) (file : option TFile) (s : V100.AutoSplitSettings)
         (e : V110.EnabledOn) (flag : bool) (h : H),
    (V110.isEnabledOnPlatform (with_enabledOn e s) h = true ->
     same_effect (V110.on_file_open file (start (mkPlugin (with_enabledOn e s) flag) h))
                 (V100.on_file_open file (start (mkPlugin s flag) h)))
    /\ V110.isEnabledOnPlatform (with_enabledOn (V110.enabledOn V110.DEFAULT_SETTINGS) s) h
       = true.
Proof.
  intros H HH file s e flag h. split.
  - apply release110_extends_100.
  - apply enabled_everywhere.
Qed.

(** X6 on a note opened into a wide desktop window, default settings. *)
Lemma X6_witness_defaults_on_desktop :
  V110.isEnabledOnPlatform
    (with_enabledOn (V110.mkEnabledOn true false) V100.DEFAULT_SETTINGS) (one_note "source" wide)
  = true
  /\ same_effect
       (V110.on_file_open (Some note)
          (start (mkPlugin (with_enabledOn (V110.mkEnabledOn true false) V100.DEFAULT_SETTINGS)
                    false)
             (one_note "source" wide)))
       (V100.on_file_open (Some note)
          (start (mkPlugin V100.DEFAULT_SETTINGS false) (one_note "source" wide))).
Proof.
  split; [reflexivity |].
  apply (proj1 (X6_release_1_1_with_platform_enabled_is_release_1_0 Workspace _ (Some note)
                  V100.DEFAULT_SETTINGS (V110.mkEnabledOn true false) false
                  (one_note "source" wide))).
  reflexivity.
Defined.

(** X7.  The rewrite of release 1.2, which moved the split into
    [splitActiveFile], keeps the automatic path of release 1.1.2: when the two
    platform gates agree ([isEnabledOnPlatform] against [autoSplit] and not a
    phone) and the other settings are the same, when the enumeration of leaves
    answers or a markdown view is active, and when the active markdown view's
    state is of type markdown, the two handlers return or throw alike, after
    the same calls, in the same host state and with the same flag. *)
Theorem X7_release_1_2_keeps_the_automatic_path_of_1_1_2 :
  forall (H : Type) (HH : Host H) (file : option TFile) (s : V110.AutoSplitSettings)
         (a flag : bool) (h : H),
    V110.isEnabledOnPlatform s h = a && negb (isPhone h) ->
    (is_Some (getActiveMarkdownLeaf h) \/ exists ls, getLeavesOfType h "markdown" = inr ls) ->
    (forall l, getActiveMarkdownLeaf h = Some l -> vs_type (getViewState h l) = "markdown") ->
    same_effect (V112.on_file_open file (start (mkPlugin s flag) h))
                (V120.on_file_open file (start (mkPlugin (with_autoSplit a s) flag) h)).
Proof.
  intros H HH. apply release120_refactors_112.
Qed.

(** X7 on a note opened into a wide desktop window, default settings. *)
Lemma X7_witness_defaults_on_desktop :
  V110.isEnabledOnPlatform V110.DEFAULT_SETTINGS (one_note "preview" wide)
  = true && negb (isPhone (one_note "preview" wide))
  /\ is_Some (getActiveMarkdownLeaf (one_note "preview" wide))
  /\ same_effect
       (V112.on_file_open (Some note) (start fresh110 (one_note "preview" wide)))
       (V120.on_file_open (Some note)
          (start (mkPlugin (with_autoSplit true V110.DEFAULT_SETTINGS) false)
             (one_note "preview" wide)))
  /\ split_performed
       (log_of (V112.on_file_open (Some note)) fresh110 (one_note "preview" wide))
     = true.
Proof.
  assert (Ha : is_Some (getActiveMarkdownLeaf (one_note "preview" wide)))
    by (exists 1%nat; reflexivity).
  split; [reflexivity |]. split; [exact Ha |]. split; [| reflexivity].
  refine (X7_release_1_2_keeps_the_automatic_path_of_1_1_2 Workspace _ (Some note)
            V110.DEFAULT_SETTINGS true false (one_note "preview" wide) _ (or_introl Ha) _).
  - reflexivity.
  - intros l Hl. injection Hl as <-. reflexivity.
Defined.

(** ** The command *)

Section CommandContract.
Context {H : Type} `{Host H}.

Lemma command_answer (checking : bool) (w : World V120.AutoSplitSettings H) :
  returned (V120.split_current_pane checking w)
  = Some (negb (isPhone (app w)) && bool_decide (is_Some (activeEditorFile (app w)))).
Proof.
  unfold V120.split_current_pane. unfold bind at 1. unfold ask at 1.
  destruct (isPhone (app w)); [reflexivity |].
  unfold bind at 1. unfold ask at 1.
  destruct (activeEditorFile (app w)) as [f|]; [| reflexivity].
  rewrite is_Some_Some_b.
  destruct checking; simpl; [reflexivity |].
  unfold bind. destruct (splitActiveFile_returns f false w) as (w' & Hr & _).
  rewrite Hr. reflexivity.
Qed.

Lemma command_keeps_plugin (checking : bool) (w : World V120.AutoSplitSettings H) :
  this (world_of (V120.split_current_pane checking w)) = this w.
Proof.
  unfold V120.split_current_pane. unfold bind at 1. unfold ask at 1.
  destruct (isPhone (app w)); [reflexivity |].
  unfold bind at 1. unfold ask at 1.
  destruct (activeEditorFile (app w)) as [f|]; [| reflexivity].
  destruct checking; simpl; [reflexivity |].
  unfold bind. destruct (splitActiveFile_returns f false w) as (w' & Hr & Ht).
  rewrite Hr. exact Ht.
Qed.

Lemma command_checking_is_pure (w : World V120.AutoSplitSettings H) :
  world_of (V120.split_current_pane true w) = w.
Proof.
  unfold V120.split_current_pane. unfold bind at 1. unfold ask at 1.
  destruct (isPhone (app w)); [reflexivity |].
  unfold bind at 1. unfold ask at 1.
  destruct (activeEditorFile (app w)) as [f|]; reflexivity.
Qed.

Lemma command_unavailable_no_call (checking : bool) (p : Plugin V120.AutoSplitSettings) (h : H) :
  returned (V120.split_current_pane checking (start p h)) = Some false ->
  log_of (V120.split_current_pane checking) p h = [].
Proof.
  rewrite command_answer, split_current_pane_log. simpl.
  destruct (isPhone h); [reflexivity |].
  destruct (activeEditorFile h); [| reflexivity].
  rewrite is_Some_Some_b. discriminate.
Qed.

Lemma command_splits_after (checking : bool) (p : Plugin V120.AutoSplitSettings) (h : H)
  (l nl : Leaf) (d : SplitDirectionSetting) (b : bool) :
  first_split (log_of (V120.split_current_pane checking) p h) = Some (l, d, b, nl) ->
  b = false /\ getActiveMarkdownLeaf h = Some l.
Proof.
  intros Hf.
  assert (Hs : split_performed (log_of (V120.split_current_pane checking) p h) = true)
    by (apply split_performed_first_split; eauto).
  destruct (split_current_pane_performed checking p h Hs) as (f & _ & _ & _ & Hlog).
  rewrite Hlog in Hs, Hf.
  destruct (splitActiveFile_performed f false p h Hs) as (l' & Hl' & _ & _ & Hlog').
  rewrite Hlog', split_calls_first_split in Hf. injection Hf as <- _ <- _.
  split; [reflexivity | exact Hl'].
Qed.

End CommandContract.

(** X8.  The check callback of "Split and link current pane" keeps the
    contract of a check callback.  It never throws and answers, when only
    checking and when executing alike, that the command is available exactly
    when the device is no phone and the active editor has a file.  When only
    checking it changes nothing at all; when it answers that the command is
    unavailable it has issued no call; and in no case does it touch the
    plugin's settings or its [hasOpenFiles] flag.  A split it makes is a split
    of the active markdown leaf that puts the new leaf after it. *)
Theorem X8_check_callback_contract :
  forall (H : Type) (HH : Host H) (checking : bool)
         (p : Plugin V120.AutoSplitSettings) (h : H),
    returned (V120.split_current_pane checking (start p h))
    = Some (negb (isPhone h) && bool_decide (is_Some (activeEditorFile h)))
    /\ world_of (V120.split_current_pane true (start p h)) = start p h
    /\ plugin_after (V120.split_current_pane checking) p h = p
    /\ (returned (V120.split_current_pane checking (start p h)) = Some false ->
        log_of (V120.split_current_pane checking) p h = [])
    /\ (forall (l nl : Leaf) (d : SplitDirectionSetting) (b : bool),
           first_split (log_of (V120.split_current_pane checking) p h) = Some (l, d, b, nl) ->
           b = false /\ getActiveMarkdownLeaf h = Some l).
Proof.
  intros H HH checking p h.
  split; [apply (command_answer checking (start p h)) |].
  split; [apply command_checking_is_pure |].
  split; [apply (command_keeps_plugin checking (start p h)) |].
  split; [apply command_unavailable_no_call | apply command_splits_after].
Qed.

(** X8 on a phone (unavailable, nothing called) and on a desktop window (the
    new leaf goes after the note, although the editor is to come first and
    the new leaf is the preview either way). *)
Lemma X8_witness_phone_and_desktop :
  (returned (V120.split_current_pane false (start fresh120 phone_note)) = Some false
   /\ log_of (V120.split_current_pane false) fresh120 phone_note = [])
  /\ (first_split (log_of (V120.split_current_pane false) preview_first120
                     (one_note "source" wide))
      = Some (1%nat, Vertical, false, 2%nat)
      /\ false = false
      /\ getActiveMarkdownLeaf (one_note "source" wide) = Some 1%nat).
Proof.
  split.
  - split; [reflexivity |].
    apply (proj1 (proj2 (proj2 (proj2 (X8_check_callback_contract Workspace _ false
                                         fresh120 phone_note))))).
    reflexivity.
  - split; [reflexivity |].
    refine (proj2 (proj2 (proj2 (proj2 (X8_check_callback_contract Workspace _ false
                                         preview_first120 (one_note "source" wide)))))
              1%nat 2%nat Vertical false _).
    reflexivity.
Defined.

(** ** What every handled event leaves behind *)

(** X9.  A file-open handler never changes the settings, and whenever it
    returns it has refreshed the flag from the host as the handler left it:
    if the enumeration of markdown leaves then answers, [hasOpenFiles] is up
    exactly when it lists at least one leaf, whether or not a split was
    made.  This holds in releases 1.1 and 1.2. *)
Theorem X9_handler_ends_with_the_flag_refreshed :
  (forall (H : Type) (HH : Host H) (file : option TFile)
          (w w' : World V110.AutoSplitSettings H) (ls : list Leaf),
      V110.on_file_open file w = Returned tt w' ->
      getLeavesOfType (app w') "markdown" = inr ls ->
      settings (this w') = settings (this w)
      /\ (hasOpenFiles (this w') = true <-> ls <> []))
  /\ (forall (H : Type) (HH : Host H) (file : option TFile)
             (w w' : World V120.AutoSplitSettings H) (ls : list Leaf),
         V120.on_file_open file w = Returned tt w' ->
         getLeavesOfType (app w') "markdown" = inr ls ->
         settings (this w') = settings (this w)
         /\ (hasOpenFiles (this w') = true <-> ls <> [])).
Proof.
  assert (Hlen : forall ls : list Leaf, (0 <? length ls)%nat = true <-> ls <> []).
  { intros [|x ls]; simpl; split; intros Hx; try reflexivity; try discriminate.
    contradiction. }
  split.
  - intros H HH file w w' ls Hr Hls.
    destruct (on_file_open110_after file w w' Hr) as [Hs Hf].
    split; [exact Hs |]. rewrite Hf, Hls. apply Hlen.
  - intros H HH file w w' ls Hr Hls.
    destruct (on_file_open120_after file w w' Hr) as [Hs Hf].
    split; [exact Hs |]. rewrite Hf, Hls. apply Hlen.
Qed.

(** X9 on the last note being closed (an event without a file, no markdown
    leaf left): the flag, up before, goes down; and on a note opened and
    split: the flag goes up. *)
Lemma X9_witness_flag_down_and_up :
  (getLeavesOfType (no_note wide) "markdown" = inr []
   /\ hasOpenFiles (plugin_after (V120.on_file_open None)
                      (mkPlugin V120.DEFAULT_SETTINGS true) (no_note wide))
      = false)
  /\ (hasOpenFiles (plugin_after (V110.on_file_open (Some note)) fresh110
                      (one_note "source" wide))
      = true).
Proof.
  split.
  - split; [reflexivity |].
    pose proof (proj2 X9_handler_ends_with_the_flag_refreshed Workspace _ None
                  (start (mkPlugin V120.DEFAULT_SETTINGS true) (no_note wide))
                  (world_of (V120.on_file_open None
                               (start (mkPlugin V120.DEFAULT_SETTINGS true) (no_note wide))))
                  [] eq_refl eq_refl) as [_ Hflag].
    unfold plugin_after, start in *.
    destruct (hasOpenFiles _); [| reflexivity].
    exfalso. apply (proj1 Hflag); reflexivity.
  - refine (proj2 (proj2 (proj1 X9_handler_ends_with_the_flag_refreshed Workspace _ (Some note)
                            (start fresh110 (one_note "source" wide))
                            (world_of (V110.on_file_open (Some note)
                                         (start fresh110 (one_note "source" wide))))
                            [1%nat; 2%nat] _ _)) _);
      [reflexivity | reflexivity | discriminate].
Defined.

(** ** The text field of [minSize] *)

Module SettingsTabFacts.
Import Persist SettingsTab.

Lemma digits_value_app (R : N) (ds : list N) (d : N) :
  digits_value R (ds ++ [d]) = (R * digits_value R ds + d)%N.
Proof.
  unfold digits_value. rewrite fold_left_app. reflexivity.
Qed.

(** The decimal digits denote the number. *)
Lemma digits_fuel_value (f : nat) :
  forall n, (n < 10 ^ N.of_nat f)%N -> digits_value 10 (digits_fuel f n) = n.
Proof.
  induction f as [|f IH]; intros n Hn.
  - simpl in Hn. unfold digits_value. simpl. lia.
  - simpl digits_fuel. destruct (n <? 10)%N eqn:Hlt.
    + unfold digits_value. simpl. lia.
    + apply N.ltb_ge in Hlt. rewrite digits_value_app, IH.
      * pose proof (N.div_mod n 10). lia.
      * rewrite Nnat.Nat2N.inj_succ, N.pow_succ_r' in Hn.
        apply N.Div0.div_lt_upper_bound. exact Hn.
Qed.

Lemma digits_fuel_digits (f : nat) :
  forall n, Forall (fun d => d < 10)%N (digits_fuel f n).
Proof.
  induction f as [|f IH]; intros n; simpl.
  - constructor.
  - destruct (n <? 10)%N eqn:Hlt.
    + apply N.ltb_lt in Hlt. repeat constructor. exact Hlt.
    + apply Forall_app. split; [apply IH |].
      repeat constructor. apply N.mod_lt. discriminate.
Qed.

Lemma enough_fuel (n : N) : (n < 10 ^ N.of_nat (S (N.to_nat (N.log2 n))))%N.
Proof.
  rewrite Nnat.Nat2N.inj_succ, Nnat.N2Nat.id.
  destruct (N.eq_dec n 0%N) as [->|Hn]; [reflexivity |].
  pose proof (N.log2_spec n ltac:(lia)) as [_ Hlt].
  eapply N.lt_le_trans; [exact Hlt |].
  apply N.pow_le_mono_l. lia.
Qed.

Lemma decimal_digits_value (n : N) : digits_value 10 (decimal_digits n) = n.
Proof. apply digits_fuel_value, enough_fuel. Qed.

Lemma decimal_digits_digits (n : N) : Forall (fun d => d < 10)%N (decimal_digits n).
Proof. apply digits_fuel_digits. Qed.

(** A numeral is one digit, the number itself, or has two digits at
    least. *)
Lemma decimal_digits_shape (n : N) :
  (n < 10 /\ decimal_digits n = [n])%N
  \/ exists d1 d2 ds, decimal_digits n = d1 :: d2 :: ds.
Proof.
  unfold decimal_digits. simpl digits_fuel.
  destruct (n <? 10)%N eqn:Hlt.
  - left. apply N.ltb_lt in Hlt. split; [exact Hlt | reflexivity].
  - right. apply N.ltb_ge in Hlt.
    assert (Hf : exists f, N.to_nat (N.log2 n) = S f).
    { assert (3 <= N.log2 n)%N.
      { change 3%N with (N.log2 8). apply N.log2_le_mono. lia. }
      exists (Nat.pred (N.to_nat (N.log2 n))). lia. }
    destruct Hf as [f ->]. simpl digits_fuel.
    destruct (n / 10 <? 10)%N.
    + eexists _, _, _. reflexivity.
    + destruct (digits_fuel f (n / 10 / 10)) as [|a [|b l]]; simpl; eexists _, _, _;
        reflexivity.
Qed.

Lemma small_digit (d : N) :
  (d < 10)%N ->
  d = 0%N \/ d = 1%N \/ d = 2%N \/ d = 3%N \/ d = 4%N \/ d = 5%N \/ d = 6%N \/ d = 7%N
  \/ d = 8%N \/ d = 9%N.
Proof. lia. Qed.

Ltac each_digit d Hd :=
  apply small_digit in Hd;
  repeat (destruct Hd as [Hd|Hd]; [subst d | ]); [.. | subst d].

Lemma radix_digit_char (d : N) : (d < 10)%N -> radix_digit 10 (digit_char d) = Some d.
Proof. intros Hd. each_digit d Hd; reflexivity. Qed.

Lemma digit_char_plain (d : N) :
  (d < 10)%N ->
  is_white (digit_char d) = false /\ is_x (digit_char d) = false
  /\ strip_sign (String (digit_char d) EmptyString) = String (digit_char d) EmptyString.
Proof. intros Hd. each_digit d Hd; repeat split; reflexivity. Qed.

Lemma strip_sign_digit (d : N) (r : string) :
  (d < 10)%N ->
  strip_sign (String (digit_char d) r) = String (digit_char d) r
  /\ is_negative (String (digit_char d) r) = false.
Proof. intros Hd. each_digit d Hd; split; reflexivity. Qed.

Lemma hex_prefix_digit (d : N) (r : string) :
  (d < 10)%N -> (d = 0%N -> no_x_ahead r = true) ->
  hex_prefix (String (digit_char d) r) = false.
Proof.
  intros Hd Hx. each_digit d Hd; try reflexivity.
  specialize (Hx eq_refl). destruct r as [|c r]; [reflexivity |].
  simpl in Hx. apply negb_true_iff in Hx. exact Hx.
Qed.

Lemma hex_prefix_digits (d1 d2 : N) (r : string) :
  (d1 < 10)%N -> (d2 < 10)%N ->
  hex_prefix (String (digit_char d1) (String (digit_char d2) r)) = false.
Proof.
  intros H1 H2. apply hex_prefix_digit; [exact H1 |]. intros _.
  simpl. apply negb_true_iff. apply (digit_char_plain d2 H2).
Qed.

Lemma strip_prefix_none (s : string) : hex_prefix s = false -> strip_prefix s = s.
Proof.
  intros Hh. unfold strip_prefix. rewrite Hh. destruct s as [|c [|c' r]]; reflexivity.
Qed.

Lemma no_digit_ahead_take (rest : string) :
  no_digit_ahead rest = true -> take_digits 10 rest = [].
Proof.
  destruct rest as [|c r]; [reflexivity |]. simpl.
  destruct (radix_digit 10 c); [discriminate | reflexivity].
Qed.

(** Reading a numeral back gives its digits, whatever follows that is no
    digit. *)
Lemma take_digits_numeral (ds : list N) (rest : string) :
  Forall (fun d => d < 10)%N ds -> no_digit_ahead rest = true ->
  take_digits 10 (string_of_digits ds ++ rest) = ds.
Proof.
  intros Hds Hrest. induction Hds as [|d ds Hd _ IH]; simpl.
  - apply no_digit_ahead_take. exact Hrest.
  - rewrite (radix_digit_char d Hd), IH. reflexivity.
Qed.

Lemma numeral_cons (d : N) (ds : list N) (rest : string) :
  (string_of_digits (d :: ds) ++ rest)%string
  = String (digit_char d) (string_of_digits ds ++ rest)%string.
Proof. reflexivity. Qed.

Lemma trim_start_digit (d : N) (r : string) :
  (d < 10)%N -> trim_start (String (digit_char d) r) = String (digit_char d) r.
Proof. intros Hd. each_digit d Hd; reflexivity. Qed.

(** [parseInt] on the numeral of a natural number. *)
Lemma parseInt_numeral (m : N) (rest : string) :
  no_digit_ahead rest = true -> (m = 0%N -> no_x_ahead rest = true) ->
  let s := (string_of_digits (decimal_digits m) ++ rest)%string in
  trim_start s = s /\ strip_sign s = s /\ is_negative s = false
  /\ hex_prefix s = false
  /\ take_digits 10 s = decimal_digits m
  /\ decimal_digits m <> [].
Proof.
  intros Hrest Hx s.
  pose proof (decimal_digits_digits m) as Hds.
  assert (Htake : take_digits 10 s = decimal_digits m)
    by (apply take_digits_numeral; assumption).
  clear Hrest. subst s.
  destruct (decimal_digits_shape m) as [[Hlt E]|(d1 & d2 & ds & E)].
  - rewrite E in *. rewrite numeral_cons in *.
    change (string_of_digits [] ++ rest)%string with rest in *.
    destruct (strip_sign_digit m rest Hlt) as [Hs Hn].
    repeat split; try assumption.
    + apply trim_start_digit. exact Hlt.
    + apply hex_prefix_digit; assumption.
    + discriminate.
  - rewrite E in *. rewrite !numeral_cons in *.
    apply Forall_cons in Hds as [H1 Hds]. apply Forall_cons in Hds as [H2 _].
    set (r := String (digit_char d2) (string_of_digits ds ++ rest)) in *.
    destruct (strip_sign_digit d1 r H1) as [Hs Hn].
    repeat split; try assumption.
    + apply trim_start_digit. exact H1.
    + apply hex_prefix_digits; assumption.
    + discriminate.
Qed.

(** What the field shows for an exact integer is read back as that integer,
    whatever unit follows. *)
Lemma parseInt_toString (n : Z) (s rest : string) :
  Z.abs n <= 2 ^ 53 -> Number_toString n = Some s ->
  no_digit_ahead rest = true -> (n = 0 -> no_x_ahead rest = true) ->
  parseInt (s ++ rest) = Exact n.
Proof.
  intros Hn Hs Hrest Hx. unfold Number_toString in Hs.
  destruct (Z.abs n <? 10 ^ 21); [| discriminate]. injection Hs as <-.
  assert (Hm : (Z.abs_N n <= 2 ^ 53)%N) by lia.
  assert (Hx' : Z.abs_N n = 0%N -> no_x_ahead rest = true) by (intros E; apply Hx; lia).
  destruct (parseInt_numeral (Z.abs_N n) rest Hrest Hx')
    as (Ht & Hsg & Hneg & Hh & Htake & Hne).
  pose proof (decimal_digits_value (Z.abs_N n)) as Hv.
  assert (Hle : (Z.abs_N n <=? 2 ^ 53)%N = true) by (apply N.leb_le; exact Hm).
  unfold parseInt. destruct (n <? 0) eqn:Hlt.
  - change (trim_start (String "-" (string_of_digits (decimal_digits (Z.abs_N n))) ++ rest))
      with (String "-" (string_of_digits (decimal_digits (Z.abs_N n)) ++ rest)).
    cbn [strip_sign is_negative]. cbv zeta.
    rewrite Hh, (strip_prefix_none _ Hh), Htake.
    destruct (decimal_digits (Z.abs_N n)) as [|d ds] eqn:E; [congruence |].
    rewrite Hv, Hle. f_equal. apply Z.ltb_lt in Hlt. lia.
  - cbv zeta. rewrite Ht, Hsg, Hneg, Hh, (strip_prefix_none _ Hh), Htake.
    destruct (decimal_digits (Z.abs_N n)) as [|d ds] eqn:E; [congruence |].
    rewrite Hv, Hle. f_equal. apply Z.ltb_ge in Hlt. lia.
Qed.

End SettingsTabFacts.

Section MinSizeField.
Import Persist SettingsTab.

(** A text that, after white space and a sign, does not start with a decimal
    digit is no number for [parseInt]. *)
Lemma parseInt_no_digit (value : string) :
  take_digits 10 (strip_sign (trim_start value)) = [] -> parseInt value = NaN.
Proof.
  intros Hd. unfold parseInt. cbv zeta.
  set (s2 := strip_sign (trim_start value)) in *.
  assert (Hh : hex_prefix s2 = false).
  { destruct s2 as [|c s]; [reflexivity |].
    destruct c as [[] [] [] [] [] [] [] []]; try reflexivity; discriminate Hd. }
  rewrite Hh, (SettingsTabFacts.strip_prefix_none _ Hh), Hd. reflexivity.
Qed.

Lemma set_minSize_exact (value : string) (n : Z) (settings : gmap string jsval) :
  parseInt value = Exact n ->
  set_minSize value settings = Saved (<["minSize" := JNum n]> settings).
Proof. intros Hp. unfold set_minSize. rewrite Hp. reflexivity. Qed.

Lemma set_minSize_NaN (value : string) (settings : gmap string jsval) :
  parseInt value = NaN -> is_Some (settings !! "minSize") ->
  set_minSize value settings = Saved settings.
Proof.
  intros Hp [v Hv]. unfold set_minSize. rewrite Hp. simpl.
  rewrite Hv, insert_id by exact Hv. reflexivity.
Qed.

End MinSizeField.

Section Reload.
Import Persist SettingsTab.
Context {C : Type} (onChange : C -> gmap string jsval -> Handled).




End Reload.

Section TabHandlers.
Import Persist SettingsTab.







End TabHandlers.

(** X10.  The field of [minSize] reads the integer at the start of the text:
    typing what [String] prints for an integer of magnitude up to 2^53,
    followed by anything that does not go on with a digit (nor, after a lone
    [0], with [x] or [X]), stores that integer and saves.  In particular the
    text the field shows, typed back with a unit behind it, leaves the
    settings as they are. *)
Theorem X10_minSize_field_reads_the_leading_integer :
  forall (settings : gmap string Persist.jsval) (n : Z) (rest : string),
    Z.abs n <= 2 ^ 53 ->
    SettingsTab.no_digit_ahead rest = true ->
    (n = 0 -> SettingsTab.no_x_ahead rest = true) ->
    exists numeral,
      SettingsTab.Number_toString n = Some numeral
      /\ SettingsTab.set_minSize (numeral ++ rest) settings
         = SettingsTab.Saved (<["minSize" := Persist.JNum n]> settings)
      /\ (settings !! "minSize" = Some (Persist.JNum n) ->
          SettingsTab.shown_minSize settings = Some numeral
          /\ forall data,
               SettingsTab.change SettingsTab.set_minSize (numeral ++ rest)
                 (SettingsTab.mkTab settings data)
               = Some (SettingsTab.mkTab settings (Some settings))).
Proof.
  intros settings n rest Hn Hrest Hx.
  destruct (SettingsTab.Number_toString n) as [numeral|] eqn:Hs.
  - exists numeral. split; [reflexivity |].
    pose proof (SettingsTabFacts.parseInt_toString n numeral rest Hn Hs Hrest Hx) as Hp.
    split; [apply set_minSize_exact; exact Hp |].
    intros Hm. split.
    + unfold SettingsTab.shown_minSize. rewrite Hm. exact Hs.
    + intros data. unfold SettingsTab.change. simpl.
      rewrite (set_minSize_exact _ n _ Hp), insert_id by exact Hm. reflexivity.
  - unfold SettingsTab.Number_toString in Hs.
    destruct (Z.abs n <? 10 ^ 21) eqn:E; [discriminate |].
    apply Z.ltb_ge in E. assert (2 ^ 53 < 10 ^ 21) by reflexivity. lia.
Qed.

(** X10 on the default settings of release 1.2: the field shows ["1000"], and
    ["1000px"] typed into it leaves the settings as they are. *)
Lemma X10_witness_default_with_unit :
  SettingsTab.shown_minSize Persist.DEFAULT_SETTINGS120 = Some "1000"
  /\ SettingsTab.set_minSize "1000px" Persist.DEFAULT_SETTINGS120
     = SettingsTab.Saved (<["minSize" := Persist.JNum 1000]> Persist.DEFAULT_SETTINGS120)
  /\ SettingsTab.change SettingsTab.set_minSize "1000px"
       (SettingsTab.mkTab Persist.DEFAULT_SETTINGS120 None)
     = Some (SettingsTab.mkTab Persist.DEFAULT_SETTINGS120 (Some Persist.DEFAULT_SETTINGS120)).
Proof.
  destruct (X10_minSize_field_reads_the_leading_integer Persist.DEFAULT_SETTINGS120 1000 "px")
    as (numeral & Hs & Hset & Hback).
  - simpl. lia.
  - reflexivity.
  - intros _. reflexivity.
  - injection Hs as <-. destruct (Hback eq_refl) as [Hshown Hsame].
    split; [exact Hshown |]. split; [exact Hset |]. apply (Hsame None).
Defined.

(** X11.  A text that, after white space and a sign, does not start with a
    decimal digit (the empty text, a lone sign, [".5"], ["abc"]) is no number:
    the handler keeps [minSize] and every other setting, and still writes the
    data file, which then holds the settings as they are. *)
Theorem X11_text_without_leading_digit_keeps_minSize :
  forall (value : string) (t : SettingsTab.Tab),
    SettingsTab.take_digits 10 (SettingsTab.strip_sign (SettingsTab.trim_start value)) = [] ->
    is_Some (SettingsTab.tab_settings t !! "minSize") ->
    SettingsTab.parseInt value = SettingsTab.NaN
    /\ SettingsTab.change SettingsTab.set_minSize value t
       = Some (SettingsTab.mkTab (SettingsTab.tab_settings t)
                 (Some (SettingsTab.tab_settings t))).
Proof.
  intros value t Hd Hm. pose proof (parseInt_no_digit value Hd) as Hp.
  split; [exact Hp |]. unfold SettingsTab.change.
  rewrite (set_minSize_NaN value _ Hp Hm). reflexivity.
Qed.

(** X11 on a cleared field and on a lone minus sign, from the defaults of
    release 1.1 with nothing saved yet. *)
Lemma X11_witness_empty_text_and_lone_sign :
  SettingsTab.change SettingsTab.set_minSize ""
    (SettingsTab.opened Persist.DEFAULT_SETTINGS110 None)
  = Some (SettingsTab.mkTab (Persist.loadSettings Persist.DEFAULT_SETTINGS110 None)
            (Some (Persist.loadSettings Persist.DEFAULT_SETTINGS110 None)))
  /\ SettingsTab.parseInt " -" = SettingsTab.NaN.
Proof.
  split.
  - refine (proj2 (X11_text_without_leading_digit_keeps_minSize ""
                     (SettingsTab.opened Persist.DEFAULT_SETTINGS110 None) _ _)).
    + reflexivity.
    + exists (Persist.JNum 1000). reflexivity.
  - refine (proj1 (X11_text_without_leading_digit_keeps_minSize " -"
                     (SettingsTab.opened Persist.DEFAULT_SETTINGS110 None) _ _)).
    + reflexivity.
    + exists (Persist.JNum 1000). reflexivity.
Defined.



(** ** A data file of the release before *)

Section UpgradeFacts.
Import Persist.

Lemma load_data_of_100 (s : V100.AutoSplitSettings) :
  decode110 (loadSettings DEFAULT_SETTINGS110 (Some (Upgrade.encode100 s)))
  = Some (with_enabledOn (V110.enabledOn V110.DEFAULT_SETTINGS) s).
Proof.
  destruct s as [ms dir ef pf lp]. destruct dir, pf; reflexivity.
Qed.

Lemma load_data_of_110 (s : V110.AutoSplitSettings) :
  decode120 (loadSettings DEFAULT_SETTINGS120 (Some (encode110 s)))
  = Some (with_autoSplit (V120.autoSplit V120.DEFAULT_SETTINGS) s).
Proof.
  destruct s as [[d m] ms dir ef pf lp]. destruct dir, pf; reflexivity.
Qed.

Lemma stale_enabledOn (s : V110.AutoSplitSettings) :
  loadSettings DEFAULT_SETTINGS120 (Some (encode110 s)) !! "enabledOn"
  = encode110 s !! "enabledOn".
Proof.
  rewrite PersistFacts.lookup_loadSettings. simpl.
  destruct s as [[d m] ms dir ef pf lp]. reflexivity.
Qed.

End UpgradeFacts.

(** X13.  Upgrading over a data file.  Release 1.1 loads what release 1.0
    saved as the same settings, enabled on desktop and on mobile, and its
    file-open handler then does what the one of release 1.0 did.  Release 1.2
    loads what release 1.1 saved as the same settings with [autoSplit] on,
    whatever [enabledOn] was: a platform that was switched off splits
    automatically again.  The property [enabledOn] stays in the settings object
    and goes back into the data file at the next save. *)
Theorem X13_data_file_of_the_release_before :
  (forall (H : Type) (HH : Host H) (s : V100.AutoSplitSettings) (file : option TFile)
          (flag : bool) (h : H),
      exists s',
        Persist.decode110
          (Persist.loadSettings Persist.DEFAULT_SETTINGS110 (Some (Upgrade.encode100 s)))
        = Some s'
        /\ same_effect (V110.on_file_open file (start (mkPlugin s' flag) h))
                       (V100.on_file_open file (start (mkPlugin s flag) h)))
  /\ (forall s : V110.AutoSplitSettings,
        Persist.decode120
          (Persist.loadSettings Persist.DEFAULT_SETTINGS120 (Some (Persist.encode110 s)))
        = Some (with_autoSplit true s)
        /\ Persist.saveSettings
             (Persist.loadSettings Persist.DEFAULT_SETTINGS120 (Some (Persist.encode110 s)))
           ≫= (fun o => Persist.get_in o "enabledOn" "desktop")
           = Some (Persist.JBool (V110.desktop (V110.enabledOn s)))).
Proof.
  split.
  - intros H HH s file flag h. eexists. split; [apply load_data_of_100 |].
    apply release110_extends_100, enabled_everywhere.
  - intros s. split; [apply load_data_of_110 |].
    unfold Persist.saveSettings, Persist.get_in. simpl.
    rewrite stale_enabledOn. destruct s as [[d m] ms dir ef pf lp]. reflexivity.
Qed.

(** * The focus after a split, and the flag against the workspace at the event *)

Section HostAfter.
Context {H : Type} `{Host H}.

(** A handler does to the host what its log says, and nothing else. *)
Lemma host_after110 (file : option TFile) (p : Plugin V110.AutoSplitSettings) (h : H) :
  host_after (V110.on_file_open file) p h = replay (log_of (V110.on_file_open file) p h) h.
Proof.
  unfold host_after, replay, perform. unfold_handlers. unfold_effects.
  destruct file, (hasOpenFiles p) eqn:?, (activeLeaf h) eqn:?.
  all: crunch; reflexivity.
Qed.

Lemma host_after_splitActiveFile (f : TFile) (a : bool) (p : Plugin V120.AutoSplitSettings)
  (h : H) :
  host_after (V120.splitActiveFile f a) p h = replay (log_of (V120.splitActiveFile f a) p h) h.
Proof.
  unfold host_after, replay, perform. unfold_handlers. unfold_effects.
  destruct a, (getActiveMarkdownLeaf h) eqn:?.
  all: crunch; reflexivity.
Qed.

Lemma host_after120 (file : option TFile) (p : Plugin V120.AutoSplitSettings) (h : H) :
  host_after (V120.on_file_open file) p h = replay (log_of (V120.on_file_open file) p h) h.
Proof.
  unfold host_after, replay, perform. unfold_handlers. unfold_effects.
  destruct file, (hasOpenFiles p) eqn:?, (getActiveMarkdownLeaf h) eqn:?.
  all: crunch; reflexivity.
Qed.

Lemma host_after_command (checking : bool) (p : Plugin V120.AutoSplitSettings) (h : H) :
  host_after (V120.split_current_pane checking) p h
  = replay (log_of (V120.split_current_pane checking) p h) h.
Proof.
  unfold host_after, replay, perform. unfold V120.split_current_pane.
  unfold_handlers. unfold_effects.
  destruct checking, (getActiveMarkdownLeaf h) eqn:?.
  all: crunch; reflexivity.
Qed.

Context {L : FocusLaws H}.

(** Where the focus is after the calls of one split. *)
Lemma focus_after_split_calls (h : H) (l nl : Leaf) (d : SplitDirectionSetting) (b : bool)
  (f : TFile) (vs : ViewState) (link act : bool) (push : option bool) :
  activeLeaf (replay (split_calls l d b nl f vs link act push) h)
  = if act then Some nl
    else match vs_active vs with
         | Some false => activeLeaf h
         | _ => activeLeaf (openFile (snd (createLeafBySplit h l d b)) nl f vs)
         end.
Proof.
  unfold split_calls, replay.
  destruct link, act; simpl;
    rewrite ?setActiveLeaf_takes_focus, ?link_keeps_focus; try reflexivity.
  all: destruct (vs_active vs) as [[|]|] eqn:Ha; try reflexivity.
  all: rewrite open_inactive_keeps_focus by exact Ha; apply split_keeps_focus.
Qed.

Lemma eqb_pane (m : string) (pref : PaneTypeSetting) :
  String.eqb m (pane_name pref) = true <-> Some m = Some (pane_name pref).
Proof.
  rewrite String.eqb_eq. split; [intros ->; reflexivity | intros [= ->]; reflexivity].
Qed.

(** Release 1.2: the focus goes to the new leaf when its mode is the
    preferred one and stays where it was otherwise. *)
Lemma focus_after120 (file : option TFile) (p : Plugin V120.AutoSplitSettings) (h : H) :
  split_performed (log_of (V120.on_file_open file) p h) = true ->
  exists l d b nl vs,
    first_split (log_of (V120.on_file_open file) p h) = Some (l, d, b, nl)
    /\ opened_with (log_of (V120.on_file_open file) p h) nl = Some vs
    /\ (vs_mode vs = Some (pane_name (V120.paneToFocus (settings p))) ->
        activeLeaf (host_after (V120.on_file_open file) p h) = Some nl)
    /\ (vs_mode vs <> Some (pane_name (V120.paneToFocus (settings p))) ->
        activeLeaf (host_after (V120.on_file_open file) p h) = activeLeaf h).
Proof.
  intros Hs. rewrite host_after120.
  destruct (on_file_open120_performed file p h Hs) as (f & _ & _ & Hlog).
  rewrite Hlog in Hs |- *.
  destruct (splitActiveFile_performed f true p h Hs) as (l & _ & _ & _ & Hlog').
  rewrite Hlog'. do 5 eexists.
  split; [apply split_calls_first_split |].
  split; [apply split_calls_opened_with |].
  rewrite focus_after_split_calls. simpl.
  destruct (String.eqb _ (pane_name _)) eqn:E.
  - split; [reflexivity |]. intros Hne. apply eqb_pane in E. contradiction.
  - split; [| reflexivity]. intros He. apply eqb_pane in He. congruence.
Qed.

(** The command leaves the focus where it was. *)
Lemma focus_after_command (checking : bool) (p : Plugin V120.AutoSplitSettings) (h : H) :
  activeLeaf (host_after (V120.split_current_pane checking) p h) = activeLeaf h.
Proof.
  rewrite host_after_command, split_current_pane_log.
  destruct (isPhone h); [reflexivity |].
  destruct (activeEditorFile h) as [f|]; [| reflexivity].
  destruct checking; [reflexivity |].
  rewrite splitActiveFile_log. cbv zeta.
  destruct (getActiveMarkdownLeaf h) as [l|]; [| reflexivity].
  destruct (_ && _)%bool; [| reflexivity].
  rewrite focus_after_split_calls. reflexivity.
Qed.

(** Release 1.1: the state handed to [openFile] carries the [active] flag read
    from the split leaf, and the focus follows it. *)
Lemma focus_after110 (file : option TFile) (p : Plugin V110.AutoSplitSettings) (h : H) :
  split_performed (log_of (V110.on_file_open file) p h) = true ->
  exists l d b nl vs,
    first_split (log_of (V110.on_file_open file) p h) = Some (l, d, b, nl)
    /\ opened_with (log_of (V110.on_file_open file) p h) nl = Some vs
    /\ vs_active vs = vs_active (getViewState h l)
    /\ (vs_mode vs = Some (pane_name (V110.paneToFocus (settings p))) ->
        activeLeaf (host_after (V110.on_file_open file) p h) = Some nl)
    /\ (honours_active H -> vs_active vs = Some true ->
        activeLeaf (host_after (V110.on_file_open file) p h) = Some nl)
    /\ (vs_mode vs <> Some (pane_name (V110.paneToFocus (settings p))) ->
        vs_active vs = Some false ->
        activeLeaf (host_after (V110.on_file_open file) p h) = activeLeaf h).
Proof.
  intros Hs. rewrite host_after110.
  destruct (on_file_open110_performed file p h Hs) as (l & f & _ & _ & _ & _ & Hlog).
  rewrite Hlog. do 5 eexists.
  split; [apply split_calls_first_split |].
  split; [apply split_calls_opened_with |].
  split; [reflexivity |].
  rewrite focus_after_split_calls. simpl.
  destruct (String.eqb _ (pane_name _)) eqn:E.
  - split; [reflexivity |]. split; [reflexivity |].
    intros Hne. apply eqb_pane in E. contradiction.
  - split; [intros He; apply eqb_pane in He; congruence |].
    split; [| intros _ ->; reflexivity].
    intros Hh Ha. rewrite Ha. apply Hh. exact Ha.
Qed.

End HostAfter.

(** The concrete workspace obeys the laws of focus and honours the [active]
    flag. *)
Lemma Workspace_FocusLaws : FocusLaws Workspace.
Proof.
  split; simpl; try reflexivity.
  intros h l f vs Ha. unfold ws_openFile. simpl. rewrite Ha. reflexivity.
Qed.

Lemma Workspace_honours_active : honours_active Workspace.
Proof.
  intros h l f vs Ha. simpl. unfold ws_openFile. simpl. rewrite Ha. reflexivity.
Qed.

(** ** C7: which pane has the focus *)

(** C7.  After an automatic split, in either release, the plugin asks for the
    new leaf to be made active and focused if and only if the mode it was
    opened in, the toggled one, is the [paneToFocus] preference, and the
    command of release 1.2 never asks.  On a workspace where the focus moves
    only when asked, release 1.2, which opens the new leaf with
    [active: false], leaves the focus on the new leaf when its mode is the
    preferred one and where it was otherwise, and the command leaves it where
    it was.  Release 1.1 hands [openFile] the view state of the split leaf
    with its [active] flag as read: on a workspace that honours the flag, where
    it is up the focus goes to the new leaf whatever [paneToFocus] says, and
    the focus is known to stay only where the flag is down.  So on a focused note in the editor, with the editor preferred,
    release 1.1 leaves the focus on the new preview pane, where release 1.2
    leaves it on the editor. *)
Theorem C7_focus_stays_only_where_the_new_pane_is_opened_inactive :
  (forall (H : Type) (HH : Host H) (file : option TFile)
          (p : Plugin V110.AutoSplitSettings) (h : H),
      split_performed (log_of (V110.on_file_open file) p h) = true ->
      focus_by_preference (V110.paneToFocus (settings p))
        (log_of (V110.on_file_open file) p h))
  /\ (forall (H : Type) (HH : Host H) (file : option TFile)
             (p : Plugin V120.AutoSplitSettings) (h : H),
         (split_performed (log_of (V120.on_file_open file) p h) = true ->
          focus_by_preference (V120.paneToFocus (settings p))
            (log_of (V120.on_file_open file) p h))
         /\ (forall (l nl : Leaf) (d : SplitDirectionSetting) (b : bool) (vs : ViewState),
                first_split (log_of (V120.on_file_open file) p h) = Some (l, d, b, nl) ->
                opened_with (log_of (V120.on_file_open file) p h) nl = Some vs ->
                vs_active vs = Some false))
  /\ (forall (H : Type) (HH : Host H) (checking : bool)
             (p : Plugin V120.AutoSplitSettings) (h : H),
         focus_requested (log_of (V120.split_current_pane checking) p h) = false)
  /\ (forall (H : Type) (HH : Host H) (L : FocusLaws H) (file : option TFile)
             (p : Plugin V120.AutoSplitSettings) (h : H),
         split_performed (log_of (V120.on_file_open file) p h) = true ->
         exists l d b nl vs,
           first_split (log_of (V120.on_file_open file) p h) = Some (l, d, b, nl)
           /\ opened_with (log_of (V120.on_file_open file) p h) nl = Some vs
           /\ (vs_mode vs = Some (pane_name (V120.paneToFocus (settings p))) ->
               activeLeaf (host_after (V120.on_file_open file) p h) = Some nl)
           /\ (vs_mode vs <> Some (pane_name (V120.paneToFocus (settings p))) ->
               activeLeaf (host_after (V120.on_file_open file) p h) = activeLeaf h))
  /\ (forall (H : Type) (HH : Host H) (L : FocusLaws H) (checking : bool)
             (p : Plugin V120.AutoSplitSettings) (h : H),
         activeLeaf (host_after (V120.split_current_pane checking) p h) = activeLeaf h)
  /\ (forall (H : Type) (HH : Host H) (L : FocusLaws H) (file : option TFile)
             (p : Plugin V110.AutoSplitSettings) (h : H),
         split_performed (log_of (V110.on_file_open file) p h) = true ->
         exists l d b nl vs,
           first_split (log_of (V110.on_file_open file) p h) = Some (l, d, b, nl)
           /\ opened_with (log_of (V110.on_file_open file) p h) nl = Some vs
           /\ vs_active vs = vs_active (getViewState h l)
           /\ (vs_mode vs = Some (pane_name (V110.paneToFocus (settings p))) ->
               activeLeaf (host_after (V110.on_file_open file) p h) = Some nl)
           /\ (honours_active H -> vs_active vs = Some true ->
               activeLeaf (host_after (V110.on_file_open file) p h) = Some nl)
           /\ (vs_mode vs <> Some (pane_name (V110.paneToFocus (settings p))) ->
               vs_active vs = Some false ->
               activeLeaf (host_after (V110.on_file_open file) p h) = activeLeaf h))
  /\ (V110.paneToFocus (settings fresh110) = Source
      /\ activeLeaf (one_active_note "source" wide) = Some 1%nat
      /\ first_split
           (log_of (V110.on_file_open (Some note)) fresh110 (one_active_note "source" wide))
         = Some (1%nat, Vertical, false, 2%nat)
      /\ opened_with
           (log_of (V110.on_file_open (Some note)) fresh110 (one_active_note "source" wide))
           2%nat
         = Some (set_active true (markdown_view "preview"))
      /\ focus_requested
           (log_of (V110.on_file_open (Some note)) fresh110 (one_active_note "source" wide))
         = false
      /\ activeLeaf
           (host_after (V110.on_file_open (Some note)) fresh110
              (one_active_note "source" wide))
         = Some 2%nat
      /\ activeLeaf
           (host_after (V120.on_file_open (Some note)) fresh120
              (one_active_note "source" wide))
         = Some 1%nat).
Proof.
  split; [| split; [| split; [| split; [| split; [| split]]]]].
  - intros H HH. apply focus_by_preference110.
  - intros H HH file p h. split.
    + apply focus_by_preference120.
    + apply opened_inactive120.
  - intros H HH. apply command_no_focus.
  - intros H HH L. apply focus_after120.
  - intros H HH L. apply focus_after_command.
  - intros H HH L. apply focus_after110.
  - repeat split; reflexivity.
Qed.

(** C7 on the calls (a note in preview gets the editor focused; a note in the
    editor gets no leaf made active; the command makes no leaf active), and on
    the focus in the concrete workspace: release 1.2 leaves it on the editor,
    release 1.1 moves it to the new pane when the state read says
    [active: true]. *)
Lemma C7_witness_focus_moves_and_stays :
  (split_performed
     (log_of (V110.on_file_open (Some note)) fresh110 (one_note "preview" wide)) = true
   /\ focus_by_preference Source
        (log_of (V110.on_file_open (Some note)) fresh110 (one_note "preview" wide))
   /\ focused_leaf (log_of (V110.on_file_open (Some note)) fresh110 (one_note "preview" wide))
      = Some 2%nat)
  /\ (split_performed
        (log_of (V120.on_file_open (Some note)) fresh120 (one_note "source" wide)) = true
      /\ focus_by_preference Source
           (log_of (V120.on_file_open (Some note)) fresh120 (one_note "source" wide))
      /\ focus_requested (log_of (V120.on_file_open (Some note)) fresh120 (one_note "source" wide))
         = false)
  /\ (focused_leaf (log_of (V120.on_file_open (Some note)) fresh120 (one_note "preview" wide))
      = Some 2%nat
      /\ focus_requested
           (log_of (V120.split_current_pane false) fresh120 (one_note "preview" wide))
         = false)
  /\ (exists l d b nl vs,
         first_split
           (log_of (V120.on_file_open (Some note)) fresh120 (one_active_note "source" wide))
         = Some (l, d, b, nl)
         /\ opened_with
              (log_of (V120.on_file_open (Some note)) fresh120 (one_active_note "source" wide))
              nl
            = Some vs
         /\ (vs_mode vs = Some (pane_name (V120.paneToFocus (settings fresh120))) ->
             activeLeaf
               (host_after (V120.on_file_open (Some note)) fresh120
                  (one_active_note "source" wide))
             = Some nl)
         /\ (vs_mode vs <> Some (pane_name (V120.paneToFocus (settings fresh120))) ->
             activeLeaf
               (host_after (V120.on_file_open (Some note)) fresh120
                  (one_active_note "source" wide))
             = activeLeaf (one_active_note "source" wide)))
  /\ (exists l d b nl vs,
         first_split
           (log_of (V110.on_file_open (Some note)) fresh110 (one_active_note "source" wide))
         = Some (l, d, b, nl)
         /\ opened_with
              (log_of (V110.on_file_open (Some note)) fresh110 (one_active_note "source" wide))
              nl
            = Some vs
         /\ vs_active vs = vs_active (getViewState (one_active_note "source" wide) l)
         /\ (vs_mode vs = Some (pane_name (V110.paneToFocus (settings fresh110))) ->
             activeLeaf
               (host_after (V110.on_file_open (Some note)) fresh110
                  (one_active_note "source" wide))
             = Some nl)
         /\ (honours_active Workspace -> vs_active vs = Some true ->
             activeLeaf
               (host_after (V110.on_file_open (Some note)) fresh110
                  (one_active_note "source" wide))
             = Some nl)
         /\ (vs_mode vs <> Some (pane_name (V110.paneToFocus (settings fresh110))) ->
             vs_active vs = Some false ->
             activeLeaf
               (host_after (V110.on_file_open (Some note)) fresh110
                  (one_active_note "source" wide))
             = activeLeaf (one_active_note "source" wide))).
Proof.
  pose proof C7_focus_stays_only_where_the_new_pane_is_opened_inactive
    as (T1 & T2 & T3 & T4 & _ & T6 & _).
  split; [| split; [| split; [| split]]].
  - split; [reflexivity |]. split; [| reflexivity].
    refine (T1 Workspace _ (Some note) fresh110 (one_note "preview" wide) _).
    reflexivity.
  - split; [reflexivity |]. split; [| reflexivity].
    refine (proj1 (T2 Workspace _ (Some note) fresh120 (one_note "source" wide)) _).
    reflexivity.
  - split; [reflexivity |]. apply (T3 Workspace _).
  - refine (T4 Workspace _ Workspace_FocusLaws (Some note) fresh120
              (one_active_note "source" wide) _).
    reflexivity.
  - refine (T6 Workspace _ Workspace_FocusLaws (Some note) fresh110
              (one_active_note "source" wide) _).
    reflexivity.
Defined.

(** ** C4: the flag and the workspace at the event *)

Section AtTheEvent.
Context {H : Type} `{Host H}.

(** Releases 1.1.2 and 1.2 split only a workspace that lists one markdown
    leaf at the event itself. *)
Lemma split_needs_single_leaf112 (file : option TFile) (p : Plugin V110.AutoSplitSettings)
  (h : H) :
  split_performed (log_of (V112.on_file_open file) p h) = true ->
  hasOpenFiles p = false /\ exists l0, getLeavesOfType h "markdown" = inr [l0].
Proof.
  intros Hs. apply trigger112 in Hs as (_ & Hl & Hf & _). split; assumption.
Qed.

Lemma split_needs_single_leaf120 (file : option TFile) (p : Plugin V120.AutoSplitSettings)
  (h : H) :
  split_performed (log_of (V120.on_file_open file) p h) = true ->
  hasOpenFiles p = false /\ exists l0, getLeavesOfType h "markdown" = inr [l0].
Proof.
  intros Hs. apply trigger120 in Hs as (_ & _ & Hl & Hf & _). split; assumption.
Qed.

End AtTheEvent.

(** C4.  The handler of release 1.1 tests the flag [hasOpenFiles] alone, a
    record of an earlier enumeration, and so splits with note views open: a
    plugin loaded into an empty workspace splits at a file-open event at which
    the workspace lists two markdown leaves, a state the code itself reaches
    when the refresh after a first split throws and is swallowed.  Releases
    1.1.2 and 1.2 split only when the flag is down and the workspace lists
    exactly one markdown leaf at the event, and issue no call at that
    event. *)
Theorem C4_release_1_1_splits_with_note_views_open :
  (snd (loaded (H := Workspace) V110.DEFAULT_SETTINGS (no_note wide)) = Some 0%nat
   /\ getLeavesOfType (two_notes wide) "markdown" = inr [1%nat; 2%nat]
   /\ map step_summary
        (run_from_load V110.on_file_open V110.DEFAULT_SETTINGS (no_note wide)
           [FileOpen (two_notes wide) (Some "other.md")])
      = [(Some 0%nat, true)])
  /\ (ws_panes
        (host_after (V110.on_file_open (Some note)) fresh110 (one_note_throwing "source" wide))
      = ws_panes (two_notes wide)
      /\ plugin_after (V110.on_file_open (Some note)) fresh110
           (one_note_throwing "source" wide)
         = fresh110
      /\ map step_summary
           (run_from_load V110.on_file_open V110.DEFAULT_SETTINGS (no_note wide)
              [FileOpen (one_note_throwing "source" wide) (Some note);
               FileOpen (two_notes wide) (Some "other.md")])
         = [(Some 0%nat, true); (Some 0%nat, true)])
  /\ (forall (H : Type) (HH : Host H) (file : option TFile)
             (p : Plugin V110.AutoSplitSettings) (h : H),
         split_performed (log_of (V112.on_file_open file) p h) = true ->
         hasOpenFiles p = false /\ exists l0, getLeavesOfType h "markdown" = inr [l0])
  /\ (forall (H : Type) (HH : Host H) (file : option TFile)
             (p : Plugin V120.AutoSplitSettings) (h : H),
         split_performed (log_of (V120.on_file_open file) p h) = true ->
         hasOpenFiles p = false /\ exists l0, getLeavesOfType h "markdown" = inr [l0])
  /\ log_of (V112.on_file_open (Some "other.md")) fresh110 (two_notes wide) = []
  /\ log_of (V120.on_file_open (Some "other.md")) fresh120 (two_notes wide) = [].
Proof.
  split; [repeat split; reflexivity |].
  split; [repeat split; reflexivity |].
  split; [intros H HH; apply split_needs_single_leaf112 |].
  split; [intros H HH; apply split_needs_single_leaf120 |].
  split; reflexivity.
Qed.

(** C4 on the first note opened into an empty window: releases 1.1.2 and 1.2
    split it, with the flag down and one markdown leaf listed. *)
Lemma C4_witness_single_note_is_split :
  (split_performed (log_of (V112.on_file_open (Some note)) fresh110 (one_note "source" wide))
   = true
   /\ hasOpenFiles fresh110 = false
   /\ exists l0, getLeavesOfType (one_note "source" wide) "markdown" = inr [l0])
  /\ (split_performed (log_of (V120.on_file_open (Some note)) fresh120 (one_note "source" wide))
      = true
      /\ hasOpenFiles fresh120 = false
      /\ exists l0, getLeavesOfType (one_note "source" wide) "markdown" = inr [l0]).
Proof.
  pose proof C4_release_1_1_splits_with_note_views_open as (_ & _ & T3 & T4 & _).
  split.
  - split; [reflexivity |].
    refine (T3 Workspace _ (Some note) fresh110 (one_note "source" wide) _). reflexivity.
  - split; [reflexivity |].
    refine (T4 Workspace _ (Some note) fresh120 (one_note "source" wide) _). reflexivity.
Defined.
